(** * Automatic Model Tuning notebook (warm-started tuning jobs)

    A shallow embedding of [lab_3_automatic_model_tuning/automatic_model_tuning.ipynb]:
    the pandas data preparation (one-hot encoding, column reordering, the
    70/30 split, the CSV export, the column clean-up for the second job) and
    the calls into the SageMaker SDK (tuner construction, warm start, [fit],
    status polling, the tables of results), with the cells that set these up
    (role and bucket, S3 locations, inputs, trainer).

    The notebook is Python; its cells run one after the other over a shared
    namespace.  A cell is embedded as a state transformer that may raise; the
    pandas and SageMaker operations the cells call are embedded as functions
    following the behaviour of the versions the notebook was written for
    (pandas 0.24 on Python 3, SageMaker Python SDK 1.x). *)

From Stdlib Require Import ZArith Floats Uint63 Sorted.
From stdpp Require Import gmap strings list pretty.

#[local] Set Warnings "-inexact-float".

(** ** Python exceptions and results *)

Inductive exn :=
| SyntaxError
| NameError (name : string)
| KeyError (key : string)
| IndexError
| TypeError
| AttributeError (attr : string)
| ValueError (msg : string)
| Unaligned
| ClientError (msg : string).

Inductive result (A : Type) :=
| OK (a : A)
| Raise (e : exn).
Arguments OK {A} a.
Arguments Raise {A} e.

Definition rbind {A B} (r : result A) (k : A → result B) : result B :=
  match r with
  | OK a => k a
  | Raise e => Raise e
  end.

(** ** pandas *)

Module Pandas.

(** Column types.  [read_csv] infers [int64], [float64], [bool_] or [object]
    for a column; [uint8] is the type [get_dummies] gives its indicators. *)
Inductive dtype := int64 | float64 | bool_ | object | uint8.

(** A column of values of one type.  In an [object] column read from a CSV
    file a cell is a string, or missing ([None], pandas' NaN). *)
Inductive Series :=
| IntS (v : list Z)
| FloatS (v : list float)
| BoolS (v : list bool)
| ObjectS (v : list (option string))
| UInt8S (v : list Z).

Definition dtype_of (s : Series) : dtype :=
  match s with
  | IntS _ => int64
  | FloatS _ => float64
  | BoolS _ => bool_
  | ObjectS _ => object
  | UInt8S _ => uint8
  end.

(** [pandas.api.types.is_numeric_dtype]: every type above but [object]. *)
Definition is_numeric_dtype (d : dtype) : bool :=
  match d with
  | object => false
  | _ => true
  end.

Definition is_object (s : Series) : bool :=
  match s with
  | ObjectS _ => true
  | _ => false
  end.

(** One value of a frame, whatever its column's type. *)
Inductive cell :=
| CInt (z : Z)
| CFloat (f : float)
| CBool (b : bool)
| CStr (s : string)
| CNaN
| CUInt8 (z : Z).

Definition is_numeric_cell (c : cell) : bool :=
  match c with
  | CStr _ => false
  | _ => true
  end.

Definition cell_of_object (o : option string) : cell :=
  match o with
  | Some s => CStr s
  | None => CNaN
  end.

Definition cells (s : Series) : list cell :=
  match s with
  | IntS v => CInt <$> v
  | FloatS v => CFloat <$> v
  | BoolS v => CBool <$> v
  | ObjectS v => cell_of_object <$> v
  | UInt8S v => CUInt8 <$> v
  end.

(** Row selection acts on every column alike, whatever its type. *)
Definition select (f : ∀ A, list A → list A) (s : Series) : Series :=
  match s with
  | IntS v => IntS (f _ v)
  | FloatS v => FloatS (f _ v)
  | BoolS v => BoolS (f _ v)
  | ObjectS v => ObjectS (f _ v)
  | UInt8S v => UInt8S (f _ v)
  end.

(** A frame: the row labels (the index) and the named columns, in order.
    [read_csv] labels the rows 0, 1, 2, ... (a RangeIndex). *)
Record DataFrame := mkFrame {
  index : list nat;
  columns : list (string * Series)
}.

Definition nrows (df : DataFrame) : nat := length (index df).

Definition column_names (df : DataFrame) : list string := fst <$> columns df.

(** Every column has one value per row. *)
Definition wf (df : DataFrame) : Prop :=
  Forall (λ c, length (cells c.2) = nrows df) (columns df).

(** The rows of a frame, as [to_csv] and [take] see them. *)
Definition row_at (df : DataFrame) (i : nat) : list cell :=
  (λ c, default CNaN (cells c.2 !! i)) <$> columns df.

Definition rows (df : DataFrame) : list (nat * list cell) :=
  imap (λ i lbl, (lbl, row_at df i)) (index df).

(** The row at a position, with its label. *)
Definition label_at (df : DataFrame) (i : nat) : nat := default 0 (index df !! i).

Definition labelled_row (df : DataFrame) (i : nat) : nat * list cell :=
  (label_at df i, row_at df i).

(** *** [pd.get_dummies(data)]

    With no [columns] argument the [object] columns are encoded and the others
    are kept, in front.  An encoded column gives one [uint8] indicator column
    per level, named [<column>_<level>]; the levels are the distinct values
    present in the column, sorted; a missing value belongs to no level. *)

Fixpoint insert_level (s : string) (l : list string) : list string :=
  match l with
  | [] => [s]
  | x :: l' =>
      match String.compare s x with
      | Lt => s :: l
      | Eq => l
      | Gt => x :: insert_level s l'
      end
  end.

Definition levels (v : list (option string)) : list string :=
  foldr (λ o acc, match o with Some s => insert_level s acc | None => acc end) [] v.

Definition indicator (lv : string) (v : list (option string)) : list Z :=
  (λ o, if decide (o = Some lv) then 1%Z else 0%Z) <$> v.

Definition dummies (name : string) (v : list (option string)) : list (string * Series) :=
  (λ lv, (name +:+ "_" +:+ lv, UInt8S (indicator lv v))) <$> levels v.

Definition encode (c : string * Series) : list (string * Series) :=
  match c.2 with
  | ObjectS v => dummies c.1 v
  | _ => []
  end.

(** The frame the call returns, for a frame that has a column (the call
    itself is [pd_get_dummies], below). *)
Definition get_dummies (data : DataFrame) : DataFrame :=
  {| index := index data;
     columns := filter (λ c, is_object c.2 = false) (columns data)
                ++ (columns data ≫= encode) |}.

(** The call proper.  pandas builds the frame above from pieces (the columns
    it keeps, then one frame of indicators per encoded column) that it puts
    side by side with [concat]; a frame with no column at all gives no piece,
    and [concat] refuses an empty list. *)
Definition pd_get_dummies (data : DataFrame) : result DataFrame :=
  match columns data with
  | [] => Raise (ValueError "No objects to concatenate")
  | _ :: _ => OK (get_dummies data)
  end.

(** *** Row and column selection *)

(** [frame.take(locs)]: the rows at the given positions, in the given order,
    with their labels.  A position outside the frame raises. *)
Definition take_list {A} (locs : list nat) (l : list A) : list A :=
  omap (λ i, l !! i) locs.

Definition take (locs : list nat) (df : DataFrame) : result DataFrame :=
  if forallb (λ i, (i <? nrows df)%nat) locs
  then OK {| index := take_list locs (index df);
             columns := prod_map id (select (λ A, take_list locs)) <$> columns df |}
  else Raise IndexError.

(** Keep the entries of [l] whose mask bit is set. *)
Fixpoint compress {A} (mask : list bool) (l : list A) : list A :=
  match mask, l with
  | b :: mask, x :: l => if b then x :: compress mask l else compress mask l
  | _, _ => []
  end.

(** The positions a mask keeps. *)
Definition kept (mask : list bool) : list nat :=
  compress mask (seq 0 (length mask)).

(** [frame.drop(labels)] along axis 0: every label must be in the index
    ([errors='raise']); the rows carrying one of the labels go. *)
Definition row_mask (labels : list nat) (df : DataFrame) : list bool :=
  (λ l, bool_decide (l ∉ labels)) <$> index df.

Definition drop_rows (labels : list nat) (df : DataFrame) : result DataFrame :=
  match filter (λ l, l ∉ index df) labels with
  | [] =>
      let mask := row_mask labels df in
      OK {| index := compress mask (index df);
            columns := prod_map id (select (λ A, compress mask)) <$> columns df |}
  | l :: _ => Raise (KeyError (pretty l))
  end.

(** [frame.drop(labels, axis=1)]: every label must name a column; the columns
    carrying one of the names go, the others stay as they are. *)
Definition drop_columns (labels : list string) (df : DataFrame) : result DataFrame :=
  match filter (λ l, l ∉ column_names df) labels with
  | [] =>
      OK {| index := index df;
            columns := filter (λ c, c.1 ∉ labels) (columns df) |}
  | l :: _ => Raise (KeyError l)
  end.

(** The [drop] method proper.  It returns the frame the receiver is afterwards
    and the value of the call: with [inplace=False] (the default) the receiver
    is untouched and the call returns the new frame; with [inplace=True] the
    receiver is changed and the call returns [None]. *)
Inductive axis := Axis0 (labels : list nat) | Axis1 (labels : list string).

Definition drop (ax : axis) (inplace : bool) (self : DataFrame)
  : result (DataFrame * option DataFrame) :=
  rbind (match ax with
         | Axis0 labels => drop_rows labels self
         | Axis1 labels => drop_columns labels self
         end)
        (λ new, if inplace then OK (new, None) else OK (self, Some new)).

(** [frame[name]]: the column of that name (all of them when the name is
    repeated), with the frame's index; [KeyError] when there is none. *)
Definition getitem (name : string) (df : DataFrame) : result DataFrame :=
  match filter (λ c, c.1 = name) (columns df) with
  | [] => Raise (KeyError name)
  | cs => OK {| index := index df; columns := cs |}
  end.

(** [pd.concat([a, b], axis=1)]: operands with the same index are put side
    by side.  (On differing indexes pandas aligns the rows by an outer join;
    no cell of the notebook does that, and the embedding answers [Unaligned]
    there.) *)
Definition concat_axis1 (a b : DataFrame) : result DataFrame :=
  if decide (index a = index b)
  then OK {| index := index a; columns := columns a ++ columns b |}
  else Raise Unaligned.

(** [frame.empty]: the frame has no row or no column. *)
Definition empty (df : DataFrame) : bool :=
  match index df, columns df with
  | _ :: _, _ :: _ => false
  | _, _ => true
  end.

(** *** [frame.sort_values([name], ascending=...)]

    The rows are reordered by the values of one column, missing values last.
    pandas sets the missing values aside, has numpy sort the others and, for
    a descending order, reverses the values before the sort and the result
    after it.  numpy's [argsort] (a quicksort, which does not say where equal
    values go) is numpy's, not the notebook's; the embedding takes it as an
    interface: the positions of the values of an array, in ascending order of
    the values. *)
Class NumpySort := {
  argsort : list cell → list nat
}.

Definition isna (c : cell) : bool :=
  match c with
  | CNaN => true
  | CFloat f => PrimFloat.is_nan f
  | _ => false
  end.

Section Sort.
Context `{NumpySort}.

Definition nargsort (ascending : bool) (items : list cell) : list nat :=
  let idx := seq 0 (length items) in
  let mask := isna <$> items in
  let non_nans := compress (negb <$> mask) items in
  let non_nan_idx := compress (negb <$> mask) idx in
  let nan_idx := compress mask idx in
  let non_nans := if ascending then non_nans else reverse non_nans in
  let non_nan_idx := if ascending then non_nan_idx else reverse non_nan_idx in
  let indexer := take_list (argsort non_nans) non_nan_idx in
  let indexer := if ascending then indexer else reverse indexer in
  indexer ++ nan_idx.

(** The column must be there, and there once. *)
Definition sort_values (label : string) (ascending : bool) (df : DataFrame)
    : result DataFrame :=
  match filter (λ c, c.1 = label) (columns df) with
  | [] => Raise (KeyError label)
  | [c] => take (nargsort ascending (cells c.2)) df
  | _ => Raise (ValueError ("The column label '" +:+ label +:+ "' is not unique."))
  end.
End Sort.

(** *** [frame.sample(frac=..., random_state=...)]

    The number of rows drawn is [int(round(frac * len(frame)))], computed on
    binary64 floats with Python 3's [round] (to nearest, ties to even). *)

(** [float(n)] for a Python integer: exact below 2^53 (any row count is),
    rounded to nearest-even above. *)
Definition float_of_int (n : Z) : float :=
  if ((0 <=? n) && (n <? 2 ^ 53))%Z
  then PrimFloat.of_uint63 (Uint63.of_Z n)
  else SF2Prim (binary_normalize prec emax n 0 false).

(** [round(x)] of a float; [None] where Python raises (infinities and NaN).
    A finite float is [m * 2^e]; for a negative [e] the quotient and the
    remainder of [m] by [2^-e] are a shift and a mask. *)
Definition round (x : float) : option Z :=
  match Prim2SF x with
  | S754_zero _ => Some 0%Z
  | S754_finite s m e =>
      let mag :=
        if (0 <=? e)%Z then Z.shiftl (Z.pos m) e
        else
          let q := Z.shiftr (Z.pos m) (- e) in
          let r := Z.land (Z.pos m) (Z.ones (- e)) in
          match (r ?= Z.shiftl 1 (- e - 1))%Z with
          | Lt => q
          | Gt => (q + 1)%Z
          | Eq => if Z.even q then q else (q + 1)%Z
          end in
      Some (if s then (- mag)%Z else mag)
  | _ => None
  end.

Definition sample_size (frac : float) (n : Z) : option Z :=
  round (PrimFloat.mul frac (float_of_int n)).

(** numpy's generator: [RandomState(seed)] builds a generator from a seed,
    [permutation g n] shuffles [0 .. n-1] and advances the generator.  The
    Mersenne Twister behind them is numpy's, not the notebook's; the embedding
    takes the two operations as an interface. *)
Class NumpyRandom := {
  rng : Type;
  RandomState : Z → rng;
  permutation : rng → nat → list nat * rng
}.

Section Sample.
Context `{NumpyRandom}.

(** [random_state=None] draws from numpy's global generator [g] and
    advances it; an integer seeds a generator of the call's own.  A negative
    row count is refused.  The draw is [choice(n, size, replace=False)]: it
    raises when more rows are asked for than there are, and is the front of a
    permutation otherwise.  (Drawing from an empty frame raises in some numpy
    versions and returns no row in others; the second is embedded, and the
    properties that need the draw to go through take a frame with a row.) *)
Definition sample (frac : float) (random_state : option Z) (df : DataFrame)
    (g : rng) : result DataFrame * rng :=
  match sample_size frac (Z.of_nat (nrows df)) with
  | None => (Raise (ValueError "cannot convert float to integer"), g)
  | Some k =>
      if (k <? 0)%Z
      then (Raise (ValueError "A negative number of rows requested. Please provide positive value."), g)
      else if (Z.of_nat (nrows df) <? k)%Z
      then (Raise (ValueError "Cannot take a larger sample than population when 'replace=False'"), g)
      else
        let (p, g') := permutation (from_option RandomState g random_state) (nrows df) in
        (take (firstn (Z.to_nat k) p) df,
         match random_state with Some _ => g | None => g' end)
  end.
End Sample.

(** *** [frame.to_csv(path, index=..., header=...)]

    The file as a table of fields, one line per list.  With [header] the first
    line holds the column names (after an empty corner field when the index
    is written too); with [index] every line starts with the row's label. *)
Inductive field :=
| FName (name : string)
| FLabel (label : nat)
| FCell (c : cell).

Definition to_csv (index header : bool) (df : DataFrame) : list (list field) :=
  (if header
   then [(if index then [FName EmptyString] else []) ++ (FName <$> column_names df)]
   else [])
  ++ ((λ r, (if index then [FLabel r.1] else []) ++ (FCell <$> r.2)) <$> rows df).

End Pandas.

(** ** The SageMaker Python SDK (1.x) *)

Module Sagemaker.

(** [sagemaker.estimator.Estimator], as the trainer cell configures it. *)
Record Estimator := mkEstimator {
  image_name : string;
  role : string;
  train_instance_count : Z;
  train_instance_type : string;
  output_path : string;
  hyperparameters : list (string * string)
}.

(** [sagemaker.session.s3_input]. *)
Record s3_input := mk_s3_input {
  s3_data : string;
  distribution : string;
  content_type : string;
  s3_data_type : string
}.

(** [sagemaker.tuner]: the search ranges. *)
Inductive ParameterRange :=
| ContinuousParameter (min_value max_value : Z)
| IntegerParameter (min_value max_value : Z).

Inductive WarmStartTypes := IDENTICAL_DATA_AND_ALGORITHM | TRANSFER_LEARNING.

(** [WarmStartConfig]: the warm-start mode and the set of parent jobs.  A job
    name is a string, or Python's [None] before any job was started. *)
Record WarmStartConfig := mkWarmStartConfig {
  type : WarmStartTypes;
  parents : gset (option string)
}.


(** [WarmStartConfig.__init__]: an empty parent collection is refused. *)
Definition WarmStartConfig_init (warm_start_type : WarmStartTypes)
    (parents : gset (option string)) : result WarmStartConfig :=
  if decide (parents = ∅)
  then Raise (ValueError "parents should not be None/empty")
  else OK {| type := warm_start_type; parents := parents |}.

Record HyperparameterTuner := mkTuner {
  estimator : Estimator;
  objective_metric_name : string;
  hyperparameter_ranges : gmap string ParameterRange;
  objective_type : string;
  max_jobs : Z;
  max_parallel_jobs : Z;
  base_tuning_job_name : option string;
  warm_start_config : option WarmStartConfig;
  _current_job_name : option string
}.

(** [HyperparameterTuner.__init__]: empty ranges are refused; no job has been
    started yet. *)
Definition HyperparameterTuner_init (estimator : Estimator)
    (objective_metric_name : string)
    (hyperparameter_ranges : gmap string ParameterRange)
    (objective_type : string) (max_jobs max_parallel_jobs : Z)
    (base_tuning_job_name : option string)
    (warm_start_config : option WarmStartConfig) : result HyperparameterTuner :=
  if decide (hyperparameter_ranges = ∅)
  then Raise (ValueError "Need to specify hyperparameter ranges")
  else OK {| estimator := estimator;
             objective_metric_name := objective_metric_name;
             hyperparameter_ranges := hyperparameter_ranges;
             objective_type := objective_type;
             max_jobs := max_jobs;
             max_parallel_jobs := max_parallel_jobs;
             base_tuning_job_name := base_tuning_job_name;
             warm_start_config := warm_start_config;
             _current_job_name := None |}.

(** What [fit] sends to [CreateHyperParameterTuningJob] (the fields of the
    request the notebook determines). *)
Record TuneRequest := mkTuneRequest {
  HyperParameterTuningJobName : string;
  ObjectiveType : string;
  ObjectiveMetricName : string;
  MaxNumberOfTrainingJobs : Z;
  MaxParallelTrainingJobs : Z;
  ParameterRanges : gmap string ParameterRange;
  TrainingImage : string;
  InputDataConfig : list (string * s3_input);
  WarmStart : option WarmStartConfig
}.

(** The part of [DescribeHyperParameterTuningJob]'s answer the notebook reads. *)
Record TrainingJobStatusCounters := mkCounters {
  Completed : Z
}.

Record TuningJobDescription := mkDescription {
  HyperParameterTuningJobStatus : string;
  StatusCounters : TrainingJobStatusCounters
}.

(** The service and the SDK's naming helpers are outside the notebook.  A call
    is answered according to the time it is made at: [create] accepts a
    request ([None]) or raises, [describe] returns a description or raises. *)
Class Service := {
  base_name_from_image : string → string;
  name_from_base : string → nat → string;
  create_hyper_parameter_tuning_job : nat → TuneRequest → option exn;
  describe_hyper_parameter_tuning_job : nat → option string → result TuningJobDescription
}.

(** [s3_input(location, distribution='FullyReplicated',
    content_type='text/csv', s3_data_type='S3Prefix')], the one way the
    notebook builds an input. *)
Definition csv_input (s3_data : string) : s3_input :=
  {| s3_data := s3_data; distribution := "FullyReplicated";
     content_type := "text/csv"; s3_data_type := "S3Prefix" |}.

(** [xgb.set_hyperparameters(name=value, ...)]: each keyword is stored in the
    estimator's dictionary, over an earlier value of the same name or as a new
    entry at the end.  (A value is held as the text the request will carry.) *)
Definition set_hyperparameter (d : list (string * string)) (kv : string * string)
    : list (string * string) :=
  if decide (kv.1 ∈ d.*1)
  then (λ e, if decide (e.1 = kv.1) then kv else e) <$> d
  else d ++ [kv].

Definition set_hyperparameters (kwargs : list (string * string)) (e : Estimator)
    : Estimator :=
  mkEstimator (image_name e) (role e) (train_instance_count e)
              (train_instance_type e) (output_path e)
              (foldl set_hyperparameter (hyperparameters e) kwargs).

(** The account the notebook runs in, as the SDK and boto3 see it: the
    execution role of the notebook instance, whether a session can be built
    ([None]) or building one raises, the session's default bucket, the region
    boto3 is configured for ([None] when there is none), the SDK's table of
    algorithm images, and whether boto3 can build a client for the service
    ([None]) or building one raises.  A lookup returns or raises. *)
Class Account := {
  get_execution_role : result string;
  new_session : option exn;
  default_bucket : result string;
  region_name : option string;
  get_image_uri : option string → string → result string;
  new_client : option exn
}.

(** [sagemaker.HyperparameterTuningJobAnalytics]: the name of the tuning job
    it was built for, and the table of the job's training jobs once it has
    been fetched. *)
Record HyperparameterTuningJobAnalytics := mkAnalytics {
  _tuning_job_name : option string;
  _dataframe : option Pandas.DataFrame
}.

(** The table the analytics object builds from the training jobs the service
    lists for a tuning job: one row per training job, with the values of the
    tuned hyperparameters and with [TrainingJobName], [TrainingJobStatus],
    [FinalObjectiveValue] and the start and end times as columns.  The
    listing is answered according to the time it is made at, and returns or
    raises. *)
Class Analytics := {
  fetch_dataframe : nat → option string → result Pandas.DataFrame
}.

End Sagemaker.

(** ** The notebook *)

Module Notebook.
Import Pandas Sagemaker.

(** The values the cells bind names to. *)
Inductive pyobj :=
| ONone
| OStr (s : string)
| OInt (z : Z)
| OFrame (df : DataFrame)
| OEstimator (e : Estimator)
| ORanges (r : gmap string ParameterRange)
| OInput (i : s3_input)
| OWarmStartConfig (w : WarmStartConfig)
| OTuner (t : HyperparameterTuner)
| OClient
| OClass (name : string)
| ODescription (d : TuningJobDescription)
| OAnalytics (a : HyperparameterTuningJobAnalytics).

Section Cells.
Context `{NumpyRandom} `{Service} `{Account} `{Analytics} `{NumpySort}.

(** The kernel's state: the namespace, the files in the working directory,
    numpy's global generator, what was printed, and the traffic with the
    service (a clock that ticks at every call, and the create requests sent,
    oldest first). *)
Record State := mkState {
  ns : gmap string pyobj;
  files : gmap string (list (list field));
  np_random : rng;
  stdout : list string;
  clock : nat;
  requests : list TuneRequest
}.

(** A cell runs on the state and returns or raises; what it did before
    raising stays done.  Nothing in the notebook catches an exception. *)
Definition Cell (A : Type) : Type := State → result A * State.

Definition ret {A} (a : A) : Cell A := λ s, (OK a, s).
Definition raise {A} (e : exn) : Cell A := λ s, (Raise e, s).
Definition bind {A B} (c : Cell A) (k : A → Cell B) : Cell B :=
  λ s, match c s with
       | (OK a, s') => k a s'
       | (Raise e, s') => (Raise e, s')
       end.
Definition lift {A} (r : result A) : Cell A := λ s, (r, s).

Notation "x <- c ;; k" := (bind c (λ x, k))
  (at level 100, c at next level, right associativity).
Notation "c ;; k" := (bind c (λ _, k))
  (at level 100, right associativity).

Definition getvar (name : string) : Cell pyobj :=
  λ s, match ns s !! name with
       | Some v => (OK v, s)
       | None => (Raise (NameError name), s)
       end.

Definition setvar (name : string) (v : pyobj) : Cell unit :=
  λ s, (OK (), mkState (<[name := v]> (ns s)) (files s) (np_random s)
                       (stdout s) (clock s) (requests s)).

Definition write_file (path : string) (content : list (list field)) : Cell unit :=
  λ s, (OK (), mkState (ns s) (<[path := content]> (files s)) (np_random s)
                       (stdout s) (clock s) (requests s)).

Definition print (line : string) : Cell unit :=
  λ s, (OK (), mkState (ns s) (files s) (np_random s)
                       (stdout s ++ [line]) (clock s) (requests s)).

(** Using a value as a frame, a tuner, ...: anything else has not got the
    attribute or method asked for. *)
Definition as_frame (v : pyobj) : result DataFrame :=
  match v with OFrame df => OK df | _ => Raise TypeError end.
Definition as_str (v : pyobj) : result string :=
  match v with OStr s => OK s | _ => Raise TypeError end.
Definition as_estimator (v : pyobj) : result Estimator :=
  match v with OEstimator e => OK e | _ => Raise TypeError end.
Definition as_ranges (v : pyobj) : result (gmap string ParameterRange) :=
  match v with ORanges r => OK r | _ => Raise TypeError end.
Definition as_input (v : pyobj) : result s3_input :=
  match v with OInput i => OK i | _ => Raise TypeError end.
Definition as_warm_start_config (v : pyobj) : result WarmStartConfig :=
  match v with OWarmStartConfig w => OK w | _ => Raise TypeError end.
Definition as_job_name (v : pyobj) : result (option string) :=
  match v with OStr s => OK (Some s) | ONone => OK None | _ => Raise TypeError end.

Definition frame_var (name : string) : Cell DataFrame :=
  v <- getvar name ;; lift (as_frame v).

(** [name.drop(labels, ...)]: the receiver is what the method leaves it,
    the call's value is the method's. *)
Definition call_drop (name : string) (ax : axis) (inplace : bool) : Cell pyobj :=
  self <- frame_var name ;;
  r <- lift (drop ax inplace self) ;;
  setvar name (OFrame r.1) ;;
  ret (from_option OFrame ONone r.2).

(** [name.sample(frac=..., random_state=...)]. *)
Definition call_sample (name : string) (frac : float) (random_state : option Z)
    : Cell DataFrame :=
  self <- frame_var name ;;
  λ s, let (r, g) := sample frac random_state self (np_random s) in
       (r, mkState (ns s) (files s) g (stdout s) (clock s) (requests s)).

(** *** Data preparation *)

(** [dst = pd.get_dummies(src)] *)
Definition encode_cell (src dst : string) : Cell unit :=
  data <- frame_var src ;;
  encoded <- lift (pd_get_dummies data) ;;
  setvar dst (OFrame encoded).

(** [model_data = pd.get_dummies(data)] *)
Definition cell_8 : Cell unit := encode_cell "data" "model_data".

(** The reformatting, split and export, written once for the two cells that
    hold it (on [model_data] and on [clean_model_data]):
<<
    md = pd.concat([md['y_yes'], md.drop(['y_no', 'y_yes'], axis=1)], axis=1)
    train = md.sample(frac=0.7, random_state=1729)
    validation = md.drop(train.index)
    train.to_csv('train.csv', index=False, header=False)
    validation.to_csv('validation.csv', index=False, header=False)
>> *)
Definition frac_07 : float := 0x1.6666666666666p-1%float.

Definition reformat_split_save (md train validation : string) : Cell unit :=
  d <- frame_var md ;;
  label <- lift (getitem "y_yes" d) ;;
  rest <- call_drop md (Axis1 ["y_no"; "y_yes"]) false ;;
  rest <- lift (as_frame rest) ;;
  new <- lift (concat_axis1 label rest) ;;
  setvar md (OFrame new) ;;
  tr <- call_sample md frac_07 (Some 1729%Z) ;;
  setvar train (OFrame tr) ;;
  tr <- frame_var train ;;
  va <- call_drop md (Axis0 (index tr)) false ;;
  setvar validation va ;;
  tr <- frame_var train ;;
  write_file "train.csv" (to_csv false false tr) ;;
  va <- frame_var validation ;;
  write_file "validation.csv" (to_csv false false va).

(** The cell after the encoding: the code above on [model_data], giving
    [train_data] and [validation_data]. *)
Definition cell_10 : Cell unit :=
  reformat_split_save "model_data" "train_data" "validation_data".

(** The clean-up cell:
<<
    clean_data = data.drop(['duration', 'emp.var.rate', 'cons.price.idx',
                            'cons.conf.idx', 'euribor3m', 'nr.employed'], axis=1)
>> *)
Definition forecast_columns : list string :=
  ["duration"; "emp.var.rate"; "cons.price.idx"; "cons.conf.idx";
   "euribor3m"; "nr.employed"].

Definition cell_28 : Cell unit :=
  v <- call_drop "data" (Axis1 forecast_columns) false ;;
  setvar "clean_data" v.

(** The preparation cell of the second job:
    [clean_model_data = pd.get_dummies(clean_data)], then the code above on
    [clean_model_data], giving [clean_train_data] and
    [clean_validation_data]; the two files are written over. *)
Definition cell_30 : Cell unit :=
  encode_cell "clean_data" "clean_model_data" ;;
  reformat_split_save "clean_model_data" "clean_train_data" "clean_validation_data".

(** *** The first tuning job *)

(** A right-hand side written by the reader: a Python expression, evaluated
    in the namespace. *)
Definition expr : Type := gmap string pyobj → result pyobj.

Definition eval (e : expr) : Cell pyobj := λ s, (e (ns s), s).

Definition name (x : string) (m : gmap string pyobj) : result pyobj :=
  match m !! x with
  | Some v => OK v
  | None => Raise (NameError x)
  end.

(** [from sagemaker.tuner import ...] binds the imported names. *)
Definition imported (names : list string) (m : gmap string pyobj) : gmap string pyobj :=
  foldr (λ x m, <[x := OClass x]> m) m names.

Definition import (names : list string) : Cell unit :=
  λ s, (OK (), mkState (imported names (ns s)) (files s)
                       (np_random s) (stdout s) (clock s) (requests s)).

(** [import m] binds the module's name; [m.attr] needs the name bound to the
    module. *)
Definition module (m attr : string) : Cell unit :=
  v <- getvar m ;;
  lift (match v with
        | OClass c => if decide (c = m) then OK () else Raise (AttributeError attr)
        | _ => Raise (AttributeError attr)
        end).

(** The tuner cell.  As published it reads
<<
    from sagemaker.tuner import IntegerParameter, ContinuousParameter, HyperparameterTuner
    hyperparameter_ranges = #TODO
    objective_metric_name = 'validation:auc'
    tuner = #TODO
>>
    with the two right-hand sides left to the reader; comments say what to
    write.  [None] stands for a right-hand side still missing: Python does
    not compile the cell then, and none of its statements runs. *)
Definition cell_17 (ranges_todo tuner_todo : option expr) : Cell unit :=
  match ranges_todo, tuner_todo with
  | Some ranges, Some tuner =>
      import ["IntegerParameter"; "ContinuousParameter"; "HyperparameterTuner"] ;;
      v <- eval ranges ;;
      setvar "hyperparameter_ranges" v ;;
      setvar "objective_metric_name" (OStr "validation:auc") ;;
      v <- eval tuner ;;
      setvar "tuner" v
  | _, _ => raise SyntaxError
  end.

Definition cell_17_published : Cell unit := cell_17 None None.

(** The right-hand sides the cell's comments ask for:
    ['eta'] a [ContinuousParameter] from 0 to 1, ['alpha'] one from 0 to 2,
    ['min_child_weight'] one from 1 to 10, ['max_depth'] an
    [IntegerParameter] from 1 to 10; and a [HyperparameterTuner] on [xgb]
    with [objective_metric_name], [objective_type = 'Maximize'], 5
    [max_jobs] and 3 [max_parallel_jobs]. *)
Definition directed_ranges : gmap string ParameterRange :=
  <["eta" := ContinuousParameter 0 1]>
  (<["alpha" := ContinuousParameter 0 2]>
  (<["min_child_weight" := ContinuousParameter 1 10]>
  (<["max_depth" := IntegerParameter 1 10]> ∅))).

Definition ranges_as_directed : expr :=
  λ m,
    rbind (name "ContinuousParameter" m) (λ _,
    rbind (name "IntegerParameter" m) (λ _,
    OK (ORanges directed_ranges))).

Definition tuner_as_directed : expr :=
  λ m,
    rbind (name "HyperparameterTuner" m) (λ _,
    rbind (rbind (name "xgb" m) as_estimator) (λ xgb,
    rbind (rbind (name "objective_metric_name" m) as_str) (λ metric,
    rbind (rbind (name "hyperparameter_ranges" m) as_ranges) (λ ranges,
    rbind (HyperparameterTuner_init xgb metric ranges "Maximize" 5 3 None None)
          (λ t, OK (OTuner t)))))).

(** *** Talking to the service *)

Definition tick : Cell nat :=
  λ s, (OK (clock s), mkState (ns s) (files s) (np_random s) (stdout s)
                              (S (clock s)) (requests s)).

Definition create_job (req : TuneRequest) : Cell unit :=
  now <- tick ;;
  λ s, (match create_hyper_parameter_tuning_job now req with
        | None => OK ()
        | Some e => Raise e
        end,
        mkState (ns s) (files s) (np_random s) (stdout s) (clock s)
                (requests s ++ [req])).

Definition describe_job (job : option string) : Cell TuningJobDescription :=
  now <- tick ;;
  lift (describe_hyper_parameter_tuning_job now job).

(** [base_tuning_job_name or base_name_from_image(image)] *)
Definition base_name (t : HyperparameterTuner) : string :=
  match base_tuning_job_name t with
  | Some b => if decide (b = EmptyString)
              then base_name_from_image (image_name (estimator t)) else b
  | None => base_name_from_image (image_name (estimator t))
  end.

Definition started (t : HyperparameterTuner) (job : string) : HyperparameterTuner :=
  mkTuner (estimator t) (objective_metric_name t) (hyperparameter_ranges t)
          (objective_type t) (max_jobs t) (max_parallel_jobs t)
          (base_tuning_job_name t) (warm_start_config t) (Some job).

Definition tune_request (t : HyperparameterTuner) (job : string)
    (inputs : list (string * s3_input)) : TuneRequest :=
  {| HyperParameterTuningJobName := job;
     ObjectiveType := objective_type t;
     ObjectiveMetricName := objective_metric_name t;
     MaxNumberOfTrainingJobs := max_jobs t;
     MaxParallelTrainingJobs := max_parallel_jobs t;
     ParameterRanges := hyperparameter_ranges t;
     TrainingImage := image_name (estimator t);
     InputDataConfig := inputs;
     WarmStart := warm_start_config t |}.

(** [tuner.fit({'train': s3_input_train, 'validation': s3_input_validation},
    include_cls_metadata=False)]: the tuner takes a fresh job name, then the
    request goes out.  [fit] does not wait for the job. *)
Definition tuner_var (x attr : string) : Cell HyperparameterTuner :=
  v <- getvar x ;;
  lift (match v with OTuner t => OK t | _ => Raise (AttributeError attr) end).

Definition input_config (v : pyobj) : result s3_input :=
  match v with
  | OInput i => OK i
  | _ => Raise (ValueError "Cannot format input")
  end.

Definition fit (x : string) : Cell unit :=
  t <- tuner_var x "fit" ;;
  tr <- getvar "s3_input_train" ;;
  va <- getvar "s3_input_validation" ;;
  now <- tick ;;
  let job := name_from_base (base_name t) now in
  setvar x (OTuner (started t job)) ;;
  tr <- lift (input_config tr) ;;
  va <- lift (input_config va) ;;
  create_job (tune_request t job [("train", tr); ("validation", va)]).

Definition cell_19 : Cell unit := fit "tuner".

(** The status cell, the same for the two jobs but for the tuner asked:
<<
    sage_client = boto3.Session().client('sagemaker')
    job_name = tuner._current_job_name
    tuning_job_result = sage_client.describe_hyper_parameter_tuning_job(
        HyperParameterTuningJobName=job_name)
    status = tuning_job_result['HyperParameterTuningJobStatus']
    print("Current status: {}".format(status))
    if status != 'Completed':
        print('Reminder: the tuning job has not been completed.')
    job_count = tuning_job_result['TrainingJobStatusCounters']['Completed']
    print("{} training jobs have completed".format(job_count))
>>
    The first line needs [boto3] imported, and building the client may
    raise. *)
Definition reminder : string := "Reminder: the tuning job has not been completed.".

Definition job_name_obj (job : option string) : pyobj := from_option OStr ONone job.

Definition poll (x : string) : Cell unit :=
  module "boto3" "Session" ;;
  lift (from_option Raise (OK ()) new_client) ;;
  setvar "sage_client" OClient ;;
  t <- tuner_var x "_current_job_name" ;;
  setvar "job_name" (job_name_obj (_current_job_name t)) ;;
  d <- describe_job (_current_job_name t) ;;
  setvar "tuning_job_result" (ODescription d) ;;
  let status := HyperParameterTuningJobStatus d in
  setvar "status" (OStr status) ;;
  print ("Current status: " +:+ status) ;;
  (if decide (status ≠ "Completed") then print reminder else ret ()) ;;
  let job_count := Completed (StatusCounters d) in
  setvar "job_count" (OInt job_count) ;;
  print (pretty job_count +:+ " training jobs have completed").

Definition cell_21 : Cell unit := poll "tuner".

(** The results cell, the same for the two jobs but for the names:
<<
    tuning_job_name = tuner._current_job_name
    tuner_parent_metrics = sagemaker.HyperparameterTuningJobAnalytics(tuning_job_name)
    if not tuner_parent_metrics.dataframe().empty:
        df_parent = tuner_parent_metrics.dataframe().sort_values(
            ['FinalObjectiveValue'], ascending=False)
    df_parent
>>
    [HyperparameterTuningJobAnalytics(name)] builds a session of its own and
    keeps the name, whatever it is.  [dataframe()] asks the service for the
    job's training jobs on the first call and keeps the table; later calls
    return the table kept.  The cell's last line displays [df_parent], which
    must be bound. *)
Definition dataframe (x : string) : Cell DataFrame :=
  v <- getvar x ;;
  a <- lift (match v with
             | OAnalytics a => OK a
             | _ => Raise (AttributeError "dataframe")
             end) ;;
  match _dataframe a with
  | Some df => ret df
  | None =>
      now <- tick ;;
      df <- lift (fetch_dataframe now (_tuning_job_name a)) ;;
      setvar x (OAnalytics (mkAnalytics (_tuning_job_name a) (Some df))) ;;
      ret df
  end.

Definition results (x job_name metrics table : string) : Cell unit :=
  t <- tuner_var x "_current_job_name" ;;
  setvar job_name (job_name_obj (_current_job_name t)) ;;
  module "sagemaker" "HyperparameterTuningJobAnalytics" ;;
  job <- getvar job_name ;;
  job <- lift (as_job_name job) ;;
  lift (from_option Raise (OK ()) new_session) ;;
  setvar metrics (OAnalytics (mkAnalytics job None)) ;;
  df <- dataframe metrics ;;
  (if empty df then ret ()
   else
     df <- dataframe metrics ;;
     sorted <- lift (sort_values "FinalObjectiveValue" false df) ;;
     setvar table (OFrame sorted)) ;;
  getvar table ;;
  ret ().

Definition cell_23 : Cell unit :=
  results "tuner" "tuning_job_name" "tuner_parent_metrics" "df_parent".

(** *** The warm-started tuning job
<<
    from sagemaker.tuner import WarmStartConfig, WarmStartTypes
    parent_tuning_job_name = tuning_job_name
    warm_start_config = WarmStartConfig(WarmStartTypes.TRANSFER_LEARNING,
                                        parents={parent_tuning_job_name})
>> *)
Definition cell_34 : Cell unit :=
  import ["WarmStartConfig"; "WarmStartTypes"] ;;
  v <- getvar "tuning_job_name" ;;
  setvar "parent_tuning_job_name" v ;;
  p <- getvar "parent_tuning_job_name" ;;
  p <- lift (as_job_name p) ;;
  w <- lift (WarmStartConfig_init TRANSFER_LEARNING {[ p ]}) ;;
  setvar "warm_start_config" (OWarmStartConfig w).

(**
<<
    tuner_warm_start = HyperparameterTuner(xgb, objective_metric_name,
        hyperparameter_ranges, objective_type='Maximize', max_jobs=20,
        max_parallel_jobs=2, base_tuning_job_name='warmstart',
        warm_start_config=warm_start_config)
>> *)
Definition cell_35 : Cell unit :=
  getvar "HyperparameterTuner" ;;
  xgb <- getvar "xgb" ;;
  metric <- getvar "objective_metric_name" ;;
  ranges <- getvar "hyperparameter_ranges" ;;
  w <- getvar "warm_start_config" ;;
  xgb <- lift (as_estimator xgb) ;;
  metric <- lift (as_str metric) ;;
  ranges <- lift (as_ranges ranges) ;;
  w <- lift (as_warm_start_config w) ;;
  t <- lift (HyperparameterTuner_init xgb metric ranges "Maximize" 20 2
               (Some "warmstart") (Some w)) ;;
  setvar "tuner_warm_start" (OTuner t).

Definition cell_37 : Cell unit := fit "tuner_warm_start".

Definition cell_38 : Cell unit := poll "tuner_warm_start".

(** The results cell of the second job, with [warmstart_tuning_job_name],
    [tuner_warm_start_metrics] and [df_warm_start]. *)
Definition cell_40 : Cell unit :=
  results "tuner_warm_start" "warmstart_tuning_job_name" "tuner_warm_start_metrics"
          "df_warm_start".

(** Running cells in order, stopping at the first that raises. *)
Definition run (cells : list (Cell unit)) : Cell unit :=
  foldr (λ c k, c ;; k) (ret ()) cells.

(** *** Setting up: the bucket, the locations, the inputs, the trainer *)

(** The set-up cell:
<<
    import sagemaker
    import boto3
    role = sagemaker.get_execution_role()
    print("Role name: {}".format(role))
    sess = sagemaker.Session()
    bucket=sess.default_bucket()
    print("Bucket name: {}".format(bucket))
    prefix = 'DEMO-marketing-warmstart'
>>
    The session, like the client of the status cells, is a handle on the
    service. *)
Definition cell_1 : Cell unit :=
  import ["sagemaker"; "boto3"] ;;
  role <- lift get_execution_role ;;
  setvar "role" (OStr role) ;;
  print ("Role name: " +:+ role) ;;
  lift (from_option Raise (OK ()) new_session) ;;
  setvar "sess" OClient ;;
  bucket <- lift default_bucket ;;
  setvar "bucket" (OStr bucket) ;;
  print ("Bucket name: " +:+ bucket) ;;
  setvar "prefix" (OStr "DEMO-marketing-warmstart").

(** ['{}'.format(v)]: the text of a string, of an integer, of [None].  (Any
    other value has a display text as well, which is not embedded:
    [TypeError] stands for it.) *)
Definition format_arg (v : pyobj) : result string :=
  match v with
  | OStr s => OK s
  | OInt z => OK (pretty z)
  | ONone => OK "None"
  | _ => Raise TypeError
  end.

(** ['s3://{}/{}/<leaf>'.format(bucket, prefix)] *)
Definition s3_uri (bucket prefix leaf : string) : string :=
  "s3://" +:+ bucket +:+ "/" +:+ prefix +:+ "/" +:+ leaf.

Definition s3_location (leaf : string) : Cell pyobj :=
  b <- getvar "bucket" ;;
  p <- getvar "prefix" ;;
  b <- lift (format_arg b) ;;
  p <- lift (format_arg p) ;;
  ret (OStr (s3_uri b p leaf)).

(** The assignments of the two upload cells,
<<
    s3train = 's3://{}/{}/train/'.format(bucket, prefix)
    s3validation = 's3://{}/{}/validation/'.format(bucket, prefix)
>>
    and the same with [s3train_clean], [s3validation_clean], [train_2/] and
    [validation_2/].  The shell escapes that follow them ([!aws s3 cp ...])
    copy the two files there; they run outside the kernel and are not
    embedded. *)
Definition locations (train validation train_leaf validation_leaf : string)
    : Cell unit :=
  v <- s3_location train_leaf ;;
  setvar train v ;;
  v <- s3_location validation_leaf ;;
  setvar validation v.

Definition cell_12_locations : Cell unit :=
  locations "s3train" "s3validation" "train/" "validation/".

Definition cell_31_locations : Cell unit :=
  locations "s3train_clean" "s3validation_clean" "train_2/" "validation_2/".

(** [sagemaker.session.s3_input(x, distribution='FullyReplicated',
    content_type='text/csv', s3_data_type='S3Prefix')].  (The SDK takes any
    value for the location and leaves it to the service to refuse what is no
    string; the embedding refuses it here.) *)
Definition new_s3_input (x : string) : Cell pyobj :=
  module "sagemaker" "session" ;;
  v <- getvar x ;;
  s <- lift (as_str v) ;;
  ret (OInput (csv_input s)).

(** The input cells of the two jobs:
<<
    s3_output_location = 's3://{}/{}/output'.format(bucket, prefix)
    s3_input_train = sagemaker.session.s3_input(s3train, ...)
    s3_input_validation = sagemaker.session.s3_input(s3validation, ...)
>>
    and the same with [output_2], [s3train_clean] and [s3validation_clean]. *)
Definition inputs (output_leaf train validation : string) : Cell unit :=
  v <- s3_location output_leaf ;;
  setvar "s3_output_location" v ;;
  i <- new_s3_input train ;;
  setvar "s3_input_train" i ;;
  i <- new_s3_input validation ;;
  setvar "s3_input_validation" i.

Definition cell_13 : Cell unit := inputs "output" "s3train" "s3validation".

Definition cell_32 : Cell unit :=
  inputs "output_2" "s3train_clean" "s3validation_clean".

(** The trainer cell:
<<
    my_region = boto3.session.Session().region_name
    container = sagemaker.amazon.amazon_estimator.get_image_uri(my_region, 'xgboost')
    xgb = sagemaker.estimator.Estimator(container, role,
              train_instance_count=1, train_instance_type='ml.m4.xlarge',
              output_path=s3_output_location, sagemaker_session=sess)
    xgb.set_hyperparameters(max_depth=5, eta=0.2, gamma=4, min_child_weight=6,
              subsample=0.8, silent=0, objective='binary:logistic', num_round=100)
>>
    The estimator keeps the values its arguments have when it is built.  (The
    SDK takes any values for the image, the role and the output path; the
    embedding keeps to strings, as the record does.) *)
Definition initial_hyperparameters : list (string * string) :=
  [("max_depth", "5"); ("eta", "0.2"); ("gamma", "4"); ("min_child_weight", "6");
   ("subsample", "0.8"); ("silent", "0"); ("objective", "binary:logistic");
   ("num_round", "100")].

Definition cell_15 : Cell unit :=
  module "boto3" "session" ;;
  setvar "my_region" (from_option OStr ONone region_name) ;;
  module "sagemaker" "amazon" ;;
  region <- getvar "my_region" ;;
  region <- lift (as_job_name region) ;;
  container <- lift (get_image_uri region "xgboost") ;;
  setvar "container" (OStr container) ;;
  module "sagemaker" "estimator" ;;
  container <- getvar "container" ;;
  role <- getvar "role" ;;
  output <- getvar "s3_output_location" ;;
  getvar "sess" ;;
  container <- lift (as_str container) ;;
  role <- lift (as_str role) ;;
  output <- lift (as_str output) ;;
  setvar "xgb" (OEstimator (mkEstimator container role 1 "ml.m4.xlarge" output [])) ;;
  xgb <- getvar "xgb" ;;
  xgb <- lift (as_estimator xgb) ;;
  setvar "xgb" (OEstimator (set_hyperparameters initial_hyperparameters xgb)).

End Cells.
End Notebook.

(** ** Sample inputs

    Ten rows in the shape of [bank-additional-full.csv] (a few of its twenty
    columns), as [read_csv] returns them. *)

Module Samples.
Import Pandas Sagemaker Notebook.

Definition y_sample : list (option string) :=
  [Some "no"; Some "no"; Some "yes"; Some "no"; Some "no";
   Some "yes"; Some "no"; Some "no"; Some "yes"; Some "no"].

Definition bank_sample : DataFrame :=
  {| index := seq 0 10;
     columns :=
       [("age", IntS [56; 57; 37; 40; 56; 45; 59; 41; 24; 25]%Z);
        ("marital", ObjectS [Some "married"; Some "married"; Some "married";
                             Some "married"; Some "married"; Some "married";
                             Some "married"; Some "married"; Some "single";
                             Some "single"]);
        ("duration", IntS [261; 149; 226; 151; 307; 198; 139; 217; 380; 50]%Z);
        ("emp.var.rate", FloatS (replicate 10 1.1%float));
        ("cons.price.idx", FloatS (replicate 10 93.994%float));
        ("cons.conf.idx", FloatS (replicate 10 (-36.4)%float));
        ("euribor3m", FloatS (replicate 10 4.857%float));
        ("nr.employed", FloatS (replicate 10 5191%float));
        ("y", ObjectS y_sample)] |}.

(** Three customers who all declined. *)
Definition declined_sample : DataFrame :=
  {| index := seq 0 3;
     columns := [("age", IntS [56; 57; 37]%Z);
                 ("y", ObjectS [Some "no"; Some "no"; Some "no"])] |}.

(** A stand-in for numpy's generator: the state counts the draws, and a
    permutation is a rotation by the state. *)
Definition rotating : NumpyRandom :=
  {| rng := nat;
     RandomState := Z.to_nat;
     permutation := λ g n, (rotate g (seq 0 n), S g) |}.

(** A stand-in for the service: it accepts every request and reports a job
    in progress until the clock reaches 5. *)
Definition console : Service :=
  {| base_name_from_image := λ _, "xgboost";
     name_from_base := λ base now, base +:+ "-" +:+ pretty now;
     create_hyper_parameter_tuning_job := λ _ _, None;
     describe_hyper_parameter_tuning_job := λ now _,
       OK {| HyperParameterTuningJobStatus :=
               if (now <? 5)%nat then "InProgress" else "Completed";
             StatusCounters := {| Completed := Z.of_nat (now `min` 5) |} |} |}.

(** A stand-in for the listing of training jobs: it refuses to list the jobs
    of no job; a job has no training job before the clock reaches 2 and two
    afterwards. *)
Definition jobs_sample : DataFrame :=
  {| index := seq 0 2;
     columns :=
       [("eta", FloatS [0.25; 0.5]%float);
        ("FinalObjectiveValue", FloatS [0.75; 0.875]%float);
        ("TrainingJobName", ObjectS [Some "xgboost-0-001"; Some "xgboost-0-002"]);
        ("TrainingJobStatus", ObjectS [Some "Completed"; Some "Completed"])] |}.

Definition history : Analytics :=
  {| fetch_dataframe := λ now job,
       match job with
       | None => Raise (ClientError "ValidationException")
       | Some _ =>
           OK (if (now <? 2)%nat then {| index := []; columns := [] |}
               else jobs_sample)
       end |}.

(** A stand-in for numpy's sort: an insertion sort on the numbers (a value
    that is no number counts as 0). *)
Definition sort_key (c : cell) : float :=
  match c with
  | CFloat f => f
  | CInt z | CUInt8 z => float_of_int z
  | _ => 0%float
  end.

Fixpoint insert_position (key : nat → float) (i : nat) (l : list nat) : list nat :=
  match l with
  | [] => [i]
  | j :: l' =>
      if PrimFloat.ltb (key i) (key j) then i :: l else j :: insert_position key i l'
  end.

Definition insertion : NumpySort :=
  {| argsort := λ items,
       foldl (λ acc i, insert_position (λ j, sort_key (default CNaN (items !! j))) i acc)
             [] (seq 0 (length items)) |}.

(** A kernel in which the modules have been imported, the data set has been
    read and the trainer and the inputs of the first job have been set up. *)
Definition xgb_sample : Estimator :=
  {| image_name := "811284229777.dkr.ecr.us-east-1.amazonaws.com/xgboost:1";
     role := "arn:aws:iam::002268754244:role/SageMakerRole";
     train_instance_count := 1;
     train_instance_type := "ml.m4.xlarge";
     output_path := "s3://sagemaker-us-east-1-002268754244/DEMO-marketing-warmstart/output";
     hyperparameters := [("max_depth", "5"); ("eta", "0.2"); ("gamma", "4");
                         ("min_child_weight", "6"); ("subsample", "0.8");
                         ("silent", "0"); ("objective", "binary:logistic");
                         ("num_round", "100")] |}.

Definition input_sample (channel : string) : s3_input :=
  {| s3_data := "s3://sagemaker-us-east-1-002268754244/DEMO-marketing-warmstart/"
                +:+ channel +:+ "/";
     distribution := "FullyReplicated";
     content_type := "text/csv";
     s3_data_type := "S3Prefix" |}.

Definition kernel_sample : @State rotating :=
  {| ns := <["data" := OFrame bank_sample]>
           (<["xgb" := OEstimator xgb_sample]>
           (<["s3_input_train" := OInput (input_sample "train")]>
           (<["s3_input_validation" := OInput (input_sample "validation")]>
           (<["sagemaker" := OClass "sagemaker"]>
           (<["boto3" := OClass "boto3"]> ∅)))));
     files := ∅;
     np_random := (0%nat : @rng rotating);
     stdout := [];
     clock := 0;
     requests := [] |}.

(** A completion of the tuner cell that does not follow its comments: a tuner
    on [xgb] that minimises the error rate,
    [HyperparameterTuner(xgb, 'validation:error', hyperparameter_ranges,
    objective_type='Minimize', max_jobs=5, max_parallel_jobs=3)]. *)
Definition tuner_minimize : expr :=
  λ m,
    rbind (name "HyperparameterTuner" m) (λ _,
    rbind (rbind (name "xgb" m) as_estimator) (λ xgb,
    rbind (rbind (name "hyperparameter_ranges" m) as_ranges) (λ ranges,
    rbind (HyperparameterTuner_init xgb "validation:error" ranges "Minimize" 5 3
             None None)
          (λ t, OK (OTuner t))))).

(** A service that has no capacity left: it refuses every request. *)
Definition over_quota : Service :=
  {| base_name_from_image := λ _, "xgboost";
     name_from_base := λ base now, base +:+ "-" +:+ pretty now;
     create_hyper_parameter_tuning_job := λ _ _,
       Some (ClientError "ResourceLimitExceeded");
     describe_hyper_parameter_tuning_job := λ _ _,
       Raise (ClientError "ResourceNotFound") |}.

(** A notebook instance in us-east-1. *)
Definition instance_sample : Account :=
  {| get_execution_role := OK "arn:aws:iam::002268754244:role/SageMakerRole";
     new_session := None;
     default_bucket := OK "sagemaker-us-east-1-002268754244";
     region_name := Some "us-east-1";
     get_image_uri := λ region algorithm,
       match region with
       | Some r => OK ("811284229777.dkr.ecr." +:+ r +:+ ".amazonaws.com/"
                       +:+ algorithm +:+ ":1")
       | None => Raise (KeyError "None")
       end;
     new_client := None |}.

(** The sample kernel with a tuner whose job has just been named: the
    service lists no training job for it yet. *)
Definition tuner_sample : HyperparameterTuner :=
  mkTuner xgb_sample "validation:auc" directed_ranges "Maximize" 5 3 None None
          (Some "xgboost-0").

Definition started_kernel : @State rotating :=
  {| ns := <["tuner" := OTuner tuner_sample]> (ns kernel_sample);
     files := ∅; np_random := (0%nat : @rng rotating); stdout := [];
     clock := 0; requests := [] |}.

(** A kernel in which nothing has run yet. *)
Definition fresh_kernel : @State rotating :=
  {| ns := ∅; files := ∅; np_random := (0%nat : @rng rotating); stdout := [];
     clock := 0; requests := [] |}.

End Samples.

(** ** Views of the cells

    What [reformat_split_save] computes from the frame it finds and the state
    it leaves when nothing raises, and the predicates the properties below
    are stated with. *)

Module Views.
Import Pandas Sagemaker Notebook.

Section Views.
Context `{NumpyRandom} `{Service} `{Account} `{Analytics} `{NumpySort}.

Definition seeded_sample (frac : float) (seed : Z) (df : DataFrame) : result DataFrame :=
  (sample frac (Some seed) df (RandomState seed)).1.

Definition split_frames (d : DataFrame) : result (DataFrame * DataFrame * DataFrame) :=
  rbind (getitem "y_yes" d) (λ label,
  rbind (drop_columns ["y_no"; "y_yes"] d) (λ rest,
  rbind (concat_axis1 label rest) (λ new,
  rbind (seeded_sample frac_07 1729 new) (λ train,
  rbind (drop_rows (index train) new) (λ valid, OK (new, train, valid)))))).

Definition saved (md tr va : string) (d new train valid : DataFrame) (s : State) : State :=
  mkState
    (<[va := OFrame valid]> (<[md := OFrame new]> (<[tr := OFrame train]>
       (<[md := OFrame new]> (<[md := OFrame d]> (ns s))))))
    (<["validation.csv" := to_csv false false valid]>
       (<["train.csv" := to_csv false false train]> (files s)))
    (np_random s) (stdout s) (clock s) (requests s).

(** The file format the training algorithm reads: the label in the first
    column, numeric columns only, one line per row holding the row's values
    and nothing else. *)
Definition label_first_numeric (df : DataFrame) (file : list (list field)) : Prop :=
  head (column_names df) = Some "y_yes"
  ∧ ("y_no" ∉ column_names df)
  ∧ Forall (λ c, is_numeric_dtype (dtype_of c.2) = true) (columns df)
  ∧ length file = nrows df
  ∧ ∀ i line, file !! i = Some line →
      line = FCell <$> row_at df i
      ∧ Forall (λ f, ∃ c, f = FCell c ∧ is_numeric_cell c = true) line.

(** Two frames partition a third: together they hold its rows, each once,
    and no row label is in both. *)
Definition partitions (df train valid : DataFrame) : Prop :=
  rows train ++ rows valid ≡ₚ rows df
  ∧ index train ++ index valid ≡ₚ index df
  ∧ (∀ l, l ∈ index train → l ∉ index valid)
  ∧ (∀ l, l ∈ index df →
       (l ∈ index train ∧ l ∉ index valid) ∨ (l ∈ index valid ∧ l ∉ index train)).

(** The training frame holds [int(round(0.7 * len(df)))] rows. *)
Definition seventy_percent (df train : DataFrame) : Prop :=
  sample_size frac_07 (Z.of_nat (nrows df)) = Some (Z.of_nat (nrows train)).

(** The row count [sample] computes for [n] rows is a count of rows of the
    frame, within half a row of seven tenths of [n]. *)
Definition size_ok (n : Z) : bool :=
  match sample_size frac_07 n with
  | Some k =>
      (0 <=? k)%Z && (k <=? n)%Z
      && (7 * n - 5 <=? 10 * k)%Z && (10 * k <=? 7 * n + 5)%Z
  | None => false
  end.

Fixpoint sizes_ok (count : nat) (n : Z) : bool :=
  match count with
  | O => true
  | S count => size_ok n && sizes_ok count (n + 1)
  end.

Definition max_rows : Z := 100000.

(** What the split cell leaves under the three names. *)
Definition split_of (md tr va : string) (s : State) : Prop :=
  ∃ new train valid,
    ns s !! md = Some (OFrame new)
    ∧ ns s !! tr = Some (OFrame train)
    ∧ ns s !! va = Some (OFrame valid)
    ∧ partitions new train valid
    ∧ seventy_percent new train
    ∧ ((Z.of_nat (nrows new) ≤ max_rows)%Z →
       (7 * Z.of_nat (nrows new) - 5 ≤ 10 * Z.of_nat (nrows train)
        ≤ 7 * Z.of_nat (nrows new) + 5)%Z).

(** Two runs of the split cell agree: they raise the same exception, or both
    go through and leave the same three frames and the same two files. *)
Definition same_split (md tr va : string) (r1 r2 : result () * State) : Prop :=
  r1.1 = r2.1
  ∧ (r1.1 = OK () →
     ns r1.2 !! md = ns r2.2 !! md
     ∧ ns r1.2 !! tr = ns r2.2 !! tr
     ∧ ns r1.2 !! va = ns r2.2 !! va
     ∧ files r1.2 !! "train.csv" = files r2.2 !! "train.csv"
     ∧ files r1.2 !! "validation.csv" = files r2.2 !! "validation.csv").

(** The tuner the first tuning cell builds when completed as directed. *)
Definition directed_tuner (xgb : Estimator) : HyperparameterTuner :=
  mkTuner xgb "validation:auc" directed_ranges "Maximize" 5 3 None None None.

(** What a status cell prints for a description of the job. *)
Definition status_lines (d : TuningJobDescription) : list string :=
  ["Current status: " +:+ HyperParameterTuningJobStatus d]
  ++ (if decide (HyperParameterTuningJobStatus d ≠ "Completed") then [reminder] else [])
  ++ [pretty (Completed (StatusCounters d)) +:+ " training jobs have completed"].

Fixpoint is_suffix_of (suf t : string) : bool :=
  String.eqb suf t
  || match t with
     | EmptyString => false
     | String _ t' => is_suffix_of suf t'
     end.

(** What a status cell does.  Without [boto3] imported it ends at once with
    [NameError]; when boto3 cannot build the client it ends with boto3's
    exception, the kernel untouched.  Otherwise, on a kernel in which [x]
    names a tuner, it prints the status lines of the description it got, or
    ends with the exception the service raised, having printed nothing. *)
Definition status_report (c : Cell ()) (x : string) (s : State) : Prop :=
  (ns s !! "boto3" = None → c s = (Raise (NameError "boto3"), s))
  ∧ (ns s !! "boto3" = Some (OClass "boto3") →
     match new_client with
     | Some e => c s = (Raise e, s)
     | None =>
         ∀ t, ns s !! x = Some (OTuner t) →
           match describe_hyper_parameter_tuning_job (clock s) (_current_job_name t) with
           | OK d =>
               (c s).1 = OK ()
               ∧ stdout (c s).2 = stdout s ++ status_lines d
               ∧ (reminder ∈ status_lines d
                  ↔ HyperParameterTuningJobStatus d ≠ "Completed")
           | Raise e => (c s).1 = Raise e ∧ stdout (c s).2 = stdout s
           end
     end).

(** What a [fit] cell does when the service refuses the request of the tuner
    named [x]: it ends with the service's exception, having printed nothing,
    and a run of the cell and of the status cell after it ends there, with
    that exception. *)
Definition refusal_report (fit_cell status_cell : Cell ()) (x : string) (s : State)
    : Prop :=
  ∀ t tr va e,
    ns s !! x = Some (OTuner t) →
    ns s !! "s3_input_train" = Some (OInput tr) →
    ns s !! "s3_input_validation" = Some (OInput va) →
    create_hyper_parameter_tuning_job (S (clock s))
      (tune_request t (name_from_base (base_name t) (clock s))
         [("train", tr); ("validation", va)]) = Some e →
    (fit_cell s).1 = Raise e
    ∧ stdout (fit_cell s).2 = stdout s
    ∧ run [fit_cell; status_cell] s = fit_cell s.

(** What a results cell does when the SDK cannot build its session or the
    service refuses to list the training jobs of the tuner named [x]: it ends
    with that exception, having printed nothing. *)
Definition listing_report (c : Cell ()) (x : string) (s : State) : Prop :=
  ∀ t e,
    ns s !! x = Some (OTuner t) →
    ns s !! "sagemaker" = Some (OClass "sagemaker") →
    match new_session with
    | Some e' => e' = e
    | None => fetch_dataframe (clock s) (_current_job_name t) = Raise e
    end →
    (c s).1 = Raise e ∧ stdout (c s).2 = stdout s.

(** What the split cell leaves behind: the two frames under their names and
    the two files, each file in the format above. *)
Definition exported (tr va : string) (s : State) : Prop :=
  ∃ train valid,
    ns s !! tr = Some (OFrame train)
    ∧ ns s !! va = Some (OFrame valid)
    ∧ files s !! "train.csv" = Some (to_csv false false train)
    ∧ files s !! "validation.csv" = Some (to_csv false false valid)
    ∧ label_first_numeric train (to_csv false false train)
    ∧ label_first_numeric valid (to_csv false false valid).

(** The order of the levels: Python's order on strings, character by
    character. *)
Definition string_lt (a b : string) : Prop := String.compare a b = Lt.

(** An indicator column that holds 1 in row [i]. *)
Definition hot (i : nat) (c : string * Series) : bool :=
  match c.2 with
  | UInt8S v => bool_decide (v !! i = Some 1%Z)
  | _ => false
  end.

(** An indicator column of a column of [n] values: [n] values, each 0 or 1. *)
Definition is_indicator (n : nat) (c : string * Series) : Prop :=
  ∃ v, c.2 = UInt8S v ∧ length v = n ∧ Forall (λ z, z = 0%Z ∨ z = 1%Z) v.

(** What the reformatting leaves of an encoded frame [d] under the name
    [md]: the rows of [d]; its columns other than [y_no], each once; [y_yes]
    in front and the others behind it in the order they had. *)
Definition reformatted (d : DataFrame) (md : string) (s : State) : Prop :=
  ∃ new,
    ns s !! md = Some (OFrame new)
    ∧ index new = index d
    ∧ columns new ≡ₚ filter (λ c, c.1 ≠ "y_no") (columns d)
    ∧ head (column_names new) = Some "y_yes"
    ∧ columns new
      = filter (λ c, c.1 = "y_yes") (columns d)
        ++ filter (λ c, c.1 ∉ ["y_no"; "y_yes"]) (columns d)
    ∧ filter (λ c, c.1 ≠ "y_yes") (columns new)
      = filter (λ c, c.1 ∉ ["y_no"; "y_yes"]) (columns d).

(** The held-out rows are in the order they have in the frame that was
    split, in the frame and in the file. *)
Definition held_out_in_order (md va : string) (s : State) : Prop :=
  ∃ new valid,
    ns s !! md = Some (OFrame new)
    ∧ ns s !! va = Some (OFrame valid)
    ∧ index valid `sublist_of` index new
    ∧ rows valid `sublist_of` rows new
    ∧ files s !! "validation.csv" = Some (to_csv false false valid)
    ∧ to_csv false false valid `sublist_of` to_csv false false new.

(** The two files share the [n] rows; the training file is never empty, the
    validation file is empty for a single row only. *)
Definition both_files_filled (n : nat) (s : State) : Prop :=
  ∃ train valid,
    files s !! "train.csv" = Some train
    ∧ files s !! "validation.csv" = Some valid
    ∧ length train + length valid = n
    ∧ 1 ≤ length train
    ∧ (length valid = 0 ↔ n = 1).

(** A frame without the columns of the given names. *)
Definition without (labels : list string) (df : DataFrame) : DataFrame :=
  {| index := index df; columns := filter (λ c, c.1 ∉ labels) (columns df) |}.

Fixpoint has_underscore (s : string) : bool :=
  match s with
  | EmptyString => false
  | String c s' => String.eqb (String c EmptyString) "_" || has_underscore s'
  end.

(** The two rounds train on the same rows and hold out the same rows. *)
Definition same_rows (s : State) : Prop :=
  ∃ train valid clean_train clean_valid,
    ns s !! "train_data" = Some (OFrame train)
    ∧ ns s !! "validation_data" = Some (OFrame valid)
    ∧ ns s !! "clean_train_data" = Some (OFrame clean_train)
    ∧ ns s !! "clean_validation_data" = Some (OFrame clean_valid)
    ∧ index clean_train = index train
    ∧ index clean_valid = index valid.

(** The four input locations, as leaves under the bucket and the prefix, and
    the names the location cells bind to them. *)
Definition input_leaves : list string :=
  ["train/"; "validation/"; "train_2/"; "validation_2/"].

Definition located (b p : string) (s : State) : Prop :=
  ns s !! "s3train" = Some (OStr (s3_uri b p "train/"))
  ∧ ns s !! "s3validation" = Some (OStr (s3_uri b p "validation/"))
  ∧ ns s !! "s3train_clean" = Some (OStr (s3_uri b p "train_2/"))
  ∧ ns s !! "s3validation_clean" = Some (OStr (s3_uri b p "validation_2/")).


(** Every line of the file written for the frame bound to [x] starts with the
    label of the customer it describes: the row's label is a label of [data],
    at a position where the [y] column [v] has a value, and the first field
    is 1 when that value is 'yes' and 0 otherwise. *)
Definition label_first (data : DataFrame) (v : list (option string))
    (x path : string) (s : State) : Prop :=
  ∃ df file,
    ns s !! x = Some (OFrame df)
    ∧ files s !! path = Some file
    ∧ length file = nrows df
    ∧ ∀ j lbl line,
        index df !! j = Some lbl → file !! j = Some line →
        ∃ pos o,
          index data !! pos = Some lbl
          ∧ v !! pos = Some o
          ∧ head line
            = Some (FCell (CUInt8 (if decide (o = Some "yes") then 1 else 0)%Z)).

(** What a status cell run on [s] has done when it asked about the job
    [job]: [job_name] holds that name, whatever the service answered; the
    cell ends as the service's answer about that job at that time says, with
    the description under [tuning_job_result] when there is one; it has asked
    once and sent nothing; the files are as they were. *)
Definition polled (job : string) (s : State) (r : result () * State) : Prop :=
  ns r.2 !! "job_name" = Some (OStr job)
  ∧ match describe_hyper_parameter_tuning_job (clock s) (Some job) with
    | OK d => r.1 = OK () ∧ ns r.2 !! "tuning_job_result" = Some (ODescription d)
    | Raise e => r.1 = Raise e
    end
  ∧ clock r.2 = S (clock s)
  ∧ requests r.2 = requests s
  ∧ files r.2 = files s.

(** numpy's order on the cells that hold a number. *)
Definition number_le (a b : cell) : Prop :=
  ∃ x y, a = CFloat x ∧ b = CFloat y ∧ PrimFloat.leb x y = true.

(** The objective column of a results table: the values that are numbers,
    best first, then the missing ones. *)
Definition best_first (df : DataFrame) : Prop :=
  ∃ c best missing,
    filter (λ c, c.1 = "FinalObjectiveValue") (columns df) = [c]
    ∧ cells c.2 = best ++ missing
    ∧ StronglySorted (flip number_le) best
    ∧ Forall (λ c, isna c = true) missing.

(** The array [sort_values] hands to numpy to sort a column in descending
    order: the values that are not missing, last first. *)
Definition handed_to_numpy (items : list cell) : list cell :=
  reverse (compress (negb <$> (isna <$> items)) items).

(** What numpy's [argsort] is taken to return for an array of numbers: the
    positions of the array, each once, in ascending order of the values. *)
Definition argsort_spec (l : list cell) : Prop :=
  argsort l ≡ₚ seq 0 (length l)
  ∧ StronglySorted number_le (take_list (argsort l) l).

(** What a results cell leaves when the service lists no training job yet:
    the table's name as it was, unbound or bound to the table of an earlier
    run; it has asked once and printed nothing. *)
Definition nothing_to_show (c : Cell ()) (table : string) (s : State) : Prop :=
  (c s).1 = match ns s !! table with
            | Some _ => OK ()
            | None => Raise (NameError table)
            end
  ∧ ns (c s).2 !! table = ns s !! table
  ∧ clock (c s).2 = S (clock s)
  ∧ stdout (c s).2 = stdout s.

(** What a results cell leaves when the service lists the training jobs
    [df]: the table's name bound to a frame with the rows of [df], each
    once, its columns, and the objective column best first. *)
Definition shown (c : Cell ()) (table : string) (df : DataFrame) (s : State) : Prop :=
  ∃ s' sorted,
    c s = (OK (), s')
    ∧ ns s' !! table = Some (OFrame sorted)
    ∧ rows sorted ≡ₚ rows df
    ∧ column_names sorted = column_names df
    ∧ best_first sorted.

(** A step that leaves the binding of [x] and the requests sent as they are,
    however it ends. *)
Definition keeps {A} (x : string) (c : Cell A) : Prop :=
  ∀ s, ns (c s).2 !! x = ns s !! x ∧ requests (c s).2 = requests s.

End Views.
End Views.

(** * Properties *)

Import Pandas Sagemaker Notebook Samples Views.

(** ** One-hot encoding *)

Section Encoding.

Lemma levels_yes_no (v : list (option string)) :
  (∀ o, o ∈ v → o = Some "yes" ∨ o = Some "no") →
  levels v = (if decide (Some "no" ∈ v) then ["no"] else [])
             ++ (if decide (Some "yes" ∈ v) then ["yes"] else []).
Proof.
  induction v as [|o v IH]; intros Hv.
  - repeat case_decide; try done; exfalso;
      match goal with H : _ ∈ [] |- _ => by apply not_elem_of_nil in H end.
  - assert (Ho : o = Some "yes" ∨ o = Some "no") by (apply Hv; left).
    cbn [levels foldr]. fold (levels v).
    rewrite IH by (intros; apply Hv; by right).
    destruct Ho as [-> | ->];
      repeat case_decide; try reflexivity; exfalso;
      repeat match goal with
             | H : ¬ _ ∈ _ :: _ |- _ => rewrite not_elem_of_cons in H; destruct H
             | H : _ ∈ _ :: _ |- _ => rewrite elem_of_cons in H; destruct H
             end; congruence.
Qed.

Lemma indicator_lookup lv (v : list (option string)) i o :
  v !! i = Some o →
  indicator lv v !! i = Some (if decide (o = Some lv) then 1%Z else 0%Z).
Proof. intros Hi. unfold indicator. by rewrite list_lookup_fmap, Hi. Qed.

Lemma get_dummies_columns data pre c post :
  columns data = pre ++ c :: post →
  columns (get_dummies data) =
    filter (λ c, is_object c.2 = false) (columns data)
    ++ (pre ≫= encode) ++ encode c ++ (post ≫= encode).
Proof.
  intros Hc. unfold get_dummies. cbn [columns]. rewrite Hc at 2.
  by rewrite bind_app, bind_cons.
Qed.

(** C1.  One-hot encoding turns a binary label column [y] (every value
    'yes' or 'no', both present) into exactly two indicator columns,
    [y_no] and [y_yes], placed where the encoded columns go.  In every row
    each of the two is 0 or 1, exactly one of them is 1, and [y_yes] is 1
    exactly when the row's [y] was 'yes'. *)
Theorem get_dummies_label_indicators
    (data : DataFrame) (pre post : list (string * Series))
    (v : list (option string)) :
  columns data = pre ++ ("y", ObjectS v) :: post →
  (∀ o, o ∈ v → o = Some "yes" ∨ o = Some "no") →
  Some "yes" ∈ v →
  Some "no" ∈ v →
  ∃ y_no y_yes : list Z,
    encode ("y", ObjectS v) = [("y_no", UInt8S y_no); ("y_yes", UInt8S y_yes)]
    ∧ columns (get_dummies data) =
        filter (λ c, is_object c.2 = false) (columns data)
        ++ (pre ≫= encode)
        ++ [("y_no", UInt8S y_no); ("y_yes", UInt8S y_yes)]
        ++ (post ≫= encode)
    ∧ ∀ i o, v !! i = Some o →
        ∃ a b : Z,
          y_yes !! i = Some a ∧ y_no !! i = Some b
          ∧ (a = 0 ∨ a = 1)%Z ∧ (b = 0 ∨ b = 1)%Z
          ∧ (a + b = 1)%Z
          ∧ (a = 1%Z ↔ o = Some "yes").
Proof.
  intros Hc Hv Hyes Hno.
  exists (indicator "no" v), (indicator "yes" v).
  assert (He : encode ("y", ObjectS v)
               = [("y_no", UInt8S (indicator "no" v));
                  ("y_yes", UInt8S (indicator "yes" v))]).
  { unfold encode, dummies. cbn [fst snd].
    rewrite (levels_yes_no v Hv).
    destruct (decide (Some "no" ∈ v)); [|done].
    destruct (decide (Some "yes" ∈ v)); [|done].
    reflexivity. }
  split; [exact He|]. split.
  - rewrite (get_dummies_columns data pre _ post Hc). by rewrite He.
  - intros i o Hi.
    exists (if decide (o = Some "yes") then 1%Z else 0%Z),
           (if decide (o = Some "no") then 1%Z else 0%Z).
    rewrite !(indicator_lookup _ v i o Hi).
    assert (Ho : o = Some "yes" ∨ o = Some "no")
      by (apply Hv; eapply list_elem_of_lookup_2; eauto).
    destruct Ho as [-> | ->]; repeat case_decide; try congruence;
      repeat split; auto; try lia; intros; congruence.
Qed.

Lemma get_dummies_label_indicators_witness :
  ∃ y_no y_yes : list Z,
    columns (get_dummies bank_sample) !! 9 = Some ("y_no", UInt8S y_no)
    ∧ columns (get_dummies bank_sample) !! 10 = Some ("y_yes", UInt8S y_yes)
    ∧ y_yes !! 2 = Some 1%Z ∧ y_no !! 2 = Some 0%Z.
Proof.
  destruct (get_dummies_label_indicators bank_sample
              (firstn 8 (columns bank_sample)) [] y_sample)
    as (y_no & y_yes & He & Hc & Hrow).
  - reflexivity.
  - intros o Ho. repeat (apply elem_of_cons in Ho as [-> | Ho]; [auto|]).
    by apply not_elem_of_nil in Ho.
  - unfold y_sample. eauto 10 using list_elem_of_here, list_elem_of_further.
  - apply list_elem_of_here.
  - exists y_no, y_yes. rewrite Hc.
    injection He as <- <-. by vm_compute.
Defined.

End Encoding.


(** ** Frames: selecting columns and rows *)

Section Frames.

Lemma filter_nil_inv {A} (P : A → Prop) `{∀ x, Decision (P x)} (l : list A) x :
  filter P l = [] → x ∈ l → ¬ P x.
Proof.
  intros Hf Hx HP.
  assert (Hin : x ∈ filter P l) by (by apply list_elem_of_filter).
  rewrite Hf in Hin. by apply not_elem_of_nil in Hin.
Qed.

Lemma filter_nil_intro {A} (P : A → Prop) `{∀ x, Decision (P x)} (l : list A) :
  (∀ x, x ∈ l → ¬ P x) → filter P l = [].
Proof.
  intros Hl. destruct (filter P l) as [|x k] eqn:Hf; [done|].
  assert (Hin : x ∈ filter P l) by (rewrite Hf; left).
  apply list_elem_of_filter in Hin as [HP Hx]. by destruct (Hl x Hx).
Qed.

Lemma getitem_inv x d l :
  getitem x d = OK l →
  index l = index d
  ∧ columns l = filter (λ c, c.1 = x) (columns d)
  ∧ x ∈ column_names d.
Proof.
  unfold getitem. destruct (filter _ (columns d)) as [|c cs] eqn:Hf; [done|].
  intros [= <-]. cbn. repeat split.
  assert (Hin : c ∈ filter (λ c, c.1 = x) (columns d)) by (rewrite Hf; left).
  apply list_elem_of_filter in Hin as [<- Hin].
  by apply list_elem_of_fmap_2.
Qed.

Lemma getitem_OK x d :
  x ∈ column_names d →
  getitem x d = OK {| index := index d;
                      columns := filter (λ c, c.1 = x) (columns d) |}.
Proof.
  intros (c & -> & Hc)%list_elem_of_fmap. unfold getitem.
  destruct (filter _ (columns d)) as [|c' cs] eqn:Hf; [|done].
  by destruct (filter_nil_inv _ _ c Hf Hc).
Qed.

Lemma getitem_Raise x d :
  x ∉ column_names d → getitem x d = Raise (KeyError x).
Proof.
  intros Hx. unfold getitem. rewrite filter_nil_intro; [done|].
  intros c Hc <-. apply Hx. by apply list_elem_of_fmap_2.
Qed.

Lemma drop_columns_inv ls d r :
  drop_columns ls d = OK r →
  r = {| index := index d; columns := filter (λ c, c.1 ∉ ls) (columns d) |}
  ∧ ∀ l, l ∈ ls → l ∈ column_names d.
Proof.
  unfold drop_columns.
  destruct (filter _ ls) as [|l' k] eqn:Hf; [|done].
  intros [= <-]. split; [done|]. intros l Hl.
  destruct (decide (l ∈ column_names d)) as [|Hn]; [done|].
  by destruct (filter_nil_inv _ _ l Hf Hl).
Qed.

Lemma drop_columns_OK ls d :
  (∀ l, l ∈ ls → l ∈ column_names d) →
  drop_columns ls d =
    OK {| index := index d; columns := filter (λ c, c.1 ∉ ls) (columns d) |}.
Proof.
  intros Hl. unfold drop_columns. rewrite filter_nil_intro; [done|].
  intros l Hin Hn. by apply Hn, Hl.
Qed.

Lemma drop_columns_Raise ls d l :
  l ∈ ls → l ∉ column_names d → ∃ k, drop_columns ls d = Raise (KeyError k).
Proof.
  intros Hl Hn. unfold drop_columns.
  destruct (filter _ ls) as [|l' k] eqn:Hf; [|eauto].
  by destruct (filter_nil_inv _ _ l Hf Hl).
Qed.

Lemma concat_axis1_inv a b r :
  concat_axis1 a b = OK r →
  index a = index b
  ∧ r = {| index := index a; columns := columns a ++ columns b |}.
Proof. unfold concat_axis1. case_decide; [|done]. by intros [= <-]. Qed.

(** Selection keeps a column's type and commutes with the view as cells. *)
Lemma dtype_of_select f s : dtype_of (select f s) = dtype_of s.
Proof. by destruct s. Qed.

Lemma take_list_fmap {A B} (g : A → B) locs (l : list A) :
  take_list locs (g <$> l) = g <$> take_list locs l.
Proof.
  unfold take_list. induction locs as [|i locs IH]; [done|].
  cbn. rewrite list_lookup_fmap, IH. by destruct (l !! i).
Qed.

Lemma compress_fmap {A B} (g : A → B) mask (l : list A) :
  compress mask (g <$> l) = g <$> compress mask l.
Proof.
  revert l. induction mask as [|b mask IH]; intros [|x l]; try reflexivity.
  cbn. rewrite IH. by destruct b.
Qed.

Lemma cells_take locs s :
  cells (select (λ A, take_list locs) s) = take_list locs (cells s).
Proof. destruct s; cbn; by rewrite take_list_fmap. Qed.

Lemma cells_compress mask s :
  cells (select (λ A, compress mask) s) = compress mask (cells s).
Proof. destruct s; cbn; by rewrite compress_fmap. Qed.

(** Taking rows at positions that all hold a value is a map. *)
Lemma take_list_map {A} (f : nat → A) locs (l : list A) :
  (∀ i, i ∈ locs → l !! i = Some (f i)) → take_list locs l = f <$> locs.
Proof.
  unfold take_list. induction locs as [|i locs IH]; intros Hl; [done|].
  cbn. rewrite (Hl i) by left. cbn. f_equal.
  apply IH. intros j Hj. apply Hl. by right.
Qed.

Lemma lookup_default {A} (l : list A) (a : A) i :
  i < length l → l !! i = Some (default a (l !! i)).
Proof. intros [x Hx]%lookup_lt_is_Some_2. by rewrite Hx. Qed.

Lemma rows_seq df : rows df = labelled_row df <$> seq 0 (nrows df).
Proof.
  apply list_eq. intros i. unfold rows, labelled_row, label_at, nrows.
  rewrite list_lookup_imap, list_lookup_fmap.
  destruct (index df !! i) as [l|] eqn:Hi.
  - rewrite lookup_seq_lt by (by eapply lookup_lt_Some). cbn. by rewrite Hi.
  - rewrite lookup_seq_ge by (by apply lookup_ge_None). done.
Qed.

Lemma length_rows df : length (rows df) = nrows df.
Proof. by rewrite rows_seq, length_fmap, length_seq. Qed.

Lemma take_inv locs df t :
  take locs df = OK t →
  (∀ i, i ∈ locs → i < nrows df)
  ∧ t = {| index := take_list locs (index df);
           columns := prod_map id (select (λ A, take_list locs)) <$> columns df |}.
Proof.
  unfold take. destruct (forallb _ locs) eqn:Hb; [|done].
  intros [= <-]. split; [|done]. intros i Hi.
  rewrite forallb_forall in Hb. apply Nat.ltb_lt, Hb. by apply list_elem_of_In.
Qed.

Lemma take_OK locs df :
  (∀ i, i ∈ locs → i < nrows df) →
  take locs df =
    OK {| index := take_list locs (index df);
          columns := prod_map id (select (λ A, take_list locs)) <$> columns df |}.
Proof.
  intros Hl. unfold take.
  replace (forallb _ locs) with true; [done|].
  symmetry. apply forallb_forall. intros i Hi.
  apply Nat.ltb_lt, Hl. by apply list_elem_of_In.
Qed.

Lemma take_index locs df t :
  take locs df = OK t → index t = label_at df <$> locs.
Proof.
  intros [Hl ->]%take_inv. cbn. apply take_list_map.
  intros i Hi. apply lookup_default. by apply Hl.
Qed.

Lemma take_rows locs df t :
  wf df → take locs df = OK t → rows t = labelled_row df <$> locs.
Proof.
  intros Hwf Ht. pose proof (take_index _ _ _ Ht) as Hidx.
  apply take_inv in Ht as [Hl ->].
  unfold rows. cbn [index] in *. rewrite Hidx.
  apply list_eq. intros j.
  rewrite list_lookup_imap, !list_lookup_fmap.
  destruct (locs !! j) as [i|] eqn:Hj; [|done]. cbn.
  unfold labelled_row. do 2 f_equal.
  unfold row_at. cbn [columns]. rewrite <- list_fmap_compose.
  apply Forall_fmap_ext_1.
  eapply Forall_impl; [exact Hwf|]. intros [x c] Hlen. cbn in *.
  rewrite cells_take.
  rewrite (take_list_map (λ i, default CNaN (cells c !! i))).
  - by rewrite list_lookup_fmap, Hj.
  - intros i' Hi'. apply lookup_default. rewrite Hlen. by apply Hl.
Qed.

(** Masking is taking the kept positions. *)
Lemma take_list_S {A} locs (x : A) l :
  take_list (S <$> locs) (x :: l) = take_list locs l.
Proof.
  unfold take_list. induction locs as [|i locs IH]; [done|].
  cbn. by rewrite IH.
Qed.

Lemma compress_take_list {A} mask (l : list A) :
  length l = length mask → compress mask l = take_list (kept mask) l.
Proof.
  unfold kept. revert l.
  induction mask as [|b mask IH]; intros [|x l] Hlen; try done.
  cbn in Hlen. cbn [length seq compress].
  rewrite <- fmap_S_seq, compress_fmap.
  destruct b.
  - unfold take_list at 1. cbn. fold (take_list (S <$> compress mask (seq 0 (length mask))) (x :: l)).
    rewrite take_list_S, <- IH by lia. done.
  - rewrite take_list_S, <- IH by lia. done.
Qed.

Lemma elem_of_compress_seq mask a i :
  i ∈ compress mask (seq a (length mask)) ↔ ∃ j, i = a + j ∧ mask !! j = Some true.
Proof.
  revert a. induction mask as [|b mask IH]; intros a; cbn.
  - split; [by intros ?%not_elem_of_nil | by intros (j & _ & ?)].
  - destruct b.
    + rewrite elem_of_cons, IH. split.
      * intros [-> | (j & -> & Hj)]; [exists 0 | exists (S j)]; split; done || lia.
      * intros ([|j] & -> & Hj); [left; lia | right; exists j; split; [lia | done]].
    + rewrite IH. split.
      * intros (j & -> & Hj). exists (S j). split; done || lia.
      * intros ([|j] & -> & Hj); [done | exists j; split; [lia | done]].
Qed.

Lemma compress_sublist {A} mask (l : list A) : compress mask l `sublist_of` l.
Proof.
  revert l. induction mask as [|b mask IH]; intros [|x l]; cbn;
    try apply sublist_nil_l.
  destruct b; [by apply sublist_skip | by apply sublist_cons].
Qed.

Lemma NoDup_kept mask : NoDup (kept mask).
Proof. eapply sublist_NoDup; [apply NoDup_seq | apply compress_sublist]. Qed.

Lemma elem_of_kept mask i : i ∈ kept mask ↔ mask !! i = Some true.
Proof.
  unfold kept. rewrite elem_of_compress_seq. split.
  - by intros (j & -> & Hj).
  - intros Hi. by exists i.
Qed.

Lemma drop_rows_inv labels df v :
  drop_rows labels df = OK v →
  (∀ l, l ∈ labels → l ∈ index df)
  ∧ v = {| index := compress (row_mask labels df) (index df);
           columns := prod_map id (select (λ A, compress (row_mask labels df)))
                        <$> columns df |}.
Proof.
  unfold drop_rows.
  destruct (filter _ labels) as [|l' k] eqn:Hf; [|done].
  intros [= <-]. split; [|done]. intros l Hl.
  destruct (decide (l ∈ index df)) as [|Hn]; [done|].
  by destruct (filter_nil_inv _ _ l Hf Hl).
Qed.

Lemma drop_rows_OK labels df :
  (∀ l, l ∈ labels → l ∈ index df) →
  drop_rows labels df =
    OK {| index := compress (row_mask labels df) (index df);
          columns := prod_map id (select (λ A, compress (row_mask labels df)))
                       <$> columns df |}.
Proof.
  intros Hl. unfold drop_rows. rewrite filter_nil_intro; [done|].
  intros l Hin Hn. by apply Hn, Hl.
Qed.

Lemma length_cells_select_eq mask s :
  length (cells s) = length mask →
  select (λ A, compress mask) s = select (λ A, take_list (kept mask)) s.
Proof.
  destruct s; cbn; rewrite length_fmap; intros Hlen;
    by rewrite compress_take_list.
Qed.

Lemma drop_rows_as_take labels df v :
  wf df → drop_rows labels df = OK v →
  take (kept (row_mask labels df)) df = OK v.
Proof.
  intros Hwf [Hl ->]%drop_rows_inv.
  assert (Hm : length (row_mask labels df) = nrows df)
    by (unfold row_mask; by rewrite length_fmap).
  rewrite take_OK.
  - f_equal. f_equal.
    + by rewrite compress_take_list.
    + apply Forall_fmap_ext_1. eapply Forall_impl; [exact Hwf|].
      intros [x c] Hlen. cbn in *. unfold prod_map. cbn. f_equal.
      symmetry. apply length_cells_select_eq. congruence.
  - intros i Hi%elem_of_kept. apply lookup_lt_Some in Hi. lia.
Qed.

End Frames.


(** ** The split *)

Section Split.
Context `{NumpyRandom}.

(** Sampling without replacement: numpy's [permutation] returns the positions
    [0 .. n-1] in some order. *)
Hypothesis permutation_spec : ∀ g n, (permutation g n).1 ≡ₚ seq 0 n.

Lemma index_seq df : index df = label_at df <$> seq 0 (nrows df).
Proof.
  apply list_eq. intros i. unfold label_at, nrows. rewrite list_lookup_fmap.
  destruct (index df !! i) as [l|] eqn:Hi.
  - rewrite lookup_seq_lt by (by eapply lookup_lt_Some). cbn. by rewrite Hi.
  - rewrite lookup_seq_ge by (by apply lookup_ge_None). done.
Qed.

Lemma lookup_label_at df i : i < nrows df → index df !! i = Some (label_at df i).
Proof. intros Hi. unfold label_at. by apply lookup_default. Qed.

(** The positions [drop] keeps are those [take] did not pick. *)
Lemma kept_complement df locs i :
  NoDup (index df) →
  (∀ j, j ∈ locs → j < nrows df) →
  i ∈ kept (row_mask (label_at df <$> locs) df) ↔ i < nrows df ∧ i ∉ locs.
Proof.
  intros Hnd Hlocs. rewrite elem_of_kept. unfold row_mask.
  rewrite list_lookup_fmap. split.
  - destruct (index df !! i) as [l|] eqn:Hi; [|done].
    intros [= Hb]. apply bool_decide_eq_true in Hb.
    split; [by eapply lookup_lt_Some|]. intros Hin. apply Hb.
    apply list_elem_of_fmap. exists i. split; [|done].
    unfold label_at. by rewrite Hi.
  - intros [Hlt Hn]. rewrite (lookup_label_at _ _ Hlt). cbn. f_equal.
    apply bool_decide_eq_true. intros (j & Hj & Hjin)%list_elem_of_fmap.
    apply Hn. specialize (Hlocs j Hjin).
    pose proof (lookup_label_at _ _ Hlt) as H1.
    pose proof (lookup_label_at _ _ Hlocs) as H2. rewrite <- Hj in H2.
    by rewrite (NoDup_lookup _ _ _ _ Hnd H1 H2).
Qed.

Lemma take_drop_positions df locs :
  NoDup (index df) → NoDup locs →
  (∀ j, j ∈ locs → j < nrows df) →
  locs ++ kept (row_mask (label_at df <$> locs) df) ≡ₚ seq 0 (nrows df).
Proof.
  intros Hnd Hlocs Hlt. apply NoDup_Permutation.
  - apply NoDup_app. split; [done|]. split; [|apply NoDup_kept].
    intros i Hi [_ Hn]%kept_complement; done.
  - apply NoDup_seq.
  - intros i. rewrite elem_of_app, kept_complement, elem_of_seq by done.
    split.
    + intros [Hi | [Hi _]]; [apply Hlt in Hi|]; lia.
    + intros [_ Hi]. destruct (decide (i ∈ locs)); [by left | right].
      split; [lia | done].
Qed.

(** What is taken and what [drop] leaves partition the frame. *)
Lemma take_drop_partition df locs train valid :
  wf df → NoDup (index df) → NoDup locs →
  take locs df = OK train →
  drop_rows (index train) df = OK valid →
  rows train ++ rows valid ≡ₚ rows df
  ∧ index train ++ index valid ≡ₚ index df
  ∧ (∀ l, l ∈ index train → l ∉ index valid).
Proof.
  intros Hwf Hnd Hlocs Ht Hv.
  pose proof (take_index _ _ _ Ht) as Hti.
  pose proof (take_rows _ _ _ Hwf Ht) as Htr.
  apply take_inv in Ht as [Hlt _].
  apply drop_rows_as_take in Hv; [|done]. rewrite Hti in Hv.
  pose proof (take_index _ _ _ Hv) as Hvi.
  pose proof (take_rows _ _ _ Hwf Hv) as Hvr.
  pose proof (take_drop_positions df locs Hnd Hlocs Hlt) as Hp.
  assert (Hidx : index train ++ index valid ≡ₚ index df).
  { rewrite Hti, Hvi, <- fmap_app, Hp. by rewrite <- index_seq. }
  split; [|split; [done|]].
  - rewrite Htr, Hvr, <- fmap_app, Hp. by rewrite <- rows_seq.
  - rewrite <- Hidx in Hnd. apply NoDup_app in Hnd as (_ & Hd & _). done.
Qed.

Lemma sample_inv frac seed df g train g' :
  sample frac (Some seed) df g = (OK train, g') →
  g' = g
  ∧ ∃ k, sample_size frac (Z.of_nat (nrows df)) = Some k
       ∧ (0 ≤ k ≤ Z.of_nat (nrows df))%Z
       ∧ take (firstn (Z.to_nat k) (permutation (RandomState seed) (nrows df)).1) df
         = OK train.
Proof.
  unfold sample.
  destruct (sample_size _ _) as [k|]; [|done].
  destruct (Z.ltb_spec k 0); [done|].
  destruct (Z.ltb_spec (Z.of_nat (nrows df)) k); [done|].
  cbn [from_option]. destruct (permutation _ _) as [p g1]. cbn.
  intros [= Ht <-]. split; [done|]. exists k. repeat split; done || lia.
Qed.

Lemma sample_OK frac seed df g k :
  sample_size frac (Z.of_nat (nrows df)) = Some k →
  (0 ≤ k ≤ Z.of_nat (nrows df))%Z →
  ∃ train, sample frac (Some seed) df g = (OK train, g).
Proof.
  intros Hk [Hk0 Hkn]. unfold sample. rewrite Hk.
  destruct (Z.ltb_spec k 0); [lia|].
  destruct (Z.ltb_spec (Z.of_nat (nrows df)) k); [lia|].
  cbn [from_option].
  pose proof (permutation_spec (RandomState seed) (nrows df)) as Hp.
  destruct (permutation _ _) as [p g1]. cbn in Hp.
  rewrite take_OK; [eauto|].
  intros i [j [Hi _]]%elem_of_take.
  apply list_elem_of_lookup_2 in Hi. rewrite Hp in Hi.
  apply elem_of_seq in Hi. lia.
Qed.

End Split.


(** ** Running cells *)

(** Stepping through a cell: unfold a combinator, look a name up, use what is
    known about an operation's result. *)
Ltac exec :=
  repeat first
    [ progress cbn beta iota zeta
               delta [as_frame from_option fst snd ns files np_random stdout clock
                      requests]
    | progress unfold Pandas.drop, rbind
    | rewrite lookup_insert_eq
    | rewrite lookup_insert_ne by congruence
    | match goal with H : ?x = _ |- context [?x] => rewrite H end ].

Section Running.
Context `{NumpyRandom} `{Service}.

Lemma bind_OK {A B} (c : Cell A) (k : A → Cell B) s a s1 :
  c s = (OK a, s1) → bind c k s = k a s1.
Proof. intros Hc. unfold bind. by rewrite Hc. Qed.

Lemma bind_Raise {A B} (c : Cell A) (k : A → Cell B) s e s1 :
  c s = (Raise e, s1) → bind c k s = (Raise e, s1).
Proof. intros Hc. unfold bind. by rewrite Hc. Qed.

Lemma bind_inv {A B} (c : Cell A) (k : A → Cell B) s b s' :
  bind c k s = (OK b, s') →
  ∃ a s1, c s = (OK a, s1) ∧ k a s1 = (OK b, s').
Proof.
  unfold bind. destruct (c s) as [[a|e] s1]; [eauto|discriminate].
Qed.

Lemma getvar_inv x s v s1 :
  getvar x s = (OK v, s1) → ns s !! x = Some v ∧ s1 = s.
Proof.
  unfold getvar. destruct (ns s !! x); intros [= <- <-]; auto.
Qed.

Lemma lift_inv {A} (r : result A) s a s1 :
  lift r s = (OK a, s1) → r = OK a ∧ s1 = s.
Proof. by intros [= -> ->]. Qed.

Lemma frame_var_inv x s d s1 :
  frame_var x s = (OK d, s1) → ns s !! x = Some (OFrame d) ∧ s1 = s.
Proof.
  unfold frame_var. intros (v & s2 & [Hv ->]%getvar_inv & Hl)%bind_inv.
  apply lift_inv in Hl as [Hd ->]. by destruct v; simplify_eq/=.
Qed.

Lemma frame_var_OK x s d :
  ns s !! x = Some (OFrame d) → frame_var x s = (OK d, s).
Proof. intros Hx. unfold frame_var, bind, getvar, lift. by rewrite Hx. Qed.

Lemma setvar_inv x v s u s1 :
  setvar x v s = (OK u, s1) →
  s1 = mkState (<[x := v]> (ns s)) (files s) (np_random s) (stdout s) (clock s)
               (requests s).
Proof. by intros [= <-]. Qed.

Lemma print_inv line s u s1 :
  print line s = (OK u, s1) →
  s1 = mkState (ns s) (files s) (np_random s) (stdout s ++ [line]) (clock s)
               (requests s).
Proof. by intros [= <-]. Qed.

Lemma import_inv names s u s1 :
  import names s = (OK u, s1) →
  s1 = mkState (imported names (ns s)) (files s)
               (np_random s) (stdout s) (clock s) (requests s).
Proof. by intros [= <-]. Qed.

Lemma tuner_var_inv x attr s t s1 :
  tuner_var x attr s = (OK t, s1) → ns s !! x = Some (OTuner t) ∧ s1 = s.
Proof.
  unfold tuner_var. intros (v & s2 & [Hv ->]%getvar_inv & Hl)%bind_inv.
  apply lift_inv in Hl as [Hd ->]. by destruct v; simplify_eq/=.
Qed.

Lemma tick_inv s n s1 :
  tick s = (OK n, s1) →
  n = clock s
  ∧ s1 = mkState (ns s) (files s) (np_random s) (stdout s) (S (clock s))
                 (requests s).
Proof. by intros [= <- <-]. Qed.

Lemma ret_inv {A} (a b : A) s s1 : ret a s = (OK b, s1) → b = a ∧ s1 = s.
Proof. by intros [= <- <-]. Qed.

Lemma eval_inv (e : expr) s v s1 :
  eval e s = (OK v, s1) → e (ns s) = OK v ∧ s1 = s.
Proof. by intros [= -> <-]. Qed.

Lemma run_cons_inv (c : Cell ()) cs s s' :
  run (c :: cs) s = (OK (), s') →
  ∃ s1, c s = (OK (), s1) ∧ run cs s1 = (OK (), s').
Proof.
  unfold run. cbn [foldr]. intros ([] & s1 & Hc & Hcs)%bind_inv. eauto.
Qed.

Lemma run_nil_inv s s' : run [] s = (OK (), s') → s' = s.
Proof. by intros [= <-]. Qed.

Lemma run_cons_OK (c : Cell ()) cs s s1 :
  c s = (OK (), s1) → run (c :: cs) s = run cs s1.
Proof. intros Hc. unfold run. cbn [foldr]. by rewrite (bind_OK _ _ _ _ _ Hc). Qed.

Lemma run_cons_Raise (c : Cell ()) cs s e s1 :
  c s = (Raise e, s1) → run (c :: cs) s = (Raise e, s1).
Proof. intros Hc. unfold run. cbn [foldr]. by rewrite (bind_Raise _ _ _ _ _ Hc). Qed.

Lemma sample_seeded frac seed df g :
  sample frac (Some seed) df g = (seeded_sample frac seed df, g).
Proof.
  unfold seeded_sample, sample.
  destruct (sample_size _ _) as [k|]; [|done].
  destruct (k <? 0)%Z; [done|].
  destruct (_ <? k)%Z; [done|].
  cbn [from_option]. by destruct (permutation _ _).
Qed.

(** The split cell, case by case. *)
Lemma reformat_split_save_outcome md tr va s :
  md ≠ tr → md ≠ va → tr ≠ va →
  match ns s !! md with
  | None => (reformat_split_save md tr va s).1 = Raise (NameError md)
  | Some (OFrame d) =>
      match split_frames d with
      | OK (new, train, valid) =>
          reformat_split_save md tr va s = (OK (), saved md tr va d new train valid s)
      | Raise e => (reformat_split_save md tr va s).1 = Raise e
      end
  | Some _ => (reformat_split_save md tr va s).1 = Raise TypeError
  end.
Proof.
  intros ???. unfold split_frames.
  cbv [reformat_split_save call_sample frame_var call_drop bind getvar setvar lift
       ret write_file].
  destruct (ns s !! md) as [[]|] eqn:Hmd; exec; try reflexivity.
  destruct (getitem "y_yes" df) as [label|e] eqn:Hl; exec; [|reflexivity].
  destruct (drop_columns ["y_no"; "y_yes"] df) as [rest|e] eqn:Hr; exec; [|reflexivity].
  destruct (concat_axis1 label rest) as [new|e] eqn:Hn; exec; [|reflexivity].
  rewrite sample_seeded.
  destruct (seeded_sample frac_07 1729 new) as [train|e] eqn:Ht; exec; [|reflexivity].
  destruct (drop_rows (index train) new) as [valid|e] eqn:Hv; exec; [|reflexivity].
  reflexivity.
Qed.

Lemma reformat_split_save_inv md tr va s s' :
  md ≠ tr → md ≠ va → tr ≠ va →
  reformat_split_save md tr va s = (OK (), s') →
  ∃ d new train valid,
    ns s !! md = Some (OFrame d)
    ∧ split_frames d = OK (new, train, valid)
    ∧ s' = saved md tr va d new train valid s.
Proof.
  intros H1 H2 H3 Hrun.
  pose proof (reformat_split_save_outcome md tr va s H1 H2 H3) as Ho.
  destruct (ns s !! md) as [[]|]; try (rewrite Hrun in Ho; discriminate).
  destruct (split_frames df) as [[[new train] valid]|e] eqn:Hsplit;
    [|rewrite Hrun in Ho; discriminate].
  rewrite Hrun in Ho. injection Ho as ->. by exists df, new, train, valid.
Qed.

Lemma split_frames_inv d new train valid :
  split_frames d = OK (new, train, valid) →
  new = {| index := index d;
           columns := filter (λ c, c.1 = "y_yes") (columns d)
                      ++ filter (λ c, c.1 ∉ ["y_no"; "y_yes"]) (columns d) |}
  ∧ "y_yes" ∈ column_names d
  ∧ "y_no" ∈ column_names d
  ∧ seeded_sample frac_07 1729 new = OK train
  ∧ drop_rows (index train) new = OK valid.
Proof.
  unfold split_frames, rbind.
  destruct (getitem "y_yes" d) as [label|] eqn:Hl; [|done].
  destruct (drop_columns _ d) as [rest|] eqn:Hr; [|done].
  destruct (concat_axis1 label rest) as [new'|] eqn:Hn; [|done].
  destruct (seeded_sample _ _ new') as [train'|] eqn:Ht; [|done].
  destruct (drop_rows _ new') as [valid'|] eqn:Hv; [|done].
  intros [= <- <- <-].
  apply getitem_inv in Hl as (Hli & Hlc & Hy).
  apply drop_columns_inv in Hr as [-> Hin].
  apply concat_axis1_inv in Hn as [_ ->].
  cbn [columns index] in *. rewrite Hli, Hlc in *.
  repeat split; try done.
  apply Hin. apply list_elem_of_here.
Qed.

End Running.

(** Reading a successful run backwards, one step at a time. *)
Ltac inv_step :=
  match goal with
  | H : bind _ _ _ = (OK _, _) |- _ =>
      let a := fresh "a" in
      let s1 := fresh "s" in
      let Hc := fresh "Hc" in
      apply bind_inv in H as (a & s1 & Hc & H); cbn beta zeta in H
  | H : run (_ :: _) _ = (OK _, _) |- _ =>
      let s1 := fresh "s" in
      let Hc := fresh "Hc" in
      apply run_cons_inv in H as (s1 & Hc & H)
  | H : run [] _ = (OK _, _) |- _ => apply run_nil_inv in H as ->
  | H : getvar _ _ = (OK _, _) |- _ => apply getvar_inv in H as [H ->]
  | H : setvar _ _ _ = (OK _, _) |- _ => apply setvar_inv in H as ->
  | H : print _ _ = (OK _, _) |- _ => apply print_inv in H as ->
  | H : import _ _ = (OK _, _) |- _ => apply import_inv in H as ->
  | H : lift _ _ = (OK _, _) |- _ => apply lift_inv in H as [H ->]
  | H : eval _ _ = (OK _, _) |- _ => apply eval_inv in H as [H ->]
  | H : tuner_var _ _ _ = (OK _, _) |- _ => apply tuner_var_inv in H as [H ->]
  | H : frame_var _ _ = (OK _, _) |- _ => apply frame_var_inv in H as [H ->]
  | H : tick _ = (OK _, _) |- _ => apply tick_inv in H as [-> ->]
  | H : ret _ _ = (OK _, _) |- _ => apply ret_inv in H as [-> ->]
  end.

(** Looking names up in a namespace that was just written to. *)
Ltac lookups :=
  repeat first
    [ progress cbn [ns files np_random stdout clock requests imported foldr] in *
    | rewrite lookup_insert_eq in *
    | rewrite lookup_insert_ne in * by done ].

(** ** The exported files *)

Section CsvFormat.
Context `{NumpyRandom} `{Service}.

Lemma get_dummies_no_object data :
  Forall (λ c, is_object c.2 = false) (columns (get_dummies data)).
Proof.
  unfold get_dummies. cbn [columns]. apply Forall_app. split.
  - apply Forall_forall. by intros c [Hc _]%list_elem_of_filter.
  - apply Forall_forall. intros c (y & Hc & _)%list_elem_of_bind.
    unfold encode in Hc. destruct (y.2); try by apply not_elem_of_nil in Hc.
    unfold dummies in Hc. by apply list_elem_of_fmap in Hc as (lv & -> & _).
Qed.

Lemma numeric_not_object s :
  is_object s = false → is_numeric_dtype (dtype_of s) = true.
Proof. by destruct s. Qed.

Lemma is_object_select (f : ∀ A : Type, list A → list A) s :
  is_object (select f s) = is_object s.
Proof. by destruct s. Qed.

Lemma numeric_cells s i :
  is_object s = false → is_numeric_cell (default CNaN (cells s !! i)) = true.
Proof.
  destruct s; try done; intros _; cbn; rewrite list_lookup_fmap;
    by destruct (v !! i).
Qed.

Lemma numeric_row df i :
  Forall (λ c, is_object c.2 = false) (columns df) →
  Forall (λ c, is_numeric_cell c = true) (row_at df i).
Proof.
  intros Hc. unfold row_at. apply Forall_fmap.
  eapply Forall_impl; [exact Hc|]. intros c Ho. by apply numeric_cells.
Qed.

(** Selecting rows changes neither the names nor the types of the columns. *)
Lemma column_names_select (f : ∀ A : Type, list A → list A)
    (cs : list (string * Series)) :
  fst <$> (prod_map id (select f) <$> cs) = fst <$> cs.
Proof. rewrite <- list_fmap_compose. by apply list_fmap_ext; intros ? []. Qed.

Lemma no_object_select (f : ∀ A : Type, list A → list A) cs :
  Forall (λ c, is_object c.2 = false) cs →
  Forall (λ c : string * Series, is_object c.2 = false) (prod_map id (select f) <$> cs).
Proof.
  intros Hc. apply Forall_fmap. eapply Forall_impl; [exact Hc|].
  intros [x c] Ho. cbn in *. by rewrite is_object_select.
Qed.

Lemma take_shape locs df t :
  take locs df = OK t →
  column_names t = column_names df
  ∧ (Forall (λ c, is_object c.2 = false) (columns df) →
     Forall (λ c, is_object c.2 = false) (columns t)).
Proof.
  intros [_ ->]%take_inv. unfold column_names. cbn [columns]. split.
  - apply (column_names_select (λ A, take_list locs)).
  - apply (no_object_select (λ A, take_list locs)).
Qed.

Lemma drop_rows_shape labels df t :
  drop_rows labels df = OK t →
  column_names t = column_names df
  ∧ (Forall (λ c, is_object c.2 = false) (columns df) →
     Forall (λ c, is_object c.2 = false) (columns t)).
Proof.
  intros [_ ->]%drop_rows_inv. unfold column_names. cbn [columns]. split.
  - apply (column_names_select (λ A, compress (row_mask labels df))).
  - apply (no_object_select (λ A, compress (row_mask labels df))).
Qed.

Lemma seeded_sample_inv frac seed df t :
  seeded_sample frac seed df = OK t →
  ∃ k, sample_size frac (Z.of_nat (nrows df)) = Some k
     ∧ (0 ≤ k ≤ Z.of_nat (nrows df))%Z
     ∧ take (firstn (Z.to_nat k) (permutation (RandomState seed) (nrows df)).1) df
       = OK t.
Proof.
  intros Ht.
  pose proof (sample_seeded frac seed df (RandomState seed)) as Hs.
  rewrite Ht in Hs. by apply sample_inv in Hs as [_ Hk].
Qed.

Lemma csv_of_numeric_frame df :
  head (column_names df) = Some "y_yes" →
  "y_no" ∉ column_names df →
  Forall (λ c, is_object c.2 = false) (columns df) →
  label_first_numeric df (to_csv false false df).
Proof.
  intros Hh Hn Ho. split; [done|]. split; [done|]. split.
  { eapply Forall_impl; [exact Ho|]. intros c. apply numeric_not_object. }
  unfold to_csv. cbn [app]. split.
  { by rewrite length_fmap, length_rows. }
  intros i line. rewrite rows_seq, <- list_fmap_compose, list_lookup_fmap.
  destruct (seq 0 (nrows df) !! i) as [j|] eqn:Hj; [|done].
  apply lookup_seq in Hj as [-> _]. cbn. intros [= <-]. split; [done|].
  apply Forall_fmap. eapply Forall_impl; [apply (numeric_row df i Ho)|].
  intros c Hc. by exists c.
Qed.

Lemma split_frames_format d new train valid :
  Forall (λ c, is_object c.2 = false) (columns d) →
  split_frames d = OK (new, train, valid) →
  label_first_numeric train (to_csv false false train)
  ∧ label_first_numeric valid (to_csv false false valid).
Proof.
  intros Ho (Hnew & Hy & _ & Ht & Hv)%split_frames_inv.
  assert (Hhead : head (column_names new) = Some "y_yes").
  { rewrite Hnew. unfold column_names. cbn [columns]. rewrite fmap_app.
    apply list_elem_of_fmap in Hy as ([x c] & Hx & Hc). cbn in Hx. subst x.
    destruct (filter (λ c, c.1 = "y_yes") (columns d)) as [|c' cs] eqn:Hf.
    - by destruct (filter_nil_inv _ _ _ Hf Hc).
    - assert (Hin : c' ∈ filter (λ c, c.1 = "y_yes") (columns d))
        by (rewrite Hf; left).
      apply list_elem_of_filter in Hin as [Hc' _]. cbn. by rewrite Hc'. }
  assert (Hno : "y_no" ∉ column_names new).
  { rewrite Hnew. unfold column_names. cbn [columns]. rewrite fmap_app.
    intros [Hin | Hin]%elem_of_app;
      apply list_elem_of_fmap in Hin as (c & Hx & Hc);
      apply list_elem_of_filter in Hc as [Hc _].
    - congruence.
    - apply Hc. rewrite <- Hx. apply list_elem_of_here. }
  assert (Hobj : Forall (λ c, is_object c.2 = false) (columns new)).
  { rewrite Hnew. cbn [columns]. apply Forall_app.
    split; apply Forall_forall; intros c [_ Hc]%list_elem_of_filter;
      by apply (proj1 (Forall_forall _ _) Ho). }
  apply seeded_sample_inv in Ht as (k & _ & _ & Ht).
  apply take_shape in Ht as [Htn Hto].
  apply drop_rows_shape in Hv as [Hvn Hvo].
  split; apply csv_of_numeric_frame; rewrite ?Htn, ?Hvn; auto.
Qed.

End CsvFormat.

Section ExportedFiles.
Context `{NumpyRandom} `{Service}.

Lemma pd_get_dummies_inv data encoded :
  pd_get_dummies data = OK encoded → encoded = get_dummies data ∧ columns data ≠ [].
Proof. unfold pd_get_dummies. destruct (columns data); [done|]. by intros [= <-]. Qed.

Lemma pd_get_dummies_OK data :
  columns (get_dummies data) ≠ [] → pd_get_dummies data = OK (get_dummies data).
Proof.
  unfold pd_get_dummies, get_dummies. cbn [columns].
  destruct (columns data); [done|]. done.
Qed.

Lemma encode_cell_inv src dst s s' :
  encode_cell src dst s = (OK (), s') →
  ∃ data, ns s !! src = Some (OFrame data)
        ∧ s' = mkState (<[dst := OFrame (get_dummies data)]> (ns s)) (files s)
                       (np_random s) (stdout s) (clock s) (requests s).
Proof.
  unfold encode_cell. intros Hrun. repeat inv_step.
  apply pd_get_dummies_inv in Hc0 as [-> _]. eauto.
Qed.

Lemma encode_cell_OK src dst s data :
  ns s !! src = Some (OFrame data) →
  columns (get_dummies data) ≠ [] →
  encode_cell src dst s
  = (OK (), mkState (<[dst := OFrame (get_dummies data)]> (ns s)) (files s)
                    (np_random s) (stdout s) (clock s) (requests s)).
Proof.
  intros Hd Hc. unfold encode_cell.
  rewrite (bind_OK _ _ _ _ _ (frame_var_OK _ _ _ Hd)).
  unfold bind, lift. by rewrite (pd_get_dummies_OK _ Hc).
Qed.

Lemma split_frames_has_column d r : split_frames d = OK r → columns d ≠ [].
Proof.
  destruct r as [[new train] valid].
  intros (_ & Hyes & _)%split_frames_inv Hnil.
  unfold column_names in Hyes. rewrite Hnil in Hyes. by apply not_elem_of_nil in Hyes.
Qed.

Lemma run_two_inv (c1 c2 : Cell ()) s s' :
  run [c1; c2] s = (OK (), s') →
  ∃ s1, c1 s = (OK (), s1) ∧ c2 s1 = (OK (), s').
Proof.
  unfold run. cbn [foldr].
  intros ([] & s1 & Hc1 & ([] & s2 & Hc2 & Hret)%bind_inv)%bind_inv.
  injection Hret as <-. eauto.
Qed.

Lemma encoded_split_format src md tr va s s' :
  md ≠ tr → md ≠ va → tr ≠ va →
  bind (encode_cell src md) (λ _, reformat_split_save md tr va) s = (OK (), s') →
  exported tr va s'.
Proof.
  intros H1 H2 H3.
  intros ([] & s1 & (data & Hd & ->)%encode_cell_inv & Hrun)%bind_inv.
  apply reformat_split_save_inv in Hrun
    as (d & new & train & valid & Hmd & Hsplit & ->); try done.
  cbn [ns] in Hmd. rewrite lookup_insert_eq in Hmd. injection Hmd as <-.
  exists train, valid. unfold saved. cbn [ns files].
  destruct (split_frames_format _ _ _ _ (get_dummies_no_object data) Hsplit)
    as [Ht Hv].
  split; [|split; [|split; [|split; [|split]]]]; try done.
  - rewrite lookup_insert_ne, lookup_insert_ne, lookup_insert_eq by congruence. done.
  - by rewrite lookup_insert_eq.
  - by rewrite lookup_insert_ne, lookup_insert_eq by done.
  - by rewrite lookup_insert_eq.
Qed.

(** C2.  Whenever the data preparation of the first job (the encoding cell,
    then the split cell) or of the second job (the one cell doing both on the
    cleaned data) goes through, [train.csv] and [validation.csv] hold the
    frames bound to the training and validation names, and in each the first
    column is [y_yes], [y_no] is gone, every column has a numeric type, and
    the file has one line per row with exactly the row's values: no header
    line, no index field, every field numeric. *)
Theorem exported_csv_format (s s' : State) :
  (run [cell_8; cell_10] s = (OK (), s') →
   exported "train_data" "validation_data" s')
  ∧ (cell_30 s = (OK (), s') →
     exported "clean_train_data" "clean_validation_data" s').
Proof.
  split.
  - intros (s1 & H8 & H10)%run_two_inv.
    apply (encoded_split_format "data" "model_data" "train_data" "validation_data" s);
      try done.
    unfold cell_8, cell_10 in *. by rewrite (bind_OK _ _ _ _ _ H8).
  - intros H30.
    by apply (encoded_split_format "clean_data" "clean_model_data"
                "clean_train_data" "clean_validation_data" s).
Qed.

End ExportedFiles.

Lemma exported_csv_format_witness :
  exported "train_data" "validation_data"
    (run [cell_8; cell_10] kernel_sample).2.
Proof.
  destruct (run [cell_8; cell_10] kernel_sample) as [r s'] eqn:Hrun.
  assert (Hr : (run [cell_8; cell_10] kernel_sample).1 = OK ())
    by (vm_compute; reflexivity).
  rewrite Hrun in Hr. cbn in Hr. subst r.
  exact (proj1 (exported_csv_format kernel_sample s') Hrun).
Defined.

(** When no customer said yes the encoding gives no [y_yes] column, and the
    split cell stops at [model_data['y_yes']]. *)
Example label_without_yes :
  let s := mkState (H := rotating) (<["data" := OFrame declined_sample]> ∅) ∅
                   (0%nat : @rng rotating) [] 0 [] in
  column_names (get_dummies declined_sample) = ["age"; "y_no"]
  ∧ (run [cell_8; cell_10] s).1 = Raise (KeyError "y_yes")
  ∧ files (run [cell_8; cell_10] s).2 = ∅.
Proof. repeat split; vm_compute; reflexivity. Qed.

(** ** The split is a partition *)

Section Partition.
Context `{NumpyRandom} `{Service}.
Hypothesis permutation_spec : ∀ g n, (permutation g n).1 ≡ₚ seq 0 n.

Lemma wf_get_dummies data : wf data → wf (get_dummies data).
Proof.
  intros Hwf. unfold wf, get_dummies, nrows. cbn [columns index].
  apply Forall_app. split.
  - apply Forall_forall. intros c [_ Hc]%list_elem_of_filter.
    by apply (proj1 (Forall_forall _ _) Hwf).
  - apply Forall_forall. intros c (y & Hc & Hy)%list_elem_of_bind.
    pose proof (proj1 (Forall_forall _ _) Hwf y Hy) as Hlen.
    unfold encode in Hc. destruct (y.2) eqn:Hy2; try by apply not_elem_of_nil in Hc.
    apply list_elem_of_fmap in Hc as (lv & -> & _).
    cbn beta in Hlen. rewrite Hy2 in Hlen.
    cbn [snd cells] in *. unfold indicator, nrows in *.
    rewrite length_fmap in Hlen. by rewrite !length_fmap.
Qed.

Lemma wf_reformatted d :
  wf d →
  wf {| index := index d;
        columns := filter (λ c, c.1 = "y_yes") (columns d)
                   ++ filter (λ c, c.1 ∉ ["y_no"; "y_yes"]) (columns d) |}.
Proof.
  intros Hwf. unfold wf, nrows. cbn [columns index]. apply Forall_app.
  split; apply Forall_forall; intros c [_ Hc]%list_elem_of_filter;
    by apply (proj1 (Forall_forall _ _) Hwf).
Qed.

Lemma split_frames_partition d new train valid :
  wf d → NoDup (index d) →
  split_frames d = OK (new, train, valid) →
  partitions new train valid ∧ seventy_percent new train.
Proof.
  intros Hwf Hnd (Hnew & _ & _ & Ht & Hv)%split_frames_inv.
  assert (Hwf' : wf new) by (rewrite Hnew; by apply wf_reformatted).
  assert (Hnd' : NoDup (index new)) by (by rewrite Hnew).
  apply seeded_sample_inv in Ht as (k & Hk & [Hk0 Hkn] & Ht).
  pose proof (permutation_spec (RandomState 1729) (nrows new)) as Hp.
  set (p := (permutation (RandomState 1729) (nrows new)).1) in *.
  assert (Hlocs : NoDup (firstn (Z.to_nat k) p)).
  { eapply sublist_NoDup; [|apply sublist_take].
    rewrite Hp. apply NoDup_seq. }
  destruct (take_drop_partition new _ train valid Hwf' Hnd' Hlocs Ht Hv)
    as (Hrows & Hidx & Hdisj).
  split.
  - split; [done|]. split; [done|]. split; [done|].
    intros l Hl. rewrite <- Hidx in Hl. apply elem_of_app in Hl as [Hl|Hl].
    + left. split; [done|]. by apply Hdisj.
    + right. split; [done|]. intros Hl'. by apply (Hdisj l).
  - unfold seventy_percent. rewrite Hk. f_equal.
    apply take_index in Ht. unfold nrows at 1. rewrite Ht, length_fmap.
    rewrite length_take_le; [lia|].
    rewrite Hp, length_seq. lia.
Qed.

Lemma sizes_ok_spec count n m :
  sizes_ok count n = true → (n ≤ m < n + Z.of_nat count)%Z → size_ok m = true.
Proof.
  revert n. induction count as [|count IH]; intros n Hok Hm; [lia|].
  cbn [sizes_ok] in Hok. apply andb_true_iff in Hok as [Hn Hok].
  destruct (decide (m = n)) as [->|Hne]; [done|].
  apply (IH (n + 1)%Z); [done | lia].
Qed.

Lemma sizes_ok_max_rows : sizes_ok (Z.to_nat (max_rows + 1)) 0 = true.
Proof. vm_compute. reflexivity. Qed.

Lemma sample_size_bounded n :
  (0 ≤ n ≤ max_rows)%Z →
  ∃ k, sample_size frac_07 n = Some k
     ∧ (0 ≤ k ≤ n)%Z
     ∧ (7 * n - 5 ≤ 10 * k ≤ 7 * n + 5)%Z.
Proof.
  intros Hn.
  assert (Hok : size_ok n = true).
  { apply (sizes_ok_spec _ 0 n sizes_ok_max_rows). unfold max_rows in *. lia. }
  unfold size_ok in Hok. destruct (sample_size frac_07 n) as [k|]; [|done].
  exists k. split; [done|].
  repeat (apply andb_true_iff in Hok as [Hok ?]). lia.
Qed.

Lemma split_frames_OK d :
  "y_yes" ∈ column_names d → "y_no" ∈ column_names d →
  (Z.of_nat (nrows d) ≤ max_rows)%Z →
  ∃ new train valid, split_frames d = OK (new, train, valid).
Proof.
  intros Hyes Hno Hn. unfold split_frames.
  rewrite (getitem_OK _ _ Hyes).
  rewrite drop_columns_OK.
  2:{ intros l Hl. repeat (apply elem_of_cons in Hl as [->|Hl]; [done|]).
      by apply not_elem_of_nil in Hl. }
  cbn [rbind]. unfold concat_axis1. cbn [index columns].
  rewrite decide_True by done. cbn [rbind].
  set (new := {| index := index d; columns := _ |}).
  destruct (sample_size_bounded (Z.of_nat (nrows new))) as (k & Hk & Hkn & _).
  { unfold new, nrows in *. cbn [index]. lia. }
  destruct (sample_OK permutation_spec frac_07 1729 new (RandomState 1729) k Hk Hkn)
    as [train Ht].
  unfold seeded_sample. rewrite Ht. cbn [fst rbind].
  rewrite sample_seeded in Ht. injection Ht as Ht.
  apply seeded_sample_inv in Ht as (k' & _ & _ & Ht).
  pose proof (take_index _ _ _ Ht) as Hidx.
  apply take_inv in Ht as [Hlt _].
  rewrite drop_rows_OK; [eauto|].
  intros l. rewrite Hidx. intros (i & -> & Hi)%list_elem_of_fmap.
  eapply list_elem_of_lookup_2. apply lookup_label_at. by apply Hlt.
Qed.

Lemma encoded_split_inv src md tr va s s' :
  md ≠ tr → md ≠ va → tr ≠ va →
  bind (encode_cell src md) (λ _, reformat_split_save md tr va) s = (OK (), s') →
  ∃ data new train valid,
    ns s !! src = Some (OFrame data)
    ∧ split_frames (get_dummies data) = OK (new, train, valid)
    ∧ ns s' !! md = Some (OFrame new)
    ∧ ns s' !! tr = Some (OFrame train)
    ∧ ns s' !! va = Some (OFrame valid).
Proof.
  intros H1 H2 H3.
  intros ([] & s1 & (data & Hd & ->)%encode_cell_inv & Hrun)%bind_inv.
  apply reformat_split_save_inv in Hrun
    as (d & new & train & valid & Hmd & Hsplit & ->); try done.
  cbn [ns] in Hmd. rewrite lookup_insert_eq in Hmd. injection Hmd as <-.
  exists data, new, train, valid. unfold saved. cbn [ns].
  split; [done|]. split; [done|]. split; [|split].
  - by rewrite lookup_insert_ne, lookup_insert_eq by congruence.
  - by rewrite lookup_insert_ne, lookup_insert_ne, lookup_insert_eq by congruence.
  - by rewrite lookup_insert_eq.
Qed.

Lemma encoded_split_OK src md tr va s data :
  md ≠ tr → md ≠ va → tr ≠ va →
  ns s !! src = Some (OFrame data) →
  (∃ r, split_frames (get_dummies data) = OK r) →
  ∃ s', bind (encode_cell src md) (λ _, reformat_split_save md tr va) s = (OK (), s').
Proof.
  intros H1 H2 H3 Hd [r Hsplit].
  rewrite (bind_OK _ _ _ _ _
             (encode_cell_OK src md s data Hd (split_frames_has_column _ _ Hsplit))).
  match goal with |- ∃ s', _ ?s1 = _ =>
    pose proof (reformat_split_save_outcome md tr va s1 H1 H2 H3) as Ho end.
  cbn [ns] in Ho. rewrite lookup_insert_eq, Hsplit in Ho.
  destruct r as [[new train] valid]. eauto.
Qed.

Lemma encoded_split_partition src md tr va s data :
  md ≠ tr → md ≠ va → tr ≠ va →
  wf data → NoDup (index data) →
  ns s !! src = Some (OFrame data) →
  (∀ s', bind (encode_cell src md) (λ _, reformat_split_save md tr va) s = (OK (), s') →
         split_of md tr va s')
  ∧ ("y_yes" ∈ column_names (get_dummies data) →
     "y_no" ∈ column_names (get_dummies data) →
     (0 < Z.of_nat (nrows data) ≤ max_rows)%Z →
     ∃ s', bind (encode_cell src md) (λ _, reformat_split_save md tr va) s = (OK (), s')).
Proof.
  intros H1 H2 H3 Hwf Hnd Hd. split.
  - intros s' (data' & new & train & valid & Hd' & Hsplit & Hmd & Htr & Hva)%encoded_split_inv;
      try done.
    rewrite Hd in Hd'. injection Hd' as <-.
    destruct (split_frames_partition _ _ _ _ (wf_get_dummies _ Hwf) Hnd Hsplit)
      as [Hpart Hsize].
    exists new, train, valid. do 5 (split; [done|]).
    intros Hmax. unfold seventy_percent in Hsize.
    destruct (sample_size_bounded (Z.of_nat (nrows new))) as (k & Hk & _ & Hb);
      [lia|]. rewrite Hk in Hsize. injection Hsize as ->. done.
  - intros Hyes Hno [_ Hmax].
    apply (encoded_split_OK src md tr va s data); try done.
    destruct (split_frames_OK (get_dummies data)) as (new & train & valid & Hs);
      eauto.
Qed.

(** C8.  In both splits the training and validation frames partition the
    encoded frame: together they hold its rows, each once, no row label is in
    both, and every row is in exactly one of them; the training frame holds
    [int(round(0.7 * n))] of the [n] rows, which is within half a row of
    seven tenths of [n].  The split goes through whenever the encoded frame
    has the two label columns and at least one row (the row count is checked
    for frames of up to [max_rows] rows). *)
Theorem split_is_partition (s : State) (data : DataFrame) :
  wf data → NoDup (index data) →
  (ns s !! "data" = Some (OFrame data) →
   (∀ s', run [cell_8; cell_10] s = (OK (), s') →
          split_of "model_data" "train_data" "validation_data" s')
   ∧ ("y_yes" ∈ column_names (get_dummies data) →
      "y_no" ∈ column_names (get_dummies data) →
      (0 < Z.of_nat (nrows data) ≤ max_rows)%Z →
      ∃ s', run [cell_8; cell_10] s = (OK (), s')))
  ∧ (ns s !! "clean_data" = Some (OFrame data) →
     (∀ s', cell_30 s = (OK (), s') →
            split_of "clean_model_data" "clean_train_data" "clean_validation_data" s')
     ∧ ("y_yes" ∈ column_names (get_dummies data) →
        "y_no" ∈ column_names (get_dummies data) →
        (0 < Z.of_nat (nrows data) ≤ max_rows)%Z →
        ∃ s', cell_30 s = (OK (), s'))).
Proof.
  intros Hwf Hnd. split; intros Hd.
  - destruct (encoded_split_partition "data" "model_data" "train_data"
                "validation_data" s data) as [HA HB]; try done.
    split.
    + intros s' (s1 & H8 & H10)%run_two_inv. apply HA.
      unfold cell_8, cell_10 in *. by rewrite (bind_OK _ _ _ _ _ H8).
    + intros Hyes Hno Hmax. destruct (HB Hyes Hno Hmax) as [s' Hrun].
      exists s'. unfold run. cbn [foldr].
      apply bind_inv in Hrun as ([] & s1 & H8 & H10).
      unfold cell_8, cell_10.
      rewrite (bind_OK _ _ _ _ _ H8), (bind_OK _ _ _ _ _ H10). done.
  - by apply (encoded_split_partition "clean_data" "clean_model_data"
                "clean_train_data" "clean_validation_data" s data).
Qed.

End Partition.

(** The stand-in generator permutes, and the sample frame is well formed. *)
Lemma rotating_permutation (g : @rng rotating) (n : nat) :
  (@permutation rotating g n).1 ≡ₚ seq 0 n.
Proof.
  cbn. unfold rotate. rewrite Permutation_app_comm. by rewrite take_drop.
Qed.

Lemma wf_bank_sample : wf bank_sample.
Proof. repeat constructor. Qed.

Lemma split_is_partition_witness :
  ∃ s', run [cell_8; cell_10] kernel_sample = (OK (), s')
      ∧ split_of "model_data" "train_data" "validation_data" s'.
Proof.
  destruct (split_is_partition rotating_permutation kernel_sample bank_sample
              wf_bank_sample (NoDup_seq 0 10)) as [Hfirst _].
  destruct Hfirst as [HA HB]; [reflexivity|].
  destruct HB as [s' Hrun].
  - apply list_elem_of_In. vm_compute. repeat (first [left; reflexivity | right]).
  - apply list_elem_of_In. vm_compute. repeat (first [left; reflexivity | right]).
  - unfold max_rows. cbn. lia.
  - exists s'. split; [exact Hrun | exact (HA s' Hrun)].
Defined.

(** ** The split is deterministic *)

Section Determinism.
Context `{NumpyRandom} `{Service}.

Lemma saved_lookups md tr va d new train valid s :
  md ≠ tr → md ≠ va → tr ≠ va →
  let s' := saved md tr va d new train valid s in
  ns s' !! md = Some (OFrame new)
  ∧ ns s' !! tr = Some (OFrame train)
  ∧ ns s' !! va = Some (OFrame valid)
  ∧ files s' !! "train.csv" = Some (to_csv false false train)
  ∧ files s' !! "validation.csv" = Some (to_csv false false valid)
  ∧ np_random s' = np_random s.
Proof.
  intros H1 H2 H3. unfold saved. cbn [ns files np_random].
  split; [|split; [|split; [|split; [|split]]]]; try done.
  - by rewrite lookup_insert_ne, lookup_insert_eq by congruence.
  - by rewrite lookup_insert_ne, lookup_insert_ne, lookup_insert_eq by congruence.
  - by rewrite lookup_insert_eq.
  - by rewrite lookup_insert_ne, lookup_insert_eq by done.
  - by rewrite lookup_insert_eq.
Qed.

Lemma reformat_split_save_same md tr va s1 s2 :
  md ≠ tr → md ≠ va → tr ≠ va →
  ns s1 !! md = ns s2 !! md →
  same_split md tr va (reformat_split_save md tr va s1)
                      (reformat_split_save md tr va s2).
Proof.
  intros H1 H2 H3 Heq.
  pose proof (reformat_split_save_outcome md tr va s1 H1 H2 H3) as Ho1.
  pose proof (reformat_split_save_outcome md tr va s2 H1 H2 H3) as Ho2.
  rewrite Heq in Ho1.
  assert (Hraise : ∀ e, (reformat_split_save md tr va s1).1 = Raise e →
                        (reformat_split_save md tr va s2).1 = Raise e →
                        same_split md tr va (reformat_split_save md tr va s1)
                                            (reformat_split_save md tr va s2)).
  { intros e He1 He2. split; [congruence|]. rewrite He1. discriminate. }
  destruct (ns s2 !! md) as [[]|]; eauto.
  destruct (split_frames df) as [[[new train] valid]|e]; eauto.
  rewrite Ho1, Ho2. split; [done|]. intros _. cbn [snd].
  destruct (saved_lookups md tr va df new train valid s1 H1 H2 H3)
    as (-> & -> & -> & -> & -> & _).
  destruct (saved_lookups md tr va df new train valid s2 H1 H2 H3)
    as (-> & -> & -> & -> & -> & _).
  done.
Qed.

Lemma encode_cell_outcome src dst s :
  match ns s !! src with
  | None => encode_cell src dst s = (Raise (NameError src), s)
  | Some (OFrame data) =>
      match columns data with
      | [] =>
          encode_cell src dst s = (Raise (ValueError "No objects to concatenate"), s)
      | _ :: _ =>
          encode_cell src dst s =
            (OK (), mkState (<[dst := OFrame (get_dummies data)]> (ns s)) (files s)
                            (np_random s) (stdout s) (clock s) (requests s))
      end
  | Some _ => encode_cell src dst s = (Raise TypeError, s)
  end.
Proof.
  cbv [encode_cell frame_var bind getvar setvar lift pd_get_dummies].
  destruct (ns s !! src) as [[]|]; try done.
  cbn. by destruct (columns df).
Qed.

Lemma encoded_split_same src md tr va s1 s2 :
  md ≠ tr → md ≠ va → tr ≠ va →
  ns s1 !! src = ns s2 !! src →
  same_split md tr va
    (bind (encode_cell src md) (λ _, reformat_split_save md tr va) s1)
    (bind (encode_cell src md) (λ _, reformat_split_save md tr va) s2).
Proof.
  intros H1 H2 H3 Heq.
  pose proof (encode_cell_outcome src md s1) as Ho1.
  pose proof (encode_cell_outcome src md s2) as Ho2.
  rewrite Heq in Ho1.
  destruct (ns s2 !! src) as [[]|]; try destruct (columns df);
    try (rewrite (bind_Raise _ _ _ _ _ Ho1), (bind_Raise _ _ _ _ _ Ho2);
         split; [done | discriminate]).
  rewrite (bind_OK _ _ _ _ _ Ho1), (bind_OK _ _ _ _ _ Ho2).
  apply reformat_split_save_same; try done.
  cbn [ns]. by rewrite !lookup_insert_eq.
Qed.

(** C9.  The split is deterministic.  Two runs of a split cell that find the
    same frame, whatever else differs between the two kernels (the state of
    numpy's global generator included), end alike: with the same exception,
    or with the same training and validation frames and the same two CSV
    files.  The seeded [sample] draws from a generator of its own and leaves
    the global one as it was. *)
Theorem split_is_deterministic (s1 s2 : State) :
  (ns s1 !! "model_data" = ns s2 !! "model_data" →
   same_split "model_data" "train_data" "validation_data" (cell_10 s1) (cell_10 s2))
  ∧ (ns s1 !! "clean_data" = ns s2 !! "clean_data" →
     same_split "clean_model_data" "clean_train_data" "clean_validation_data"
       (cell_30 s1) (cell_30 s2))
  ∧ ((cell_10 s1).1 = OK () → np_random (cell_10 s1).2 = np_random s1).
Proof.
  split; [|split].
  - intros Heq. by apply reformat_split_save_same.
  - intros Heq. by apply encoded_split_same.
  - intros Hok. unfold cell_10 in *.
    pose proof (reformat_split_save_outcome "model_data" "train_data"
                  "validation_data" s1) as Ho.
    destruct (ns s1 !! "model_data") as [[]|];
      try (rewrite Ho in Hok by done; discriminate).
    destruct (split_frames df) as [[[new train] valid]|e];
      [|rewrite Ho in Hok by done; discriminate].
    by rewrite Ho.
Qed.

End Determinism.

(** Without the seed the draw follows the global generator. *)
Example unseeded_sample_follows_the_generator :
  (sample (H := rotating) frac_07 None bank_sample 0%nat).1
  ≠ (sample (H := rotating) frac_07 None bank_sample 1%nat).1.
Proof.
  intros Heq.
  apply (f_equal (λ r, match r with OK t => index t | Raise _ => [] end)) in Heq.
  vm_compute in Heq. discriminate Heq.
Qed.

(** Two kernels that differ in the state of numpy's generator and in what has
    been printed. *)
Lemma split_is_deterministic_witness :
  let s1 := (cell_8 kernel_sample).2 in
  let s2 := mkState (ns s1) (files s1) (7%nat : @rng rotating)
                    ["Role name: SageMakerRole"] (clock s1) (requests s1) in
  same_split "model_data" "train_data" "validation_data" (cell_10 s1) (cell_10 s2)
  ∧ (cell_10 s1).1 = OK ().
Proof.
  intros s1 s2. split; [|vm_compute; reflexivity].
  apply (proj1 (split_is_deterministic s1 s2)). reflexivity.
Defined.

(** ** The clean-up of the data for the second job *)

Section Cleaning.
Context `{NumpyRandom} `{Service}.

Lemma cell_28_outcome s :
  match ns s !! "data" with
  | None => (cell_28 s).1 = Raise (NameError "data")
  | Some (OFrame data) =>
      match drop_columns forecast_columns data with
      | OK clean =>
          cell_28 s =
            (OK (), mkState (<["clean_data" := OFrame clean]>
                               (<["data" := OFrame data]> (ns s)))
                            (files s) (np_random s) (stdout s) (clock s) (requests s))
      | Raise e => (cell_28 s).1 = Raise e
      end
  | Some _ => (cell_28 s).1 = Raise TypeError
  end.
Proof.
  cbv [cell_28 call_drop frame_var bind getvar setvar lift ret].
  destruct (ns s !! "data") as [[]|] eqn:Hd; exec; try reflexivity.
  destruct (drop_columns forecast_columns df) as [clean|e] eqn:Hc; exec; reflexivity.
Qed.

(** With [inplace=True] the same call would have changed the receiver and
    returned nothing. *)
Lemma drop_inplace labels self new :
  drop_columns labels self = OK new →
  drop (Axis1 labels) true self = OK (new, None)
  ∧ drop (Axis1 labels) false self = OK (self, Some new).
Proof. intros Hd. unfold Pandas.drop. by rewrite Hd. Qed.

(** C10.  The clean-up cell removes the six forecast columns and nothing
    else: [clean_data] has the rows (the index) of [data] and its columns
    other than the six, in their order and with their values; [data] is bound
    to the same frame as before, and no other name and no file changes.  The
    cell goes through exactly when [data] has the six columns; otherwise it
    raises [KeyError]. *)
Theorem clean_data_drops_forecast_columns (s : State) (data : DataFrame) :
  ns s !! "data" = Some (OFrame data) →
  (∀ s', cell_28 s = (OK (), s') →
     ∃ clean,
       ns s' !! "clean_data" = Some (OFrame clean)
       ∧ index clean = index data
       ∧ columns clean = filter (λ c, c.1 ∉ forecast_columns) (columns data)
       ∧ (∀ c, c ∈ columns data →
            ((c.1 ∈ forecast_columns) ∧ (c ∉ columns clean))
            ∨ ((c.1 ∉ forecast_columns) ∧ (c ∈ columns clean)))
       ∧ ns s' !! "data" = Some (OFrame data)
       ∧ (∀ x, x ≠ "clean_data" → ns s' !! x = ns s !! x)
       ∧ files s' = files s)
  ∧ ((∀ l, l ∈ forecast_columns → l ∈ column_names data) →
     ∃ s', cell_28 s = (OK (), s'))
  ∧ (∀ l, l ∈ forecast_columns → l ∉ column_names data →
     ∃ k, (cell_28 s).1 = Raise (KeyError k)).
Proof.
  intros Hd. pose proof (cell_28_outcome s) as Ho. rewrite Hd in Ho.
  split; [|split].
  - intros s' Hrun.
    destruct (drop_columns forecast_columns data) as [clean|e] eqn:Hc;
      [|rewrite Hrun in Ho; discriminate].
    rewrite Hrun in Ho. injection Ho as ->.
    apply drop_columns_inv in Hc as [-> _].
    eexists. cbn [ns files index columns].
    split; [by rewrite lookup_insert_eq|]. split; [done|]. split; [done|].
    split; [|split; [|split]].
    + intros c Hin. destruct (decide (c.1 ∈ forecast_columns)) as [Hc|Hc].
      * left. split; [done|]. by intros [Hn _]%list_elem_of_filter.
      * right. split; [done|]. by apply list_elem_of_filter.
    + by rewrite lookup_insert_ne, lookup_insert_eq by done.
    + intros x Hx. rewrite lookup_insert_ne by done.
      destruct (decide (x = "data")) as [->|Hne].
      * by rewrite lookup_insert_eq.
      * by rewrite lookup_insert_ne.
    + done.
  - intros Hall. rewrite (drop_columns_OK _ _ Hall) in Ho. eauto.
  - intros l Hl Hn.
    destruct (drop_columns_Raise _ _ _ Hl Hn) as [k Hk].
    rewrite Hk in Ho. eauto.
Qed.

End Cleaning.

Lemma clean_data_drops_forecast_columns_witness :
  ∃ s' clean,
    cell_28 kernel_sample = (OK (), s')
    ∧ ns s' !! "clean_data" = Some (OFrame clean)
    ∧ column_names clean = ["age"; "marital"; "y"]
    ∧ ns s' !! "data" = Some (OFrame bank_sample).
Proof.
  destruct (clean_data_drops_forecast_columns kernel_sample bank_sample)
    as (HA & HB & _); [reflexivity|].
  destruct HB as [s' Hrun].
  { intros l Hl. apply list_elem_of_In. apply list_elem_of_In in Hl.
    vm_compute in Hl. vm_compute.
    repeat (destruct Hl as [<- | Hl]; [repeat (first [left; reflexivity | right])|]).
    destruct Hl. }
  destruct (HA s' Hrun) as (clean & Hclean & _ & Hcols & _ & Hdata & _).
  exists s', clean. repeat split; try done.
  unfold column_names. by rewrite Hcols.
Defined.

(** ** The tuning jobs *)

Section Tuning.
Context `{NumpyRandom} `{Service} `{Account} `{Analytics} `{NumpySort}.

Lemma create_job_inv req s u s1 :
  create_job req s = (OK u, s1) →
  create_hyper_parameter_tuning_job (clock s) req = None
  ∧ s1 = mkState (ns s) (files s) (np_random s) (stdout s) (S (clock s))
                 (requests s ++ [req]).
Proof.
  unfold create_job. intros Hrun. repeat inv_step.
  destruct (create_hyper_parameter_tuning_job _ _) eqn:Hc; [done|].
  by injection Hrun as <-.
Qed.

Lemma fit_inv x s s' :
  fit x s = (OK (), s') →
  ∃ t tr va,
    ns s !! x = Some (OTuner t)
    ∧ ns s !! "s3_input_train" = Some (OInput tr)
    ∧ ns s !! "s3_input_validation" = Some (OInput va)
    ∧ create_hyper_parameter_tuning_job (S (clock s))
        (tune_request t (name_from_base (base_name t) (clock s))
           [("train", tr); ("validation", va)]) = None
    ∧ s' = mkState
             (<[x := OTuner (started t (name_from_base (base_name t) (clock s)))]> (ns s))
             (files s) (np_random s) (stdout s) (S (S (clock s)))
             (requests s ++ [tune_request t (name_from_base (base_name t) (clock s))
                               [("train", tr); ("validation", va)]]).
Proof.
  unfold fit. intros Hrun. repeat inv_step.
  apply create_job_inv in Hrun as [Hcreate ->]. lookups.
  repeat match goal with
         | H : input_config ?v = OK _ |- _ => is_var v; destruct v; try discriminate
         end.
  simplify_eq/=. eauto 10.
Qed.

(** [fit] names the job, then sends the request, whatever the answer. *)
Lemma fit_sends x s t tr va :
  ns s !! x = Some (OTuner t) →
  ns s !! "s3_input_train" = Some (OInput tr) →
  ns s !! "s3_input_validation" = Some (OInput va) →
  let job := name_from_base (base_name t) (clock s) in
  let req := tune_request t job [("train", tr); ("validation", va)] in
  fit x s =
    (match create_hyper_parameter_tuning_job (S (clock s)) req with
     | None => OK ()
     | Some e => Raise e
     end,
     mkState (<[x := OTuner (started t job)]> (ns s)) (files s) (np_random s)
             (stdout s) (S (S (clock s))) (requests s ++ [req])).
Proof.
  intros Ht Htr Hva.
  cbv [fit tuner_var create_job tick bind getvar setvar lift input_config].
  exec. by destruct (create_hyper_parameter_tuning_job _ _).
Qed.

Lemma module_inv m attr s u s1 :
  module m attr s = (OK u, s1) → ns s !! m = Some (OClass m) ∧ s1 = s.
Proof.
  unfold module. intros Hrun. repeat inv_step.
  destruct a; try discriminate. case_decide; [|discriminate]. by subst.
Qed.

Lemma dataframe_inv x s df s1 :
  dataframe x s = (OK df, s1) →
  ∃ a, ns s !! x = Some (OAnalytics a)
     ∧ match _dataframe a with
       | Some kept => df = kept ∧ s1 = s
       | None =>
           fetch_dataframe (clock s) (_tuning_job_name a) = OK df
           ∧ s1 = mkState
                    (<[x := OAnalytics (mkAnalytics (_tuning_job_name a) (Some df))]> (ns s))
                    (files s) (np_random s) (stdout s) (S (clock s)) (requests s)
       end.
Proof.
  unfold dataframe. intros Hrun. repeat inv_step.
  destruct a; try discriminate. injection Hc0 as ->.
  exists a0. split; [done|].
  destruct (_dataframe a0) as [kept|].
  - by repeat inv_step.
  - repeat inv_step. done.
Qed.

(** A results cell that went through: it has asked the service once, and
    the three names are bound ([v] is what the table's name holds at the
    end, bound by this run or by an earlier one). *)
Lemma results_inv x jn mv tv s s' :
  jn ≠ mv → jn ≠ tv → mv ≠ tv → jn ≠ "sagemaker" →
  results x jn mv tv s = (OK (), s') →
  ∃ t df v,
    ns s !! x = Some (OTuner t)
    ∧ ns s !! "sagemaker" = Some (OClass "sagemaker")
    ∧ new_session = None
    ∧ fetch_dataframe (clock s) (_current_job_name t) = OK df
    ∧ s' = mkState
             (<[tv := v]>
             (<[mv := OAnalytics (mkAnalytics (_current_job_name t) (Some df))]>
             (<[jn := job_name_obj (_current_job_name t)]> (ns s))))
             (files s) (np_random s) (stdout s) (S (clock s)) (requests s).
Proof.
  intros Hn1 Hn2 Hn3 Hn4. unfold results. intros Hrun.
  repeat first
    [ match goal with
      | H : module _ _ _ = (OK _, _) |- _ => apply module_inv in H as [H ->]
      end
    | inv_step ].
  lookups. injection Hrun as <-.
  assert (a3 = _current_job_name a) as ->
    by (by destruct (_current_job_name a); simplify_eq/=).
  destruct new_session eqn:Hsess; [discriminate|].
  apply dataframe_inv in Hc6 as (an & Han & Hfetch). lookups.
  injection Han as <-. cbn [_dataframe _tuning_job_name] in Hfetch.
  destruct Hfetch as [Hfetch ->].
  exists a, a6, a8. do 4 (split; [done|]).
  destruct (empty a6).
  - repeat inv_step. lookups. f_equal.
    apply map_eq. intros k. rewrite !lookup_insert.
    repeat case_decide; congruence.
  - repeat inv_step.
    apply dataframe_inv in Hc0 as (an & Han & Hkept). lookups.
    injection Han as <-. cbn [_dataframe] in Hkept. destruct Hkept as [-> ->].
    lookups. simplify_eq. f_equal.
    apply map_eq. intros k. rewrite !lookup_insert.
    repeat case_decide; congruence.
Qed.

Lemma cell_23_inv s s' :
  cell_23 s = (OK (), s') →
  ∃ t df v,
    ns s !! "tuner" = Some (OTuner t)
    ∧ fetch_dataframe (clock s) (_current_job_name t) = OK df
    ∧ s' = mkState
             (<["df_parent" := v]>
             (<["tuner_parent_metrics"
                := OAnalytics (mkAnalytics (_current_job_name t) (Some df))]>
             (<["tuning_job_name" := job_name_obj (_current_job_name t)]> (ns s))))
             (files s) (np_random s) (stdout s) (S (clock s)) (requests s).
Proof.
  unfold cell_23. intros Hrun.
  apply results_inv in Hrun as (t & df & v & Ht & _ & _ & Hf & ->); [|done..].
  eauto 10.
Qed.

Lemma cell_34_inv s s' :
  cell_34 s = (OK (), s') →
  ∃ v job,
    ns s !! "tuning_job_name" = Some v
    ∧ as_job_name v = OK job
    ∧ s' = mkState
             (<["warm_start_config" :=
                  OWarmStartConfig {| type := TRANSFER_LEARNING; parents := {[ job ]} |}]>
                (<["parent_tuning_job_name" := v]>
                   (imported ["WarmStartConfig"; "WarmStartTypes"] (ns s))))
             (files s) (np_random s) (stdout s) (clock s) (requests s).
Proof.
  unfold cell_34. intros Hrun. repeat inv_step. lookups.
  unfold WarmStartConfig_init in *. case_decide; [done|]. simplify_eq.
  eauto.
Qed.

Lemma cell_35_inv s s' :
  cell_35 s = (OK (), s') →
  ∃ xgb metric ranges w t,
    ns s !! "xgb" = Some (OEstimator xgb)
    ∧ ns s !! "objective_metric_name" = Some (OStr metric)
    ∧ ns s !! "hyperparameter_ranges" = Some (ORanges ranges)
    ∧ ns s !! "warm_start_config" = Some (OWarmStartConfig w)
    ∧ t = mkTuner xgb metric ranges "Maximize" 20 2 (Some "warmstart") (Some w) None
    ∧ s' = mkState (<["tuner_warm_start" := OTuner t]> (ns s))
                   (files s) (np_random s) (stdout s) (clock s) (requests s).
Proof.
  unfold cell_35. intros Hrun. repeat inv_step.
  unfold HyperparameterTuner_init in *. case_decide; [done|].
  repeat match goal with
         | H : _ ?v = OK _ |- _ => is_var v; destruct v; try discriminate
         end.
  simplify_eq/=. eauto 12.
Qed.


(** *** The tuner cell *)

Lemma cell_17_published_outcome s :
  cell_17_published s = (Raise SyntaxError, s).
Proof. reflexivity. Qed.

Lemma cell_17_directed s xgb :
  ns s !! "xgb" = Some (OEstimator xgb) →
  cell_17 (Some ranges_as_directed) (Some tuner_as_directed) s =
    (OK (),
     mkState (<["tuner" := OTuner (directed_tuner xgb)]>
             (<["objective_metric_name" := OStr "validation:auc"]>
             (<["hyperparameter_ranges" := ORanges directed_ranges]>
             (imported ["IntegerParameter"; "ContinuousParameter"; "HyperparameterTuner"]
                       (ns s)))))
             (files s) (np_random s) (stdout s) (clock s) (requests s)).
Proof.
  intros Hx.
  cbv [cell_17 import eval bind setvar ranges_as_directed tuner_as_directed name
       imported foldr].
  exec. cbn [as_estimator as_str as_ranges].
  unfold HyperparameterTuner_init. rewrite decide_False; [done|].
  apply insert_non_empty.
Qed.

Lemma tuner_as_directed_inv m v :
  tuner_as_directed m = OK v →
  ∃ xgb metric ranges,
    m !! "xgb" = Some (OEstimator xgb)
    ∧ m !! "objective_metric_name" = Some (OStr metric)
    ∧ m !! "hyperparameter_ranges" = Some (ORanges ranges)
    ∧ v = OTuner (mkTuner xgb metric ranges "Maximize" 5 3 None None None).
Proof.
  unfold tuner_as_directed, name, rbind, HyperparameterTuner_init.
  repeat (case_match; try discriminate). simplify_eq/=.
  repeat match goal with
         | H : _ ?v = OK _ |- _ => is_var v; destruct v; try discriminate
         end.
  simplify_eq/=. intros [= <-]. eauto 10.
Qed.

Lemma cell_17_inv ranges tuner s s' :
  cell_17 (Some ranges) (Some tuner) s = (OK (), s') →
  let m0 := imported ["IntegerParameter"; "ContinuousParameter"; "HyperparameterTuner"]
                     (ns s) in
  ∃ r t,
    ranges m0 = OK r
    ∧ tuner (<["objective_metric_name" := OStr "validation:auc"]>
               (<["hyperparameter_ranges" := r]> m0)) = OK t
    ∧ s' = mkState (<["tuner" := t]>
                   (<["objective_metric_name" := OStr "validation:auc"]>
                   (<["hyperparameter_ranges" := r]> m0)))
                   (files s) (np_random s) (stdout s) (clock s) (requests s).
Proof.
  unfold cell_17. intros Hrun. repeat inv_step. lookups. eauto.
Qed.

(** C4, as the notebook has it.  The tuner cell is published with its two
    right-hand sides left to the reader: as it stands it does not compile and
    binds nothing.  Completed as its comments direct, it binds
    [hyperparameter_ranges] to the four ranges ([eta] continuous in [0,1],
    [alpha] continuous in [0,2], [min_child_weight] continuous in [1,10],
    [max_depth] integer in [1,10]) and [tuner] to a tuner with 5 [max_jobs]
    and 3 [max_parallel_jobs]; the next cell then calls [fit] on that tuner,
    which sends a request with these ranges and limits and with the train and
    validation inputs. *)
Theorem tuner_cell_left_to_the_reader
    (s : State) (xgb : Estimator) (tr va : s3_input) :
  ns s !! "xgb" = Some (OEstimator xgb) →
  ns s !! "s3_input_train" = Some (OInput tr) →
  ns s !! "s3_input_validation" = Some (OInput va) →
  cell_17_published s = (Raise SyntaxError, s)
  ∧ ∃ s1 req,
      cell_17 (Some ranges_as_directed) (Some tuner_as_directed) s = (OK (), s1)
      ∧ ns s1 !! "hyperparameter_ranges" = Some (ORanges directed_ranges)
      ∧ dom directed_ranges = {[ "eta"; "alpha"; "min_child_weight"; "max_depth" ]}
      ∧ directed_ranges !! "eta" = Some (ContinuousParameter 0 1)
      ∧ directed_ranges !! "alpha" = Some (ContinuousParameter 0 2)
      ∧ directed_ranges !! "min_child_weight" = Some (ContinuousParameter 1 10)
      ∧ directed_ranges !! "max_depth" = Some (IntegerParameter 1 10)
      ∧ ns s1 !! "tuner" = Some (OTuner (directed_tuner xgb))
      ∧ max_jobs (directed_tuner xgb) = 5%Z
      ∧ max_parallel_jobs (directed_tuner xgb) = 3%Z
      ∧ requests (cell_19 s1).2 = requests s ++ [req]
      ∧ ParameterRanges req = directed_ranges
      ∧ MaxNumberOfTrainingJobs req = 5%Z
      ∧ MaxParallelTrainingJobs req = 3%Z
      ∧ InputDataConfig req = [("train", tr); ("validation", va)].
Proof.
  intros Hx Htr Hva. split; [reflexivity|].
  eexists _, _. split; [by apply cell_17_directed|].
  split; [by lookups|].
  split; [unfold directed_ranges; rewrite !dom_insert_L; set_solver|].
  do 4 (split; [reflexivity|]).
  split; [by lookups|]. do 2 (split; [reflexivity|]).
  unfold cell_19. erewrite fit_sends; lookups; try done.
  split; [reflexivity|]. done.
Qed.

(** C6, as the notebook has it.  Whatever the reader writes for the two
    right-hand sides of the tuner cell, the second job is submitted with the
    metric ['validation:auc'], read from the variable the tuner cell set and
    nothing rebinds, and with the direction ['Maximize'].  The first tuner is
    the reader's: when it is built as the cell's comments direct, the first
    job is submitted with the same two. *)
Theorem both_jobs_maximize_validation_auc (ranges tuner : expr) (s s' : State) :
  run [cell_17 (Some ranges) (Some tuner); cell_19; cell_23; cell_34; cell_35; cell_37] s
    = (OK (), s') →
  ∃ first second,
    requests s' = requests s ++ [first; second]
    ∧ ns s' !! "objective_metric_name" = Some (OStr "validation:auc")
    ∧ ObjectiveMetricName second = "validation:auc"
    ∧ ObjectiveType second = "Maximize"
    ∧ (tuner = tuner_as_directed →
       ObjectiveMetricName first = "validation:auc"
       ∧ ObjectiveType first = "Maximize").
Proof.
  intros Hrun. repeat inv_step. unfold cell_19, cell_37 in *.
  apply cell_17_inv in Hc as (r & t0 & Hr & Ht0 & ->). lookups.
  apply fit_inv in Hc0 as (t1 & tr & va & Ht1 & Htr & Hva & Hcreate & ->). lookups.
  apply cell_23_inv in Hc1 as (t2 & df2 & v2 & Ht2 & _ & ->). lookups.
  apply cell_34_inv in Hc2 as (v & job & Hv & Hjob & ->). lookups.
  apply cell_35_inv in Hc3
    as (xgb & metric & rs & w & t & Hx & Hm & Hrs & Hw & -> & ->). lookups.
  apply fit_inv in Hc4 as (t3 & tr' & va' & Ht3 & Htr' & Hva' & Hcreate' & ->).
  lookups. simplify_eq.
  eexists _, _. split; [by rewrite <- app_assoc|].
  split; [done|]. split; [done|]. split; [done|].
  intros ->. apply tuner_as_directed_inv in Ht0
    as (xgb' & metric' & rs' & Hx' & Hm' & Hrs' & [= ->]).
  lookups. by simplify_eq.
Qed.

(** *** The status cells *)

Lemma is_suffix_of_app a suf : is_suffix_of suf (a +:+ suf) = true.
Proof.
  induction a as [|c a IH].
  - change (EmptyString +:+ suf) with suf.
    destruct suf; cbn [is_suffix_of]; by rewrite String.eqb_refl.
  - change (String c a +:+ suf) with (String c (a +:+ suf)).
    cbn [is_suffix_of]. rewrite IH. apply orb_true_r.
Qed.

Lemma count_line_not_reminder (n : Z) :
  pretty n +:+ " training jobs have completed" ≠ reminder.
Proof.
  intros Heq.
  pose proof (is_suffix_of_app (pretty n) " training jobs have completed") as Hs.
  rewrite Heq in Hs. vm_compute in Hs. discriminate.
Qed.

Lemma reminder_in_status_lines d :
  reminder ∈ status_lines d ↔ HyperParameterTuningJobStatus d ≠ "Completed".
Proof.
  unfold status_lines. rewrite !elem_of_app, !list_elem_of_singleton.
  case_decide as Hst.
  - rewrite list_elem_of_singleton. split; [done | auto].
  - split; [|done]. intros [Hr | [Hr | Hr]].
    + discriminate.
    + by apply not_elem_of_nil in Hr.
    + symmetry in Hr. by apply count_line_not_reminder in Hr.
Qed.

Lemma poll_outcome x s :
  x ≠ "sage_client" → status_report (poll x) x s.
Proof.
  intros Hx. split.
  - intros Hb. cbv [poll module bind getvar lift]. by rewrite Hb.
  - intros Hb.
    cbv [poll module tuner_var describe_job tick bind getvar setvar lift ret print].
    rewrite Hb. rewrite decide_True by done.
    destruct new_client as [e|]; [done|]. intros t Ht.
    exec.
    destruct (describe_hyper_parameter_tuning_job _ _) as [d|e]; [|done].
    split; [|split; [|apply reminder_in_status_lines]].
    + exec. by case_decide.
    + unfold status_lines. exec. case_decide; cbn; rewrite <- ?app_assoc; done.
Qed.

Lemma fit_refused x (c : Cell ()) s : refusal_report (fit x) c x s.
Proof.
  intros t tr va e Ht Htr Hva Hcreate.
  pose proof (fit_sends x s t tr va Ht Htr Hva) as Hfit. cbn zeta in Hfit.
  rewrite Hcreate in Hfit. rewrite (run_cons_Raise _ _ _ _ _ Hfit), Hfit. done.
Qed.

Lemma as_job_name_obj job : as_job_name (job_name_obj job) = OK job.
Proof. by destruct job. Qed.

Lemma results_listing x jn mv tv s :
  jn ≠ "sagemaker" → listing_report (results x jn mv tv) x s.
Proof.
  intros Hn t e Ht Hm Hfail.
  cbv [results dataframe module tuner_var tick bind getvar setvar lift ret].
  exec. rewrite decide_True by done. exec. rewrite as_job_name_obj.
  destruct new_session as [e'|]; [by subst|].
  exec. cbn [_dataframe _tuning_job_name]. exec. done.
Qed.

(** C5.  The cells that talk to the service hand its exceptions on: none of
    them has a handler, so the cell ends with the exception that was raised.
    A status cell asks boto3 for a client and the service for the job's
    description: if building the client raises, or the description, the cell
    ends with that exception and prints nothing; otherwise it prints the
    status, then the reminder exactly when the status is not ['Completed'],
    then the count of completed training jobs.  (Run before [boto3] is
    imported it ends with [NameError].)  A [fit] cell whose request the
    service refuses ends with the service's exception, and a run stops there:
    the status cell after it is not reached.  A results cell ends with the
    exception of the session it builds or of the listing it asks for.  The
    status lines are all that is printed, and only when the description was
    obtained. *)
Theorem status_cells_report_and_propagate (s : State) :
  status_report cell_21 "tuner" s
  ∧ status_report cell_38 "tuner_warm_start" s
  ∧ refusal_report cell_19 cell_21 "tuner" s
  ∧ refusal_report cell_37 cell_38 "tuner_warm_start" s
  ∧ listing_report cell_23 "tuner" s
  ∧ listing_report cell_40 "tuner_warm_start" s.
Proof.
  split; [|split; [|split; [|split; [|split]]]].
  - by apply poll_outcome.
  - by apply poll_outcome.
  - apply fit_refused.
  - apply fit_refused.
  - by apply results_listing.
  - by apply results_listing.
Qed.

End Tuning.

(** ** The tuning cells on the sample kernel *)

#[local] Existing Instance console.
#[local] Existing Instance instance_sample.
#[local] Existing Instance history.
#[local] Existing Instance insertion.

(** The tuner cell as published defines no ranges and builds no tuner: run on
    the sample kernel it raises [SyntaxError], neither name gets bound, and
    the [fit] cell finds no [tuner]. *)
Lemma tuner_cell_as_published_counterexample :
  ¬ (∃ s1 r t,
       cell_17_published kernel_sample = (OK (), s1)
       ∧ ns s1 !! "hyperparameter_ranges" = Some (ORanges r)
       ∧ ns s1 !! "tuner" = Some (OTuner t))
  ∧ cell_17_published kernel_sample = (Raise SyntaxError, kernel_sample)
  ∧ ns kernel_sample !! "hyperparameter_ranges" = None
  ∧ ns kernel_sample !! "tuner" = None
  ∧ (run [cell_17_published; cell_19] kernel_sample).1 = Raise SyntaxError
  ∧ (cell_19 kernel_sample).1 = Raise (NameError "tuner").
Proof.
  split; [|repeat split; vm_compute; reflexivity].
  intros (s1 & r & t & Hrun & _). discriminate Hrun.
Qed.

Lemma tuner_cell_left_to_the_reader_witness :
  cell_17_published kernel_sample = (Raise SyntaxError, kernel_sample)
  ∧ ∃ s1, cell_17 (Some ranges_as_directed) (Some tuner_as_directed) kernel_sample
          = (OK (), s1)
        ∧ ns s1 !! "tuner" = Some (OTuner (directed_tuner xgb_sample)).
Proof.
  destruct (tuner_cell_left_to_the_reader kernel_sample xgb_sample
              (input_sample "train") (input_sample "validation"))
    as (Hpub & s1 & req & Hrun & _ & _ & _ & _ & _ & _ & Htuner & _);
    [reflexivity | reflexivity | reflexivity |].
  split; [exact Hpub|]. exists s1. split; [exact Hrun | exact Htuner].
Defined.


Lemma both_jobs_maximize_validation_auc_witness :
  ∃ s' first second,
    run [cell_17 (Some ranges_as_directed) (Some tuner_as_directed);
         cell_19; cell_23; cell_34; cell_35; cell_37] kernel_sample = (OK (), s')
    ∧ requests s' = [first; second]
    ∧ ObjectiveMetricName first = "validation:auc"
    ∧ ObjectiveType first = "Maximize"
    ∧ ObjectiveMetricName second = "validation:auc"
    ∧ ObjectiveType second = "Maximize".
Proof.
  destruct (run [cell_17 (Some ranges_as_directed) (Some tuner_as_directed);
                 cell_19; cell_23; cell_34; cell_35; cell_37] kernel_sample)
    as [r s'] eqn:Hrun.
  assert (Hr : (run [cell_17 (Some ranges_as_directed) (Some tuner_as_directed);
                     cell_19; cell_23; cell_34; cell_35; cell_37] kernel_sample).1
               = OK ()) by (vm_compute; reflexivity).
  rewrite Hrun in Hr. cbn in Hr. subst r.
  destruct (both_jobs_maximize_validation_auc _ _ kernel_sample s' Hrun)
    as (first & second & Hreq & _ & Hm2 & Ht2 & Hfirst).
  destruct (Hfirst eq_refl) as [Hm1 Ht1].
  exists s', first, second. repeat split; assumption.
Defined.

(** The first tuner is the reader's.  With a tuner in the tuner cell that
    minimises the error rate, every cell goes through on the sample kernel,
    and the two jobs are submitted with different metrics and directions. *)
Lemma first_job_objective_counterexample :
  (let r := run [cell_17 (Some ranges_as_directed) (Some tuner_minimize);
                 cell_19; cell_23; cell_34; cell_35; cell_37] kernel_sample in
   r.1 = OK ()
   ∧ (λ q, (ObjectiveMetricName q, ObjectiveType q)) <$> requests r.2
     = [("validation:error", "Minimize"); ("validation:auc", "Maximize")])
  ∧ ¬ (∀ (ranges tuner : expr) (s s' : @State rotating),
         run [cell_17 (Some ranges) (Some tuner); cell_19; cell_23; cell_34; cell_35;
              cell_37] s = (OK (), s') →
         ∃ first second,
           requests s' = requests s ++ [first; second]
           ∧ ObjectiveMetricName first = "validation:auc"
           ∧ ObjectiveType first = "Maximize"
           ∧ ObjectiveMetricName second = "validation:auc"
           ∧ ObjectiveType second = "Maximize").
Proof.
  split; [split; vm_compute; reflexivity|].
  intros Hall.
  destruct (run [cell_17 (Some ranges_as_directed) (Some tuner_minimize);
                 cell_19; cell_23; cell_34; cell_35; cell_37] kernel_sample)
    as [r s'] eqn:Hrun.
  assert (Hr : (run [cell_17 (Some ranges_as_directed) (Some tuner_minimize);
                     cell_19; cell_23; cell_34; cell_35; cell_37] kernel_sample).1
               = OK ()) by (vm_compute; reflexivity).
  assert (Hq : ObjectiveMetricName <$>
                 requests (run [cell_17 (Some ranges_as_directed) (Some tuner_minimize);
                                cell_19; cell_23; cell_34; cell_35; cell_37]
                             kernel_sample).2
               = ["validation:error"; "validation:auc"]) by (vm_compute; reflexivity).
  rewrite Hrun in Hr, Hq. cbn [fst snd] in Hr, Hq. subst r.
  destruct (Hall _ _ _ _ Hrun) as (first & second & Hreq & Hm1 & _).
  rewrite Hreq in Hq. cbn in Hq. rewrite Hm1 in Hq. discriminate Hq.
Qed.

(** The sample kernel once the first job has been started: the status cell
    goes through and prints the reminder, the job being in progress. *)
Lemma status_cells_report_and_propagate_witness :
  let s := (run [cell_17 (Some ranges_as_directed) (Some tuner_as_directed); cell_19]
              kernel_sample).2 in
  (cell_21 s).1 = OK () ∧ reminder ∈ stdout (cell_21 s).2.
Proof.
  intros s.
  destruct (status_cells_report_and_propagate s) as ((_ & H21) & _).
  specialize (H21 eq_refl). cbn match in H21.
  assert (Ht : ∃ t, ns s !! "tuner" = Some (OTuner t)) by (vm_compute; eauto).
  destruct Ht as [t Ht]. specialize (H21 t Ht).
  destruct (describe_hyper_parameter_tuning_job (clock s) (_current_job_name t))
    as [d|e] eqn:Hd; [|discriminate Hd].
  destruct H21 as (Hok & Hout & Hiff).
  split; [exact Hok|]. rewrite Hout. apply elem_of_app. right. apply Hiff.
  injection Hd as <-. vm_compute. discriminate.
Defined.

(** * Further properties of the cells *)

(** ** The levels of a categorical column *)

Section Levels.

Lemma ascii_compare_lt_trans a b c :
  Ascii.compare a b = Lt → Ascii.compare b c = Lt → Ascii.compare a c = Lt.
Proof. unfold Ascii.compare. rewrite !N.compare_lt_iff. lia. Qed.

Lemma string_lt_trans a b c : string_lt a b → string_lt b c → string_lt a c.
Proof.
  unfold string_lt. revert b c.
  induction a as [|x a IH]; intros [|y b] [|z c]; cbn; try done.
  destruct (Ascii.compare x y) eqn:Hxy; try done.
  - apply Ascii.compare_eq_iff in Hxy as ->.
    destruct (Ascii.compare y z); try done. apply IH.
  - destruct (Ascii.compare y z) eqn:Hyz; try done.
    + apply Ascii.compare_eq_iff in Hyz as <-. by rewrite Hxy.
    + by rewrite (ascii_compare_lt_trans _ _ _ Hxy Hyz).
Qed.

Lemma string_lt_irrefl a : ¬ string_lt a a.
Proof.
  unfold string_lt. intros Hlt.
  pose proof (String.compare_antisym a a) as Ha. rewrite Hlt in Ha. done.
Qed.

Lemma elem_of_insert_level s x l : x ∈ insert_level s l ↔ x = s ∨ x ∈ l.
Proof.
  induction l as [|y l IH]; cbn.
  - rewrite list_elem_of_singleton, elem_of_nil. tauto.
  - destruct (String.compare s y) eqn:Hc.
    + apply String.compare_eq_iff in Hc as ->. rewrite elem_of_cons. tauto.
    + rewrite !elem_of_cons. tauto.
    + rewrite !elem_of_cons, IH. tauto.
Qed.

Lemma insert_level_sorted s l :
  StronglySorted string_lt l → StronglySorted string_lt (insert_level s l).
Proof.
  induction 1 as [|y l Hl IH Hy]; cbn.
  - repeat constructor.
  - destruct (String.compare s y) eqn:Hc.
    + by constructor.
    + constructor; [by constructor|]. constructor; [done|].
      eapply Forall_impl; [exact Hy|]. intros z Hz. by eapply string_lt_trans.
    + constructor; [done|]. apply Forall_forall. intros z Hz.
      apply elem_of_insert_level in Hz as [->|Hz].
      * unfold string_lt. rewrite String.compare_antisym, Hc. done.
      * by apply (proj1 (Forall_forall _ _) Hy).
Qed.

Lemma levels_sorted v : StronglySorted string_lt (levels v).
Proof.
  induction v as [|[s|] v IH]; cbn; [constructor| |done].
  by apply insert_level_sorted.
Qed.

Lemma elem_of_levels v s : s ∈ levels v ↔ Some s ∈ v.
Proof.
  induction v as [|[x|] v IH]; cbn.
  - by rewrite !elem_of_nil.
  - fold (levels v). rewrite elem_of_insert_level, elem_of_cons, IH.
    split; intros [?|?]; auto; left; congruence.
  - fold (levels v). rewrite elem_of_cons, IH. split; [auto|]. by intros [?|?].
Qed.

Lemma sorted_NoDup l : StronglySorted string_lt l → NoDup l.
Proof.
  induction 1 as [|x l Hl IH Hx]; constructor; [|done].
  intros Hin. apply (proj1 (Forall_forall _ _) Hx) in Hin.
  by apply string_lt_irrefl in Hin.
Qed.

Lemma filter_fmap {A B} (f : A → B) (P : B → Prop) `{∀ y, Decision (P y)} (l : list A) :
  filter P (f <$> l) = f <$> filter (λ x, P (f x)) l.
Proof.
  induction l as [|x l IH]; [done|].
  cbn [fmap list_fmap]. rewrite !filter_cons, IH. by destruct (decide (P (f x))).
Qed.

Lemma filter_eq_NoDup {A} `{EqDecision A} (l : list A) (s : A) :
  NoDup l → s ∈ l → filter (λ x, x = s) l = [s].
Proof.
  induction 1 as [|x l Hx Hnd IH]; intros Hin; [by apply elem_of_nil in Hin|].
  rewrite filter_cons. destruct (decide (x = s)) as [->|Hne].
  - f_equal. apply filter_nil_intro. intros y Hy ->. done.
  - apply IH. apply elem_of_cons in Hin as [?|?]; [congruence|done].
Qed.

Lemma indicator_hot lv (v : list (option string)) i :
  indicator lv v !! i = Some 1%Z ↔ v !! i = Some (Some lv).
Proof.
  unfold indicator. rewrite list_lookup_fmap.
  destruct (v !! i) as [o|]; cbn; [|done].
  case_decide; split; intros [=]; subst; done.
Qed.

(** X1.  The indicator columns [get_dummies] gives a categorical column are
    named [<column>_<value>] for the values present in the column: every
    string in the column is a level and nothing else is (a missing value
    gives none), each level comes once, and the levels are in increasing
    order. *)
Theorem levels_sorted_distinct_present (name : string) (v : list (option string)) :
  StronglySorted string_lt (levels v)
  ∧ NoDup (levels v)
  ∧ (∀ s, s ∈ levels v ↔ Some s ∈ v)
  ∧ (encode (name, ObjectS v)).*1 = (λ s, name +:+ "_" +:+ s) <$> levels v.
Proof.
  split; [apply levels_sorted|]. split; [apply sorted_NoDup, levels_sorted|].
  split; [apply elem_of_levels|].
  unfold encode, dummies. cbn [fst snd]. rewrite <- list_fmap_compose.
  by apply list_fmap_ext.
Qed.

(** X2.  The encoding is one-hot.  Among the indicator columns of a
    categorical column, the ones holding 1 in a row are: the single column
    named after the row's value, when the row has a value; none, when the
    value is missing (or there is no such row).  Every indicator column has
    one value per row, 0 or 1. *)
Theorem encode_one_hot (name : string) (v : list (option string)) (i : nat) :
  filter (λ c, hot i c = true) (encode (name, ObjectS v)) =
    match v !! i with
    | Some (Some s) => [(name +:+ "_" +:+ s, UInt8S (indicator s v))]
    | _ => []
    end
  ∧ Forall (is_indicator (length v)) (encode (name, ObjectS v)).
Proof.
  unfold encode, dummies. cbn [fst snd]. split.
  - rewrite filter_fmap.
    destruct (v !! i) as [[s|]|] eqn:Hi.
    + rewrite (list_filter_iff _ (λ lv, lv = s)).
      * rewrite filter_eq_NoDup; [done | apply sorted_NoDup, levels_sorted |].
        apply elem_of_levels. by eapply list_elem_of_lookup_2.
      * intros lv. unfold hot. cbn [snd].
        rewrite bool_decide_eq_true, indicator_hot, Hi.
        split; [by intros [= ->] | by intros ->].
    + rewrite filter_nil_intro; [done|]. intros lv _. unfold hot. cbn [snd].
      rewrite bool_decide_eq_true, indicator_hot, Hi. done.
    + rewrite filter_nil_intro; [done|]. intros lv _. unfold hot. cbn [snd].
      rewrite bool_decide_eq_true, indicator_hot, Hi. done.
  - apply Forall_fmap, Forall_forall. intros lv _.
    exists (indicator lv v). split; [done|]. unfold indicator.
    split; [by rewrite length_fmap|].
    apply Forall_fmap, Forall_forall. intros o _. cbn. case_decide; auto.
Qed.

End Levels.

(** ** The reformatting, and running the preparation again *)

Section Reformat.
Context `{NumpyRandom} `{Service}.

Lemma not_in_labels (x : string) : x ∉ ["y_no"; "y_yes"] ↔ x ≠ "y_no" ∧ x ≠ "y_yes".
Proof.
  rewrite !not_elem_of_cons. split; [tauto|]. intros [??].
  repeat split; try done. apply not_elem_of_nil.
Qed.

Lemma split_frames_columns d new train valid :
  split_frames d = OK (new, train, valid) →
  index new = index d
  ∧ columns new ≡ₚ filter (λ c, c.1 ≠ "y_no") (columns d)
  ∧ head (column_names new) = Some "y_yes"
  ∧ columns new
    = filter (λ c, c.1 = "y_yes") (columns d)
      ++ filter (λ c, c.1 ∉ ["y_no"; "y_yes"]) (columns d)
  ∧ filter (λ c, c.1 ≠ "y_yes") (columns new)
    = filter (λ c, c.1 ∉ ["y_no"; "y_yes"]) (columns d).
Proof.
  intros (-> & Hy & _ & _ & _)%split_frames_inv. cbn [index columns].
  split; [done|]. split; [|split; [|split; [done|]]].
  - rewrite <- (filter_app_complement (λ c : string * Series, c.1 = "y_yes")
                 (filter (λ c, c.1 ≠ "y_no") (columns d))).
    rewrite !list_filter_filter. apply Permutation_app.
    + erewrite list_filter_iff; [reflexivity|]. intros c. cbn. split; [|tauto].
      intros ->. done.
    + erewrite list_filter_iff; [reflexivity|]. intros c. cbn.
      rewrite not_in_labels. tauto.
  - unfold column_names. cbn [columns]. rewrite fmap_app.
    apply list_elem_of_fmap in Hy as ([x c] & Hx & Hc). cbn in Hx. subst x.
    destruct (filter (λ c, c.1 = "y_yes") (columns d)) as [|c' cs] eqn:Hf.
    + by destruct (filter_nil_inv _ _ _ Hf Hc).
    + assert (Hin : c' ∈ filter (λ c, c.1 = "y_yes") (columns d))
        by (rewrite Hf; left).
      apply list_elem_of_filter in Hin as [Hc' _]. cbn. by rewrite Hc'.
  - rewrite filter_app, !list_filter_filter.
    rewrite (filter_nil_intro (λ c : string * Series, c.1 ≠ "y_yes" ∧ c.1 = "y_yes"));
      [|tauto].
    cbn [app]. apply list_filter_iff. intros c. rewrite not_in_labels. tauto.
Qed.

Lemma encoded_split_reformatted src md tr va s s' data :
  md ≠ tr → md ≠ va → tr ≠ va →
  ns s !! src = Some (OFrame data) →
  bind (encode_cell src md) (λ _, reformat_split_save md tr va) s = (OK (), s') →
  reformatted (get_dummies data) md s'.
Proof.
  intros Hn1 Hn2 Hn3 Hd
    (data' & new & train & valid & Hd' & Hsplit & Hmd & _)%encoded_split_inv; try done.
  rewrite Hd in Hd'. injection Hd' as <-.
  exists new. split; [done|]. by apply split_frames_columns in Hsplit.
Qed.

(** X3.  The reformatting of the encoded frame loses the [y_no] column and
    nothing else: the frame it leaves has the rows of the encoded frame and
    its columns other than [y_no], each once; its first column is [y_yes],
    and behind [y_yes] come the other columns in the order they had.  This
    holds in both rounds. *)
Theorem reformatting_loses_only_y_no (s s' : State) (data : DataFrame) :
  (ns s !! "data" = Some (OFrame data) →
   run [cell_8; cell_10] s = (OK (), s') →
   reformatted (get_dummies data) "model_data" s')
  ∧ (ns s !! "clean_data" = Some (OFrame data) →
     cell_30 s = (OK (), s') →
     reformatted (get_dummies data) "clean_model_data" s').
Proof.
  split; intros Hd Hrun.
  - apply run_two_inv in Hrun as (s1 & H8 & H10).
    apply (encoded_split_reformatted "data" "model_data" "train_data"
             "validation_data" s); try done.
    unfold cell_8, cell_10 in *. by rewrite (bind_OK _ _ _ _ _ H8).
  - by apply (encoded_split_reformatted "clean_data" "clean_model_data"
                "clean_train_data" "clean_validation_data" s).
Qed.

(** X4.  The split cell of the first round runs once.  Having gone through,
    it has replaced [model_data] by the reformatted frame, which has no
    [y_no] column any more: run again without the encoding cell before it, it
    stops at [model_data.drop(['y_no', 'y_yes'], axis=1)] with a [KeyError]
    for [y_no], and changes nothing. *)
Theorem cell_10_runs_once (s s' : State) :
  cell_10 s = (OK (), s') → cell_10 s' = (Raise (KeyError "y_no"), s').
Proof.
  unfold cell_10.
  intros (d & new & train & valid & Hmd & Hsplit & ->)%reformat_split_save_inv;
    try done.
  destruct (saved_lookups "model_data" "train_data" "validation_data"
              d new train valid s) as (Hnew & _); try done.
  cbn zeta in Hnew.
  set (s' := saved "model_data" "train_data" "validation_data" d new train valid s)
    in *.
  apply split_frames_inv in Hsplit as (Hn & Hyes & Hno & _ & _).
  assert (Hy : "y_yes" ∈ column_names new).
  { rewrite Hn. unfold column_names. cbn [columns]. rewrite fmap_app.
    apply elem_of_app. left.
    apply list_elem_of_fmap in Hyes as (c & Hc1 & Hc).
    apply list_elem_of_fmap. exists c. split; [done|].
    by apply list_elem_of_filter. }
  assert (Hn' : "y_no" ∉ column_names new).
  { rewrite Hn. unfold column_names. cbn [columns]. rewrite fmap_app.
    intros [Hin | Hin]%elem_of_app;
      apply list_elem_of_fmap in Hin as (c & Hx & Hc);
      apply list_elem_of_filter in Hc as [Hc _].
    - congruence.
    - apply Hc. rewrite <- Hx. apply list_elem_of_here. }
  clear Hn. clearbody s'.
  cbv [reformat_split_save call_sample frame_var call_drop bind getvar setvar lift
       ret write_file].
  rewrite Hnew. exec. rewrite (getitem_OK _ _ Hy). exec.
  unfold drop_columns. rewrite filter_cons_True by done. done.
Qed.

Lemma saved_again md tr va d new train valid s :
  md ≠ tr → md ≠ va → tr ≠ va →
  let s' := saved md tr va d new train valid s in
  saved md tr va d new train valid
    (mkState (<[md := OFrame d]> (ns s')) (files s') (np_random s') (stdout s')
             (clock s') (requests s')) = s'.
Proof.
  intros Hn1 Hn2 Hn3. unfold saved. cbn [ns files np_random stdout clock requests].
  f_equal; apply map_eq; intros k; rewrite !lookup_insert;
    repeat case_decide; congruence.
Qed.

Lemma encoded_split_again src md tr va s s' :
  md ≠ tr → md ≠ va → tr ≠ va → src ≠ md → src ≠ tr → src ≠ va →
  bind (encode_cell src md) (λ _, reformat_split_save md tr va) s = (OK (), s') →
  bind (encode_cell src md) (λ _, reformat_split_save md tr va) s' = (OK (), s').
Proof.
  intros Hn1 Hn2 Hn3 Hn4 Hn5 Hn6.
  intros ([] & s1 & (data & Hd & ->)%encode_cell_inv & Hrun)%bind_inv.
  apply reformat_split_save_inv in Hrun
    as (d & new & train & valid & Hmd & Hsplit & ->); try done.
  cbn [ns] in Hmd. rewrite lookup_insert_eq in Hmd. injection Hmd as <-.
  match goal with |- _ ?s' = _ => set (s2 := s') end.
  assert (Hsrc : ns s2 !! src = Some (OFrame data)).
  { unfold s2, saved. cbn [ns]. by rewrite !lookup_insert_ne by congruence. }
  rewrite (bind_OK _ _ _ _ _
             (encode_cell_OK src md s2 data Hsrc (split_frames_has_column _ _ Hsplit))).
  match goal with |- _ ?s' = _ =>
    pose proof (reformat_split_save_outcome md tr va s' Hn1 Hn2 Hn3) as Ho2 end.
  cbn [ns] in Ho2. rewrite lookup_insert_eq, Hsplit in Ho2. rewrite Ho2.
  f_equal. by apply saved_again.
Qed.

(** X5.  The preparation can be repeated.  Once the encoding cell and the
    split cell of the first round have gone through, running the two again
    goes through and leaves the kernel exactly as it was: the same frames,
    the same files, numpy's generator untouched.  So does the preparation
    cell of the second round, which does the encoding itself. *)
Theorem preparation_can_be_repeated (s s' : State) :
  (run [cell_8; cell_10] s = (OK (), s') → run [cell_8; cell_10] s' = (OK (), s'))
  ∧ (cell_30 s = (OK (), s') → cell_30 s' = (OK (), s')).
Proof.
  split.
  - intros (s1 & H8 & H10)%run_two_inv.
    assert (Hb : bind cell_8 (λ _, cell_10) s = (OK (), s'))
      by (by rewrite (bind_OK _ _ _ _ _ H8)).
    apply (encoded_split_again "data" "model_data" "train_data" "validation_data")
      in Hb; try done.
    apply bind_inv in Hb as ([] & s2 & H8' & H10').
    by rewrite (run_cons_OK _ _ _ _ H8'), (run_cons_OK _ _ _ _ H10').
  - by apply (encoded_split_again "clean_data" "clean_model_data"
                "clean_train_data" "clean_validation_data").
Qed.

(** *** The order of the held-out rows *)

Lemma drop_rows_sublist labels df valid :
  wf df → drop_rows labels df = OK valid →
  index valid `sublist_of` index df ∧ rows valid `sublist_of` rows df.
Proof.
  intros Hwf Hv. split.
  - apply drop_rows_inv in Hv as [_ ->]. cbn [index]. apply compress_sublist.
  - apply drop_rows_as_take in Hv; [|done].
    rewrite (take_rows _ _ _ Hwf Hv), rows_seq.
    apply fmap_sublist. unfold kept.
    replace (nrows df) with (length (row_mask labels df))
      by (unfold row_mask; by rewrite length_fmap).
    apply compress_sublist.
Qed.

Lemma encoded_split_order src md tr va s s' data :
  md ≠ tr → md ≠ va → tr ≠ va →
  wf data →
  ns s !! src = Some (OFrame data) →
  bind (encode_cell src md) (λ _, reformat_split_save md tr va) s = (OK (), s') →
  held_out_in_order md va s'.
Proof.
  intros Hn1 Hn2 Hn3 Hwf Hd.
  intros ([] & s1 & (data' & Hd' & ->)%encode_cell_inv & Hrun)%bind_inv.
  rewrite Hd in Hd'. injection Hd' as <-.
  apply reformat_split_save_inv in Hrun
    as (d & new & train & valid & Hmd & Hsplit & ->); try done.
  cbn [ns] in Hmd. rewrite lookup_insert_eq in Hmd. injection Hmd as <-.
  destruct (saved_lookups md tr va (get_dummies data) new train valid
              (mkState (<[md := OFrame (get_dummies data)]> (ns s)) (files s)
                 (np_random s) (stdout s) (clock s) (requests s)) Hn1 Hn2 Hn3)
    as (Hn & _ & Hv & _ & Hf & _).
  exists new, valid. split; [done|]. split; [done|].
  apply split_frames_inv in Hsplit as (Hnew & _ & _ & _ & Hdrop).
  assert (Hwf' : wf new).
  { rewrite Hnew. apply wf_reformatted. by apply wf_get_dummies. }
  destruct (drop_rows_sublist _ _ _ Hwf' Hdrop) as [Hi Hr].
  split; [done|]. split; [done|]. split; [done|].
  unfold to_csv. cbn [app]. by apply fmap_sublist.
Qed.

(** X6.  The validation frame lists the held-out rows in the order they have
    in the frame that was split ([drop] keeps the order of what it leaves),
    and so does [validation.csv]: its lines are lines the whole frame would
    give, in the same order.  This holds in both rounds. *)
Theorem held_out_rows_keep_their_order (s s' : State) (data : DataFrame) :
  wf data →
  (ns s !! "data" = Some (OFrame data) →
   run [cell_8; cell_10] s = (OK (), s') →
   held_out_in_order "model_data" "validation_data" s')
  ∧ (ns s !! "clean_data" = Some (OFrame data) →
     cell_30 s = (OK (), s') →
     held_out_in_order "clean_model_data" "clean_validation_data" s').
Proof.
  intros Hwf. split; intros Hd Hrun.
  - apply run_two_inv in Hrun as (s1 & H8 & H10).
    apply (encoded_split_order "data" "model_data" "train_data"
             "validation_data" s s' data); try done.
    unfold cell_8, cell_10 in *. by rewrite (bind_OK _ _ _ _ _ H8).
  - by apply (encoded_split_order "clean_data" "clean_model_data"
                "clean_train_data" "clean_validation_data" s s' data).
Qed.

End Reformat.

(** ** How the split cell fails, and how many rows each file gets *)

Section Failures.
Context `{NumpyRandom} `{Service}.
Hypothesis permutation_spec : ∀ g n, (permutation g n).1 ≡ₚ seq 0 n.

Lemma split_frames_Raise d e :
  (0 < Z.of_nat (nrows d) ≤ max_rows)%Z →
  split_frames d = Raise e →
  (e = KeyError "y_yes" ∧ ("y_yes" ∉ column_names d))
  ∨ (e = KeyError "y_no" ∧ ("y_yes" ∈ column_names d) ∧ ("y_no" ∉ column_names d)).
Proof.
  intros [_ Hn] Hsplit.
  destruct (decide ("y_yes" ∈ column_names d)) as [Hyes|Hyes].
  - destruct (decide ("y_no" ∈ column_names d)) as [Hno|Hno].
    + destruct (split_frames_OK permutation_spec d Hyes Hno Hn)
        as (new & train & valid & Hok).
      rewrite Hok in Hsplit. discriminate.
    + right. split; [|done]. unfold split_frames in Hsplit.
      rewrite (getitem_OK _ _ Hyes) in Hsplit. cbn [rbind] in Hsplit.
      unfold drop_columns in Hsplit.
      rewrite filter_cons_True in Hsplit by done.
      cbn [rbind] in Hsplit. congruence.
  - left. split; [|done]. unfold split_frames in Hsplit.
    rewrite (getitem_Raise _ _ Hyes) in Hsplit. cbn [rbind] in Hsplit. congruence.
Qed.

(** X7.  On a frame with rows (up to [max_rows] of them) the preparation
    fails for lack of columns only.  The split cell of the first round fails
    with [KeyError] for [y_yes] when the frame it reformats has no [y_yes]
    column, and with [KeyError] for [y_no] when it has [y_yes] but no [y_no].
    The preparation cell of the second round fails in the encoding, with
    [ValueError], when [clean_data] has no column at all, and otherwise as
    the split cell does, on the encoded frame.  The sampling, the row
    selection and the concatenation never fail there. *)
Theorem preparation_fails_only_for_missing_columns
    (s : State) (d : DataFrame) (e : exn) :
  (0 < Z.of_nat (nrows d) ≤ max_rows)%Z →
  (ns s !! "model_data" = Some (OFrame d) →
   (cell_10 s).1 = Raise e →
   (e = KeyError "y_yes" ∧ ("y_yes" ∉ column_names d))
   ∨ (e = KeyError "y_no" ∧ ("y_yes" ∈ column_names d) ∧ ("y_no" ∉ column_names d)))
  ∧ (ns s !! "clean_data" = Some (OFrame d) →
     (cell_30 s).1 = Raise e →
     (e = ValueError "No objects to concatenate" ∧ columns d = [])
     ∨ (e = KeyError "y_yes" ∧ columns d ≠ []
        ∧ ("y_yes" ∉ column_names (get_dummies d)))
     ∨ (e = KeyError "y_no" ∧ ("y_yes" ∈ column_names (get_dummies d))
        ∧ ("y_no" ∉ column_names (get_dummies d)))).
Proof.
  intros Hn. split; intros Hd Hrun.
  - pose proof (reformat_split_save_outcome "model_data" "train_data"
                  "validation_data" s) as Ho.
    unfold cell_10 in Hrun. rewrite Hd in Ho.
    destruct (split_frames d) as [[[new train] valid]|e'] eqn:Hsplit.
    + rewrite Ho in Hrun by done. discriminate.
    + rewrite Ho in Hrun by done. injection Hrun as ->.
      by apply split_frames_Raise.
  - unfold cell_30 in Hrun.
    pose proof (encode_cell_outcome "clean_data" "clean_model_data" s) as Ho1.
    rewrite Hd in Ho1.
    destruct (columns d) as [|c cs] eqn:Hcols.
    { rewrite (bind_Raise _ _ _ _ _ Ho1) in Hrun. injection Hrun as <-. by left. }
    right. rewrite (bind_OK _ _ _ _ _ Ho1) in Hrun.
    match type of Hrun with (_ ?s1).1 = _ =>
      pose proof (reformat_split_save_outcome "clean_model_data" "clean_train_data"
                    "clean_validation_data" s1) as Ho end.
    cbn [ns] in Ho. rewrite lookup_insert_eq in Ho.
    destruct (split_frames (get_dummies d)) as [[[new train] valid]|e'] eqn:Hsplit.
    + rewrite Ho in Hrun by done. discriminate.
    + rewrite Ho in Hrun by done. injection Hrun as ->.
      destruct (split_frames_Raise (get_dummies d) e Hn Hsplit) as [[-> Hy] | Hno].
      * by left.
      * by right.
Qed.

Lemma encoded_split_sizes src md tr va s s' data :
  md ≠ tr → md ≠ va → tr ≠ va →
  wf data → NoDup (index data) →
  (1 ≤ Z.of_nat (nrows data) ≤ max_rows)%Z →
  ns s !! src = Some (OFrame data) →
  bind (encode_cell src md) (λ _, reformat_split_save md tr va) s = (OK (), s') →
  both_files_filled (nrows data) s'.
Proof.
  intros Hn1 Hn2 Hn3 Hwf Hnd Hn Hd.
  intros ([] & s1 & (data' & Hd' & ->)%encode_cell_inv & Hrun)%bind_inv.
  rewrite Hd in Hd'. injection Hd' as <-.
  apply reformat_split_save_inv in Hrun
    as (d & new & train & valid & Hmd & Hsplit & ->); try done.
  cbn [ns] in Hmd. rewrite lookup_insert_eq in Hmd. injection Hmd as <-.
  destruct (saved_lookups md tr va (get_dummies data) new train valid
              (mkState (<[md := OFrame (get_dummies data)]> (ns s)) (files s)
                 (np_random s) (stdout s) (clock s) (requests s)) Hn1 Hn2 Hn3)
    as (_ & _ & _ & Hft & Hfv & _).
  exists (to_csv false false train), (to_csv false false valid).
  split; [done|]. split; [done|].
  destruct (split_frames_partition permutation_spec _ _ _ _
              (wf_get_dummies _ Hwf) Hnd Hsplit) as [(_ & Hidx & _) Hsize].
  apply split_frames_inv in Hsplit as (Hnew & _).
  assert (Hrows : nrows new = nrows data) by (by rewrite Hnew).
  apply Permutation_length in Hidx. rewrite length_app in Hidx.
  fold (nrows train) (nrows valid) (nrows new) in Hidx.
  unfold seventy_percent in Hsize. rewrite Hrows in Hsize, Hidx.
  destruct (sample_size_bounded (Z.of_nat (nrows data))) as (k & Hk & _ & Hb);
    [lia|].
  rewrite Hk in Hsize. injection Hsize as ->.
  unfold to_csv. cbn [app]. rewrite !length_fmap, !length_rows. lia.
Qed.

(** X8.  Both files get rows.  For a frame of [n] rows with distinct labels,
    [n] from 1 to [max_rows], the lines of [train.csv] and of
    [validation.csv] add up to [n]; the training file is never empty; the
    validation file is empty exactly when the frame has a single row.  This
    holds in both rounds. *)
Theorem both_files_get_rows (s s' : State) (data : DataFrame) :
  wf data → NoDup (index data) →
  (1 ≤ Z.of_nat (nrows data) ≤ max_rows)%Z →
  (ns s !! "data" = Some (OFrame data) →
   run [cell_8; cell_10] s = (OK (), s') →
   both_files_filled (nrows data) s')
  ∧ (ns s !! "clean_data" = Some (OFrame data) →
     cell_30 s = (OK (), s') →
     both_files_filled (nrows data) s').
Proof.
  intros Hwf Hnd Hn. split; intros Hd Hrun.
  - apply run_two_inv in Hrun as (s1 & H8 & H10).
    apply (encoded_split_sizes "data" "model_data" "train_data"
             "validation_data" s s' data); try done.
    unfold cell_8, cell_10 in *. by rewrite (bind_OK _ _ _ _ _ H8).
  - by apply (encoded_split_sizes "clean_data" "clean_model_data"
                "clean_train_data" "clean_validation_data" s s' data).
Qed.

End Failures.

(** ** The two rounds side by side *)

Section TwoRounds.
Context `{NumpyRandom} `{Service}.

Lemma has_underscore_app a b : has_underscore (a +:+ "_" +:+ b) = true.
Proof.
  induction a as [|c a IH]; [done|].
  change (String c a +:+ "_" +:+ b) with (String c (a +:+ "_" +:+ b)).
  cbn [has_underscore]. rewrite IH. apply orb_true_r.
Qed.

Lemma dummy_not_forecast name lv : name +:+ "_" +:+ lv ∉ forecast_columns.
Proof.
  intros Hin. pose proof (has_underscore_app name lv) as Hu.
  unfold forecast_columns in Hin.
  repeat (apply elem_of_cons in Hin as [Heq|Hin];
          [rewrite Heq in Hu; vm_compute in Hu; discriminate|]).
  by apply not_elem_of_nil in Hin.
Qed.

Lemma encode_not_forecast c :
  filter (λ c : string * Series, c.1 ∉ forecast_columns) (encode c) = encode c.
Proof.
  unfold encode. destruct (c.2); try done.
  unfold dummies. rewrite filter_fmap. f_equal.
  induction (levels v) as [|lv l IH]; [done|].
  rewrite filter_cons_True; [by rewrite IH|]. cbn. apply dummy_not_forecast.
Qed.

Lemma select_without (f : ∀ A : Type, list A → list A) (labels : list string)
    (cs : list (string * Series)) :
  prod_map id (select f) <$> filter (λ c, c.1 ∉ labels) cs
  = filter (λ c, c.1 ∉ labels) (prod_map id (select f) <$> cs).
Proof. rewrite filter_fmap. f_equal. Qed.

Lemma get_dummies_without data :
  (∀ c, c ∈ columns data → c.1 ∈ forecast_columns → is_object c.2 = false) →
  get_dummies (without forecast_columns data)
  = without forecast_columns (get_dummies data).
Proof.
  intros Hnum. unfold get_dummies, without. cbn [index columns]. f_equal.
  rewrite filter_app. f_equal.
  - rewrite !list_filter_filter. apply list_filter_iff.
    intros c. split; intros [??]; split; assumption.
  - induction (columns data) as [|c cs IH]; [done|].
    rewrite bind_cons, filter_app, encode_not_forecast, filter_cons.
    rewrite <- IH by (intros; apply Hnum; [by right | done]).
    destruct (decide (c.1 ∉ forecast_columns)) as [Hc|Hc]; [by rewrite bind_cons|].
    assert (Ho : is_object c.2 = false).
    { apply Hnum; [left|]. by destruct (decide (c.1 ∈ forecast_columns)). }
    replace (encode c) with (@nil (string * Series)); [done|].
    unfold encode. by destruct (c.2).
Qed.

Lemma take_without (labels : list string) locs df :
  take locs (without labels df)
  = rbind (take locs df) (λ t, OK (without labels t)).
Proof.
  unfold take, without, nrows. cbn [index columns].
  destruct (forallb _ locs); [|done]. cbn [rbind index columns].
  by rewrite (select_without (λ A, take_list locs)).
Qed.

Lemma seeded_sample_without (labels : list string) frac seed df :
  seeded_sample frac seed (without labels df)
  = rbind (seeded_sample frac seed df) (λ t, OK (without labels t)).
Proof.
  unfold seeded_sample, sample.
  change (nrows (without labels df)) with (nrows df).
  destruct (sample_size _ _) as [k|]; [|done].
  destruct (k <? 0)%Z; [done|].
  destruct (_ <? k)%Z; [done|].
  destruct (permutation _ _) as [p g]. cbn [fst]. apply take_without.
Qed.

Lemma drop_rows_without (labels : list string) rows df :
  drop_rows rows (without labels df)
  = rbind (drop_rows rows df) (λ t, OK (without labels t)).
Proof.
  unfold drop_rows, row_mask, without. cbn [index columns].
  destruct (filter _ rows); [|done]. cbn [rbind index columns].
  by rewrite (select_without (λ A, compress _)).
Qed.

Lemma split_frames_without (labels : list string) d new train valid :
  "y_yes" ∉ labels → "y_no" ∉ labels →
  split_frames d = OK (new, train, valid) →
  split_frames (without labels d)
  = OK (without labels new, without labels train, without labels valid).
Proof.
  intros Hyes Hno Hsplit.
  pose proof (split_frames_inv _ _ _ _ Hsplit) as (Hn & Hy & Hn' & Ht & Hv).
  assert (Hin : ∀ x, x ∉ labels → x ∈ column_names d →
                     x ∈ column_names (without labels d)).
  { intros x Hx (c & -> & Hc)%list_elem_of_fmap.
    apply list_elem_of_fmap. exists c. split; [done|].
    by apply list_elem_of_filter. }
  unfold split_frames.
  rewrite (getitem_OK "y_yes") by auto.
  rewrite drop_columns_OK.
  2:{ intros l Hl. repeat (apply elem_of_cons in Hl as [->|Hl]; [auto|]).
      by apply not_elem_of_nil in Hl. }
  cbn [rbind]. unfold concat_axis1. cbn [index columns].
  rewrite decide_True by done. cbn [rbind].
  assert (Hnew : {| index := index d;
                    columns := filter (λ c, c.1 = "y_yes")
                                 (filter (λ c, c.1 ∉ labels) (columns d))
                               ++ filter (λ c, c.1 ∉ ["y_no"; "y_yes"])
                                    (filter (λ c, c.1 ∉ labels) (columns d)) |}
                 = without labels new).
  { rewrite Hn. unfold without. cbn [index columns]. f_equal.
    rewrite filter_app, !list_filter_filter.
    f_equal; apply list_filter_iff; intros c; split; intros [??]; split; assumption. }
  change (index (without labels d)) with (index d).
  change (columns (without labels d))
    with (filter (λ c : string * Series, c.1 ∉ labels) (columns d)).
  rewrite Hnew, seeded_sample_without, Ht. cbn [rbind].
  change (index (without labels train)) with (index train).
  by rewrite drop_rows_without, Hv.
Qed.

(** The four preparation cells, read backwards. *)
Lemma two_rounds_inv s s' :
  run [cell_8; cell_10; cell_28; cell_30] s = (OK (), s') →
  ∃ data clean new train valid cnew ctrain cvalid,
    ns s !! "data" = Some (OFrame data)
    ∧ split_frames (get_dummies data) = OK (new, train, valid)
    ∧ drop_columns forecast_columns data = OK clean
    ∧ split_frames (get_dummies clean) = OK (cnew, ctrain, cvalid)
    ∧ ns s' !! "train_data" = Some (OFrame train)
    ∧ ns s' !! "validation_data" = Some (OFrame valid)
    ∧ ns s' !! "clean_train_data" = Some (OFrame ctrain)
    ∧ ns s' !! "clean_validation_data" = Some (OFrame cvalid)
    ∧ files s' !! "train.csv" = Some (to_csv false false ctrain)
    ∧ files s' !! "validation.csv" = Some (to_csv false false cvalid).
Proof.
  intros Hrun. repeat inv_step.
  apply encode_cell_inv in Hc as (data & Hd & ->).
  apply reformat_split_save_inv in Hc0
    as (d & new & train & valid & Hmd & Hsplit & ->); try done.
  lookups. injection Hmd as <-.
  pose proof (cell_28_outcome (saved "model_data" "train_data" "validation_data"
                 (get_dummies data) new train valid
                 (mkState (<["model_data" := OFrame (get_dummies data)]> (ns s))
                    (files s) (np_random s) (stdout s) (clock s) (requests s))))
    as Ho.
  unfold saved in Ho, Hc1. lookups. rewrite Hd in Ho.
  destruct (drop_columns forecast_columns data) as [clean|e] eqn:Hclean;
    [|rewrite Hc1 in Ho; discriminate].
  rewrite Hc1 in Ho. injection Ho as ->.
  unfold cell_30 in Hc2.
  apply bind_inv in Hc2 as ([] & s1 & (data' & Hd' & ->)%encode_cell_inv & Hrun).
  lookups. injection Hd' as <-.
  apply reformat_split_save_inv in Hrun
    as (d & cnew & ctrain & cvalid & Hmd & Hcsplit & ->); try done.
  lookups. injection Hmd as <-.
  exists data, clean, new, train, valid, cnew, ctrain, cvalid.
  unfold saved. lookups. done.
Qed.

Lemma split_frames_index d1 d2 n1 t1 v1 n2 t2 v2 :
  index d1 = index d2 →
  split_frames d1 = OK (n1, t1, v1) →
  split_frames d2 = OK (n2, t2, v2) →
  index t1 = index t2 ∧ index v1 = index v2.
Proof.
  intros Hidx (Hn1 & _ & _ & Ht1 & Hv1)%split_frames_inv
              (Hn2 & _ & _ & Ht2 & Hv2)%split_frames_inv.
  assert (Hi : index n1 = index n2) by (by rewrite Hn1, Hn2).
  assert (Hr : nrows n1 = nrows n2) by (unfold nrows; by rewrite Hi).
  apply seeded_sample_inv in Ht1 as (k1 & Hk1 & _ & Ht1).
  apply seeded_sample_inv in Ht2 as (k2 & Hk2 & _ & Ht2).
  rewrite Hr, Hk2 in Hk1. injection Hk1 as <-. rewrite Hr in Ht1.
  apply take_inv in Ht1 as [_ ->]. apply take_inv in Ht2 as [_ ->].
  apply drop_rows_inv in Hv1 as [_ ->]. apply drop_rows_inv in Hv2 as [_ ->].
  cbn [index] in *. unfold row_mask. cbn [index]. by rewrite Hi.
Qed.

(** X9.  The two rounds split alike.  When the four preparation cells have
    run, the second round trains on the rows the first round trained on, and
    holds out the rows the first held out: the training frames carry the same
    row labels in the same order, and so do the validation frames, whatever
    the columns are.  With its fixed seed, [sample] picks rows by position,
    and the cleaning keeps the rows. *)
Theorem both_rounds_hold_out_the_same_rows (s s' : State) :
  run [cell_8; cell_10; cell_28; cell_30] s = (OK (), s') → same_rows s'.
Proof.
  intros (data & clean & new & train & valid & cnew & ctrain & cvalid & Hd & Hs
          & Hclean & Hcs & Ht & Hv & Hct & Hcv & _)%two_rounds_inv.
  exists train, valid, ctrain, cvalid. do 4 (split; [done|]).
  apply drop_columns_inv in Hclean as [-> _].
  refine (split_frames_index _ (get_dummies data) _ _ _ _ _ _ _ Hcs Hs).
  reflexivity.
Qed.

Lemma forecast_not_label :
  ("y_yes" ∉ forecast_columns) ∧ ("y_no" ∉ forecast_columns).
Proof.
  split; intros Hin; apply list_elem_of_In in Hin; vm_compute in Hin;
    repeat (destruct Hin as [Heq|Hin]; [discriminate Heq|]); done.
Qed.

(** X10.  When the six forecast columns of [data] are numeric (as they are
    in the data set: none of them is encoded), the second round's frames are
    the first round's without those six columns: dropping them from
    [train_data] gives [clean_train_data], dropping them from
    [validation_data] gives [clean_validation_data], values, rows and order
    included; and the two files, written over by the second round, hold
    these. *)
Theorem second_round_is_first_without_forecast_columns
    (s s' : State) (data : DataFrame) :
  ns s !! "data" = Some (OFrame data) →
  (∀ c, c ∈ columns data → c.1 ∈ forecast_columns → is_object c.2 = false) →
  run [cell_8; cell_10; cell_28; cell_30] s = (OK (), s') →
  ∃ train valid clean_train clean_valid,
    ns s' !! "train_data" = Some (OFrame train)
    ∧ ns s' !! "validation_data" = Some (OFrame valid)
    ∧ ns s' !! "clean_train_data" = Some (OFrame clean_train)
    ∧ ns s' !! "clean_validation_data" = Some (OFrame clean_valid)
    ∧ drop_columns forecast_columns train = OK clean_train
    ∧ drop_columns forecast_columns valid = OK clean_valid
    ∧ files s' !! "train.csv" = Some (to_csv false false clean_train)
    ∧ files s' !! "validation.csv" = Some (to_csv false false clean_valid).
Proof.
  intros Hdata Hnum
    (data' & clean & new & train & valid & cnew & ctrain & cvalid & Hd & Hs
     & Hclean & Hcs & Ht & Hv & Hct & Hcv & Hft & Hfv)%two_rounds_inv.
  rewrite Hdata in Hd. injection Hd as <-.
  apply drop_columns_inv in Hclean as [-> Hall].
  fold (without forecast_columns data) in Hcs.
  destruct forecast_not_label as [Hyes Hno].
  rewrite (get_dummies_without _ Hnum),
    (split_frames_without _ _ _ _ _ Hyes Hno Hs) in Hcs.
  injection Hcs as <- <- <-.
  exists train, valid, (without forecast_columns train),
    (without forecast_columns valid).
  do 4 (split; [done|]).
  assert (Hnames : ∀ l, l ∈ forecast_columns → l ∈ column_names new).
  { intros l Hl. apply split_frames_inv in Hs as (-> & _).
    apply Hall in Hl as Hin. apply list_elem_of_fmap in Hin as (c & -> & Hc).
    unfold column_names. cbn [columns]. rewrite fmap_app. apply elem_of_app. right.
    apply list_elem_of_fmap. exists c. split; [done|].
    apply list_elem_of_filter. split.
    - intros Hin. repeat (apply elem_of_cons in Hin as [Heq|Hin];
                          [rewrite Heq in Hl; by destruct forecast_not_label|]).
      by apply not_elem_of_nil in Hin.
    - unfold get_dummies. cbn [columns]. apply elem_of_app. left.
      apply list_elem_of_filter. split; [|done]. by apply Hnum. }
  apply split_frames_inv in Hs as (_ & _ & _ & Htr & Hva).
  apply seeded_sample_inv in Htr as (k & _ & _ & Htr).
  apply take_shape in Htr as [Htn _]. apply drop_rows_shape in Hva as [Hvn _].
  split; [|split]; [| |done].
  - apply drop_columns_OK. intros l Hl. rewrite Htn. by apply Hnames.
  - apply drop_columns_OK. intros l Hl. rewrite Hvn. by apply Hnames.
Qed.

End TwoRounds.

(** ** The locations, the inputs and the trainer *)

Section SetupCells.
Context `{NumpyRandom} `{Service} `{Account} `{Analytics} `{NumpySort}.

Lemma cell_1_inv s s' :
  cell_1 s = (OK (), s') →
  ∃ role bucket,
    get_execution_role = OK role
    ∧ default_bucket = OK bucket
    ∧ s' = mkState
             (<["prefix" := OStr "DEMO-marketing-warmstart"]>
             (<["bucket" := OStr bucket]>
             (<["sess" := OClient]>
             (<["role" := OStr role]>
             (imported ["sagemaker"; "boto3"] (ns s))))))
             (files s) (np_random s)
             (stdout s ++ ["Role name: " +:+ role; "Bucket name: " +:+ bucket])
             (clock s) (requests s).
Proof.
  unfold cell_1. intros Hrun. repeat first
    [ match goal with
      | H : module _ _ _ = (OK _, _) |- _ => apply module_inv in H as [H ->]
      end
    | inv_step ]. lookups.
  rewrite <- app_assoc. eauto.
Qed.

Lemma s3_location_inv leaf s v s1 :
  s3_location leaf s = (OK v, s1) →
  ∃ vb vp b p,
    ns s !! "bucket" = Some vb ∧ ns s !! "prefix" = Some vp
    ∧ format_arg vb = OK b ∧ format_arg vp = OK p
    ∧ v = OStr (s3_uri b p leaf) ∧ s1 = s.
Proof.
  unfold s3_location. intros Hrun. repeat inv_step. eauto 10.
Qed.

Lemma locations_inv tr va ltr lva s s' :
  tr ≠ "bucket" → tr ≠ "prefix" →
  locations tr va ltr lva s = (OK (), s') →
  ∃ vb vp b p,
    ns s !! "bucket" = Some vb ∧ ns s !! "prefix" = Some vp
    ∧ format_arg vb = OK b ∧ format_arg vp = OK p
    ∧ s' = mkState (<[va := OStr (s3_uri b p lva)]>
                   (<[tr := OStr (s3_uri b p ltr)]> (ns s)))
                   (files s) (np_random s) (stdout s) (clock s) (requests s).
Proof.
  intros Hn1 Hn2. unfold locations. intros Hrun. repeat inv_step.
  apply s3_location_inv in Hc as (vb & vp & b & p & Hb & Hp & Hfb & Hfp & -> & ->).
  apply s3_location_inv in Hc1 as (vb' & vp' & b' & p' & Hb' & Hp' & Hfb' & Hfp' & -> & ->).
  lookups. simplify_eq. rewrite Hfb in Hfb'. rewrite Hfp in Hfp'. simplify_eq.
  eauto 10.
Qed.

Lemma new_s3_input_inv x s v s1 :
  new_s3_input x s = (OK v, s1) →
  ∃ loc, ns s !! "sagemaker" = Some (OClass "sagemaker")
       ∧ ns s !! x = Some (OStr loc)
       ∧ v = OInput (csv_input loc)
       ∧ s1 = s.
Proof.
  unfold new_s3_input. intros Hrun. repeat first
    [ match goal with
      | H : module _ _ _ = (OK _, _) |- _ => apply module_inv in H as [H ->]
      end
    | inv_step ].
  match goal with
  | H : as_str ?v = OK _ |- _ => destruct v; try discriminate
  end.
  simplify_eq/=. eauto.
Qed.

Lemma inputs_inv out tr va s s' :
  tr ≠ "s3_output_location" → va ≠ "s3_output_location" →
  va ≠ "s3_input_train" →
  inputs out tr va s = (OK (), s') →
  ∃ vb vp b p ltr lva,
    ns s !! "bucket" = Some vb ∧ ns s !! "prefix" = Some vp
    ∧ format_arg vb = OK b ∧ format_arg vp = OK p
    ∧ ns s !! tr = Some (OStr ltr) ∧ ns s !! va = Some (OStr lva)
    ∧ s' = mkState
             (<["s3_input_validation" := OInput (csv_input lva)]>
             (<["s3_input_train" := OInput (csv_input ltr)]>
             (<["s3_output_location" := OStr (s3_uri b p out)]> (ns s))))
             (files s) (np_random s) (stdout s) (clock s) (requests s).
Proof.
  intros Hn1 Hn2 Hn3. unfold inputs. intros Hrun. repeat inv_step.
  apply s3_location_inv in Hc as (vb & vp & b & p & Hb & Hp & Hfb & Hfp & -> & ->).
  apply new_s3_input_inv in Hc1 as (ltr & Hm & Htr & -> & ->).
  apply new_s3_input_inv in Hc3 as (lva & Hm' & Hva & -> & ->).
  lookups. exists vb, vp, b, p, ltr, lva. by do 6 (split; [done|]).
Qed.

Lemma cell_15_inv s s' :
  cell_15 s = (OK (), s') →
  ∃ container role output,
    get_image_uri region_name "xgboost" = OK container
    ∧ ns s !! "role" = Some (OStr role)
    ∧ ns s !! "s3_output_location" = Some (OStr output)
    ∧ s' = mkState
             (<["xgb" := OEstimator (mkEstimator container role 1 "ml.m4.xlarge" output
                                       initial_hyperparameters)]>
             (<["xgb" := OEstimator (mkEstimator container role 1 "ml.m4.xlarge" output [])]>
             (<["container" := OStr container]>
             (<["my_region" := from_option OStr ONone region_name]> (ns s)))))
             (files s) (np_random s) (stdout s) (clock s) (requests s).
Proof.
  unfold cell_15. intros Hrun. repeat first
    [ match goal with
      | H : module _ _ _ = (OK _, _) |- _ => apply module_inv in H as [H ->]
      end
    | inv_step ].
  lookups. simplify_eq.
  match goal with
  | H : as_job_name (from_option OStr ONone region_name) = OK ?r |- _ =>
      assert (r = region_name) as -> by (by destruct region_name; simplify_eq/=);
      clear H
  end.
  repeat match goal with
         | H : as_str ?v = OK _ |- _ => is_var v; destruct v; try discriminate
         end.
  simplify_eq/=. eauto 10.
Qed.

Lemma prefix_app a x y : String.prefix (a +:+ x) (a +:+ y) = String.prefix x y.
Proof.
  induction a as [|c a IH]; [done|].
  change (String c a +:+ x) with (String c (a +:+ x)).
  change (String c a +:+ y) with (String c (a +:+ y)).
  cbn [String.prefix]. by destruct (Ascii.ascii_dec c c).
Qed.

Lemma s3_uri_prefix b p x y :
  String.prefix (s3_uri b p x) (s3_uri b p y) = String.prefix x y.
Proof. unfold s3_uri. by rewrite !prefix_app. Qed.

Lemma input_leaves_prefix_free x y :
  x ∈ input_leaves → y ∈ input_leaves → x ≠ y → String.prefix x y = false.
Proof.
  unfold input_leaves. intros Hx Hy Hne.
  repeat (apply elem_of_cons in Hx as [->|Hx]);
    try (by apply not_elem_of_nil in Hx);
    repeat (apply elem_of_cons in Hy as [->|Hy]);
    try (by apply not_elem_of_nil in Hy);
    done.
Qed.

(** X11.  The four input locations lie under the session's default bucket and
    the prefix ['DEMO-marketing-warmstart'], at [train/], [validation/],
    [train_2/] and [validation_2/], and none of them is a prefix of another:
    an input that selects by prefix ([S3Prefix]) does not reach into another
    location.  After the last input cell [s3_output_location] names
    [output_2]. *)
Theorem input_locations_do_not_overlap (s s' : State) :
  run [cell_1; cell_12_locations; cell_13; cell_31_locations; cell_32] s = (OK (), s') →
  ∃ b, default_bucket = OK b
     ∧ located b "DEMO-marketing-warmstart" s'
     ∧ ns s' !! "s3_output_location"
       = Some (OStr (s3_uri b "DEMO-marketing-warmstart" "output_2"))
     ∧ ∀ x y, x ∈ input_leaves → y ∈ input_leaves → x ≠ y →
         String.prefix (s3_uri b "DEMO-marketing-warmstart" x)
                       (s3_uri b "DEMO-marketing-warmstart" y) = false.
Proof.
  intros Hrun. repeat inv_step.
  apply cell_1_inv in Hc as (role & b & Hrole & Hb & ->). lookups.
  apply locations_inv in Hc0
    as (vb1 & vp1 & b1 & p1 & Hb1 & Hp1 & Hfb1 & Hfp1 & ->);
    [|done..]. lookups. simplify_eq. cbn [format_arg] in *. simplify_eq.
  apply inputs_inv in Hc1
    as (vb2 & vp2 & b2 & p2 & ltr2 & lva2 & Hb2 & Hp2 & Hfb2 & Hfp2 & Htr2 & Hva2 & ->);
    [|done..]. lookups. simplify_eq. cbn [format_arg] in *. simplify_eq.
  apply locations_inv in Hc2
    as (vb3 & vp3 & b3 & p3 & Hb3 & Hp3 & Hfb3 & Hfp3 & ->);
    [|done..]. lookups. simplify_eq. cbn [format_arg] in *. simplify_eq.
  apply inputs_inv in Hc3
    as (vb4 & vp4 & b4 & p4 & ltr4 & lva4 & Hb4 & Hp4 & Hfb4 & Hfp4 & Htr4 & Hva4 & ->);
    [|done..]. lookups. simplify_eq. cbn [format_arg] in *. simplify_eq.
  eexists. split; [exact Hb|]. split; [|split].
  - unfold located. lookups. repeat split; reflexivity.
  - by lookups.
  - intros x y Hx Hy Hne. rewrite s3_uri_prefix.
    by apply input_leaves_prefix_free.
Qed.

(** X12.  The second job reads the cleaned data and writes where the first
    wrote.  The first request carries the inputs at [train/] and
    [validation/]; the input cell of the second round rebinds
    [s3_input_train] and [s3_input_validation], which [fit] reads when it is
    called, so the second request carries the inputs at [train_2/] and
    [validation_2/].  The same cell rebinds [s3_output_location] to
    [output_2], but the trainer [xgb] was built before with the value the
    name had then, and the second tuner is built on that trainer: its output
    path is still [output].  The second job trains with the image the trainer
    cell fetched; so does the first when its tuner is built on [xgb] as the
    tuner cell's comments direct (the first tuner is the reader's to
    write). *)
Theorem second_job_reads_the_clean_data
    (ranges tuner : expr) (s s' : State) (b p : string) :
  ns s !! "bucket" = Some (OStr b) →
  ns s !! "prefix" = Some (OStr p) →
  run [cell_12_locations; cell_13; cell_15; cell_17 (Some ranges) (Some tuner);
       cell_19; cell_23; cell_31_locations; cell_32; cell_34; cell_35; cell_37] s
    = (OK (), s') →
  ∃ first second t,
    requests s' = requests s ++ [first; second]
    ∧ InputDataConfig first
      = [("train", csv_input (s3_uri b p "train/"));
         ("validation", csv_input (s3_uri b p "validation/"))]
    ∧ InputDataConfig second
      = [("train", csv_input (s3_uri b p "train_2/"));
         ("validation", csv_input (s3_uri b p "validation_2/"))]
    ∧ ns s' !! "tuner_warm_start" = Some (OTuner t)
    ∧ TrainingImage second = image_name (estimator t)
    ∧ get_image_uri region_name "xgboost" = OK (image_name (estimator t))
    ∧ output_path (estimator t) = s3_uri b p "output"
    ∧ ns s' !! "s3_output_location" = Some (OStr (s3_uri b p "output_2"))
    ∧ (tuner = tuner_as_directed →
       TrainingImage first = image_name (estimator t)
       ∧ get_image_uri region_name "xgboost" = OK (TrainingImage first)).
Proof.
  intros Hb Hp Hrun. repeat inv_step. unfold cell_19, cell_37 in *.
  apply locations_inv in Hc
    as (vb1 & vp1 & b1 & p1 & Hb1 & Hp1 & Hfb1 & Hfp1 & ->);
    [|done..]. lookups. simplify_eq. cbn [format_arg] in *. simplify_eq.
  apply inputs_inv in Hc0
    as (vb2 & vp2 & b2 & p2 & ltr2 & lva2 & Hb2 & Hp2 & Hfb2 & Hfp2 & Htr2 & Hva2 & ->);
    [|done..]. lookups. simplify_eq. cbn [format_arg] in *. simplify_eq.
  apply cell_15_inv in Hc1 as (container & role & output & Himg & Hrole & Hout & ->).
  lookups. simplify_eq.
  apply cell_17_inv in Hc2 as (r & t0 & Hr & Ht0 & ->). lookups.
  apply fit_inv in Hc3 as (t1 & tr & va & Ht1 & Htr & Hva & Hcreate & ->). lookups.
  apply cell_23_inv in Hc4 as (t2 & df2 & v2 & Ht2 & _ & ->). lookups.
  apply locations_inv in Hc5
    as (vb3 & vp3 & b3 & p3 & Hb3 & Hp3 & Hfb3 & Hfp3 & ->);
    [|done..]. lookups. simplify_eq. cbn [format_arg] in *. simplify_eq.
  apply inputs_inv in Hc6
    as (vb4 & vp4 & b4 & p4 & ltr4 & lva4 & Hb4 & Hp4 & Hfb4 & Hfp4 & Htr4 & Hva4 & ->);
    [|done..]. lookups. simplify_eq. cbn [format_arg] in *. simplify_eq.
  apply cell_34_inv in Hc7 as (v & job & Hv & Hjob & ->). lookups.
  apply cell_35_inv in Hc8
    as (xgb & metric & rs & w & t & Hx & Hm & Hrs & Hw & -> & ->). lookups.
  apply fit_inv in Hc9 as (t3 & tr' & va' & Ht3 & Htr' & Hva' & Hcreate' & ->).
  lookups. simplify_eq.
  eexists _, _, _. split; [by rewrite <- app_assoc|].
  cbn. do 7 (split; [done|]).
  intros ->. apply tuner_as_directed_inv in Ht0
    as (xgb' & metric' & rs' & Hx' & Hm' & Hrs' & [= ->]).
  lookups. by simplify_eq.
Qed.

Lemma keeps_bind {A B} x (c : Cell A) (k : A → Cell B) :
  keeps x c → (∀ a, keeps x (k a)) → keeps x (bind c k).
Proof.
  intros Hc Hk s. unfold bind. specialize (Hc s).
  destruct (c s) as [[a|e] s1]; [|done].
  destruct (Hk a s1) as [-> ->]. done.
Qed.

Lemma keeps_getvar x y : keeps x (getvar y).
Proof. intros s. unfold getvar. by destruct (ns s !! y). Qed.

Lemma keeps_lift {A} x (r : result A) : keeps x (lift r).
Proof. done. Qed.

Lemma keeps_ret {A} x (a : A) : keeps x (ret a).
Proof. done. Qed.

Lemma keeps_tick x : keeps x tick.
Proof. done. Qed.

Lemma keeps_setvar x y v : x ≠ y → keeps x (setvar y v).
Proof. intros Hne s. cbn. by rewrite lookup_insert_ne. Qed.

Lemma keeps_dataframe x y : x ≠ y → keeps x (dataframe y).
Proof.
  intros Hne. unfold dataframe.
  apply keeps_bind; [apply keeps_getvar|]. intros v.
  apply keeps_bind; [apply keeps_lift|]. intros a.
  destruct (_dataframe a); [apply keeps_ret|].
  apply keeps_bind; [apply keeps_tick|]. intros now.
  apply keeps_bind; [apply keeps_lift|]. intros df.
  apply keeps_bind; [by apply keeps_setvar | intros; apply keeps_ret].
Qed.

(** The results cell binds the job's name first: the name is there however
    the cell ends, and the cell sends no request. *)
Lemma results_binds_name x jn mv tv s t :
  jn ≠ mv → jn ≠ tv →
  ns s !! x = Some (OTuner t) →
  ns (results x jn mv tv s).2 !! jn = Some (job_name_obj (_current_job_name t))
  ∧ requests (results x jn mv tv s).2 = requests s.
Proof.
  intros Hn1 Hn2 Ht. unfold results.
  assert (Htv : tuner_var x "_current_job_name" s = (OK t, s)).
  { unfold tuner_var, bind, getvar, lift. by rewrite Ht. }
  rewrite (bind_OK _ _ _ _ _ Htv).
  match goal with |- context [bind (setvar jn ?v) ?k ?s0] =>
    rewrite (bind_OK (setvar jn v) k s0 () _ eq_refl) end.
  match goal with |- context [bind ?c ?k ?s0] =>
    assert (Hk : keeps jn (bind c k)); [|destruct (Hk s0) as [-> ->]] end.
  2:{ cbn [ns requests]. by rewrite lookup_insert_eq. }
  unfold module.
  repeat first
    [ by apply keeps_dataframe
    | apply keeps_bind; [|intros ?]
    | apply keeps_getvar | apply keeps_lift | apply keeps_ret
    | by apply keeps_setvar
    | match goal with |- keeps _ (if ?b then _ else _) => destruct b end ].
Qed.

Lemma cell_34_takes s v job :
  ns s !! "tuning_job_name" = Some v →
  as_job_name v = OK job →
  cell_34 s
  = (OK (),
     mkState
       (<["warm_start_config" :=
            OWarmStartConfig {| type := TRANSFER_LEARNING; parents := {[ job ]} |}]>
          (<["parent_tuning_job_name" := v]>
             (imported ["WarmStartConfig"; "WarmStartTypes"] (ns s))))
       (files s) (np_random s) (stdout s) (clock s) (requests s)).
Proof.
  intros Hv Hjob.
  cbv [cell_34 import bind getvar setvar lift ret]. exec. cbn [imported foldr]. exec.
  unfold WarmStartConfig_init. rewrite decide_False by apply non_empty_singleton_L.
  done.
Qed.

(** X13.  [fit] takes the job's name before it sends the request.  When the
    service refuses the request of the first job, the cell ends with the
    service's exception, the request has gone out, and the tuner carries the
    name all the same.  The results cell then binds [tuning_job_name] to that
    name, the name of a job that was not created, before it asks the service
    for the job's training jobs: the name is bound however that cell ends,
    and when the service refuses the listing the cell ends with the service's
    exception. *)
Theorem refused_job_keeps_its_name
    (s : State) (t : HyperparameterTuner) (tr va : s3_input) (e : exn) :
  ns s !! "tuner" = Some (OTuner t) →
  ns s !! "s3_input_train" = Some (OInput tr) →
  ns s !! "s3_input_validation" = Some (OInput va) →
  let job := name_from_base (base_name t) (clock s) in
  let req := tune_request t job [("train", tr); ("validation", va)] in
  create_hyper_parameter_tuning_job (S (clock s)) req = Some e →
  ∃ s1,
    cell_19 s = (Raise e, s1)
    ∧ requests s1 = requests s ++ [req]
    ∧ ns s1 !! "tuner" = Some (OTuner (started t job))
    ∧ ns (cell_23 s1).2 !! "tuning_job_name" = Some (OStr job)
    ∧ requests (cell_23 s1).2 = requests s1
    ∧ ∀ e', ns s !! "sagemaker" = Some (OClass "sagemaker") →
            new_session = None →
            fetch_dataframe (clock s1) (Some job) = Raise e' →
            (cell_23 s1).1 = Raise e'.
Proof.
  intros Ht Htr Hva job req Hcreate. unfold cell_19.
  rewrite (fit_sends "tuner" s t tr va Ht Htr Hva). fold job. fold req.
  rewrite Hcreate. eexists. split; [reflexivity|].
  split; [reflexivity|]. split; [by lookups|].
  match goal with |- context [cell_23 ?s0] => set (s1 := s0) end.
  assert (Ht1 : ns s1 !! "tuner" = Some (OTuner (started t job)))
    by (unfold s1; by lookups).
  destruct (results_binds_name "tuner" "tuning_job_name" "tuner_parent_metrics"
              "df_parent" s1 _ ltac:(done) ltac:(done) Ht1) as [Hname Hreq].
  split; [exact Hname|]. split; [exact Hreq|].
  intros e' Hm Hsess Hfetch.
  apply (results_listing "tuner" "tuning_job_name" "tuner_parent_metrics" "df_parent"
           s1 ltac:(done) _ e' Ht1).
  - unfold s1. by lookups.
  - by rewrite Hsess.
Qed.

(** X14.  The warm-start cell takes any parent.  The results cell binds
    [tuning_job_name] to whatever name the tuner carries before it does
    anything else: the name of a job the service refused, or [None] when the
    tuner was never fitted.  However that cell ends, the cell that builds the
    warm-start configuration then goes through, without asking the service,
    with that name as the one parent: [WarmStartConfig] checks that there is
    a parent, not what it is. *)
Theorem warm_start_takes_any_parent (s : State) (t : HyperparameterTuner) :
  ns s !! "tuner" = Some (OTuner t) →
  let s1 := (cell_23 s).2 in
  ns s1 !! "tuning_job_name" = Some (job_name_obj (_current_job_name t))
  ∧ ∃ s',
      cell_34 s1 = (OK (), s')
      ∧ ns s' !! "warm_start_config"
        = Some (OWarmStartConfig {| type := TRANSFER_LEARNING;
                                    parents := {[ _current_job_name t ]} |})
      ∧ requests s' = requests s
      ∧ clock s' = clock s1.
Proof.
  intros Ht s1.
  destruct (results_binds_name "tuner" "tuning_job_name" "tuner_parent_metrics"
              "df_parent" s _ ltac:(done) ltac:(done) Ht) as [Hname Hreq].
  fold cell_23 in Hname, Hreq. fold s1 in Hname, Hreq.
  split; [exact Hname|].
  eexists. split; [exact (cell_34_takes s1 _ _ Hname (as_job_name_obj _))|].
  cbn [ns requests clock]. split; [by lookups|]. done.
Qed.

End SetupCells.

(** ** The label in the exported files *)

Section Labels.
Context `{NumpyRandom} `{Service}.

Lemma dummy_is_label name lv : name +:+ "_" +:+ lv = "y_yes" → name = "y" ∧ lv = "yes".
Proof.
  destruct name as [|c [|c' name]]; cbn [String.append].
  - discriminate.
  - intros [= Ha Hb]. by subst.
  - intros [= -> -> Hrest].
    pose proof (has_underscore_app name lv) as Hu. rewrite Hrest in Hu.
    vm_compute in Hu. discriminate.
Qed.

Lemma encode_no_label (c : string * Series) :
  c.1 ≠ "y" → filter (λ c : string * Series, c.1 = "y_yes") (encode c) = [].
Proof.
  intros Hc. apply filter_nil_intro. intros d Hd Hname.
  unfold encode in Hd. destruct (c.2); try by apply not_elem_of_nil in Hd.
  apply list_elem_of_fmap in Hd as (lv & -> & _). cbn in Hname.
  by apply dummy_is_label in Hname as [? _].
Qed.

Lemma bind_encode_no_label (cs : list (string * Series)) :
  Forall (λ c, c.1 ≠ "y" ∧ c.1 ≠ "y_yes") cs →
  filter (λ c : string * Series, c.1 = "y_yes") (cs ≫= encode) = []
  ∧ filter (λ c : string * Series, c.1 = "y_yes") cs = [].
Proof.
  induction 1 as [|c cs [Hy Hyes] Hcs [IH1 IH2]]; [done|].
  rewrite bind_cons, filter_app, (encode_no_label c Hy), IH1.
  by rewrite filter_cons_False, IH2.
Qed.

Lemma label_column data pre post v :
  columns data = pre ++ ("y", ObjectS v) :: post →
  Forall (λ c, c.1 ≠ "y" ∧ c.1 ≠ "y_yes") (pre ++ post) →
  "y_yes" ∈ column_names (get_dummies data) →
  filter (λ c, c.1 = "y_yes") (columns (get_dummies data))
  = [("y_yes", UInt8S (indicator "yes" v))].
Proof.
  intros Hc Hothers Hin.
  apply Forall_app in Hothers as [Hpre Hpost].
  destruct (bind_encode_no_label pre Hpre) as [Hpre1 Hpre2].
  destruct (bind_encode_no_label post Hpost) as [Hpost1 Hpost2].
  assert (Hplain : filter (λ c : string * Series, c.1 = "y_yes")
                     (filter (λ c, is_object c.2 = false) (columns data)) = []).
  { rewrite list_filter_filter. apply filter_nil_intro. intros c Hcin [Hname Hobj].
    rewrite Hc in Hcin. apply elem_of_app in Hcin as [Hcin|Hcin].
    - by apply (proj1 (Forall_forall _ _) Hpre) in Hcin as [_ ?].
    - apply elem_of_cons in Hcin as [->|Hcin]; [done|].
      by apply (proj1 (Forall_forall _ _) Hpost) in Hcin as [_ ?]. }
  assert (Hy : filter (λ c : string * Series, c.1 = "y_yes") (encode ("y", ObjectS v))
               = (λ lv, ("y" +:+ "_" +:+ lv, UInt8S (indicator lv v)))
                   <$> filter (λ lv, lv = "yes") (levels v)).
  { unfold encode, dummies. cbn [fst snd]. rewrite filter_fmap.
    f_equal. apply list_filter_iff. intros lv. cbn. split.
    - by intros [_ ->]%dummy_is_label.
    - by intros ->. }
  unfold column_names in Hin.
  rewrite (get_dummies_columns data pre _ post Hc) in Hin |- *.
  rewrite !filter_app, Hplain, Hpre1, Hpost1, Hy, app_nil_r. cbn [app].
  destruct (decide ("yes" ∈ levels v)) as [Hyes|Hno].
  - by rewrite filter_eq_NoDup; [|apply sorted_NoDup, levels_sorted|].
  - exfalso. apply list_elem_of_fmap in Hin as (c & Hname & Hcin).
    assert (Hf : c ∈ filter (λ c : string * Series, c.1 = "y_yes")
                       (filter (λ c, is_object c.2 = false) (columns data)
                        ++ (pre ≫= encode) ++ encode ("y", ObjectS v)
                        ++ (post ≫= encode)))
      by (by apply list_elem_of_filter).
    rewrite !filter_app, Hplain, Hpre1, Hpost1, Hy, app_nil_r in Hf. cbn [app] in Hf.
    apply list_elem_of_fmap in Hf as (lv & _ & Hlv).
    apply list_elem_of_filter in Hlv as [-> Hlv]. done.
Qed.

(** The rows [take] returns are rows of the frame, with their labels. *)
Lemma take_rows_lookup locs df t j lbl row :
  wf df → take locs df = OK t →
  rows t !! j = Some (lbl, row) →
  ∃ pos, pos < nrows df ∧ index df !! pos = Some lbl ∧ row = row_at df pos.
Proof.
  intros Hwf Ht Hj. rewrite (take_rows _ _ _ Hwf Ht) in Hj.
  apply take_inv in Ht as [Hlt _].
  rewrite list_lookup_fmap in Hj.
  destruct (locs !! j) as [pos|] eqn:Hpos; [|done].
  injection Hj as <- <-. exists pos.
  assert (Hp : pos < nrows df) by (apply Hlt; by eapply list_elem_of_lookup_2).
  split; [done|]. split; [|done]. by apply lookup_label_at.
Qed.

Lemma rows_lookup df j lbl :
  index df !! j = Some lbl → rows df !! j = Some (lbl, row_at df j).
Proof. intros Hj. unfold rows. by rewrite list_lookup_imap, Hj. Qed.

Lemma csv_lookup df j lbl line :
  index df !! j = Some lbl →
  to_csv false false df !! j = Some line →
  line = FCell <$> row_at df j.
Proof.
  intros Hj. unfold to_csv. cbn [app].
  rewrite list_lookup_fmap, (rows_lookup _ _ _ Hj). by intros [= <-].
Qed.

Lemma taken_label_first data v new locs t :
  wf new →
  index new = index data →
  length v = nrows new →
  (∃ rest, columns new = ("y_yes", UInt8S (indicator "yes" v)) :: rest) →
  take locs new = OK t →
  ∀ j lbl line,
    index t !! j = Some lbl → to_csv false false t !! j = Some line →
    ∃ pos o,
      index data !! pos = Some lbl
      ∧ v !! pos = Some o
      ∧ head line = Some (FCell (CUInt8 (if decide (o = Some "yes") then 1 else 0)%Z)).
Proof.
  intros Hwf Hidx Hlen [rest Hcols] Ht j lbl line Hj Hline.
  apply (csv_lookup _ _ _ _ Hj) in Hline as ->.
  destruct (take_rows_lookup _ _ _ _ _ _ Hwf Ht (rows_lookup _ _ _ Hj))
    as (pos & Hpos & Hlbl & ->).
  destruct (lookup_lt_is_Some_2 v pos) as [o Ho]; [lia|].
  exists pos, o. rewrite <- Hidx. split; [done|]. split; [done|].
  unfold row_at. rewrite Hcols. cbn [fmap list_fmap head snd cells].
  rewrite list_lookup_fmap, (indicator_lookup _ _ _ _ Ho). done.
Qed.

Lemma encoded_split_label_first src md tr va s s' data pre post v :
  md ≠ tr → md ≠ va → tr ≠ va →
  wf data →
  columns data = pre ++ ("y", ObjectS v) :: post →
  Forall (λ c, c.1 ≠ "y" ∧ c.1 ≠ "y_yes") (pre ++ post) →
  ns s !! src = Some (OFrame data) →
  bind (encode_cell src md) (λ _, reformat_split_save md tr va) s = (OK (), s') →
  label_first data v tr "train.csv" s'
  ∧ label_first data v va "validation.csv" s'.
Proof.
  intros Hn1 Hn2 Hn3 Hwf Hc Hothers Hd.
  intros ([] & s1 & (data' & Hd' & ->)%encode_cell_inv & Hrun)%bind_inv.
  rewrite Hd in Hd'. injection Hd' as <-.
  apply reformat_split_save_inv in Hrun
    as (d & new & train & valid & Hmd & Hsplit & ->); try done.
  cbn [ns] in Hmd. rewrite lookup_insert_eq in Hmd. injection Hmd as <-.
  destruct (saved_lookups md tr va (get_dummies data) new train valid
              (mkState (<[md := OFrame (get_dummies data)]> (ns s)) (files s)
                 (np_random s) (stdout s) (clock s) (requests s)) Hn1 Hn2 Hn3)
    as (_ & Htr & Hva & Hft & Hfv & _).
  apply split_frames_inv in Hsplit as (Hnew & Hyes & _ & Hsample & Hdrop).
  assert (Hwf' : wf new).
  { rewrite Hnew. apply wf_reformatted. by apply wf_get_dummies. }
  assert (Hidx : index new = index data) by (by rewrite Hnew).
  assert (Hlen : length v = nrows new).
  { unfold nrows. rewrite Hidx. fold (nrows data).
    assert (Hin : ("y", ObjectS v) ∈ columns data)
      by (rewrite Hc; apply elem_of_app; right; left).
    apply (proj1 (Forall_forall _ _) Hwf) in Hin. cbn in Hin.
    by rewrite length_fmap in Hin. }
  assert (Hcols : ∃ rest, columns new = ("y_yes", UInt8S (indicator "yes" v)) :: rest).
  { rewrite Hnew. cbn [columns].
    rewrite (label_column data pre post v Hc Hothers Hyes). cbn [app]. eauto. }
  apply seeded_sample_inv in Hsample as (k & _ & _ & Htake).
  apply drop_rows_as_take in Hdrop; [|done].
  split.
  - exists train, (to_csv false false train). do 2 (split; [done|]).
    split; [unfold to_csv; cbn [app]; by rewrite length_fmap, length_rows|].
    by eapply (taken_label_first data v new).
  - exists valid, (to_csv false false valid). do 2 (split; [done|]).
    split; [unfold to_csv; cbn [app]; by rewrite length_fmap, length_rows|].
    by eapply (taken_label_first data v new).
Qed.

(** X15.  Every exported line starts with the label of the customer it
    describes.  When [data] has one column named [y] (and no column named
    [y_yes] of its own), each line of [train.csv] and of [validation.csv]
    belongs to a row whose label is a row label of [data], and its first
    field is 1 when that row's [y] is 'yes' and 0 when it is anything else;
    each file has one line per row of its frame.  This holds in both
    rounds. *)
Theorem exported_lines_start_with_the_label
    (s s' : State) (data : DataFrame) (pre post : list (string * Series))
    (v : list (option string)) :
  wf data →
  columns data = pre ++ ("y", ObjectS v) :: post →
  Forall (λ c, c.1 ≠ "y" ∧ c.1 ≠ "y_yes") (pre ++ post) →
  (ns s !! "data" = Some (OFrame data) →
   run [cell_8; cell_10] s = (OK (), s') →
   label_first data v "train_data" "train.csv" s'
   ∧ label_first data v "validation_data" "validation.csv" s')
  ∧ (ns s !! "clean_data" = Some (OFrame data) →
     cell_30 s = (OK (), s') →
     label_first data v "clean_train_data" "train.csv" s'
     ∧ label_first data v "clean_validation_data" "validation.csv" s').
Proof.
  intros Hwf Hc Hothers. split; intros Hd Hrun.
  - apply run_two_inv in Hrun as (s1 & H8 & H10).
    apply (encoded_split_label_first "data" "model_data" "train_data"
             "validation_data" s s' data pre post v); try done.
    unfold cell_8, cell_10 in *. by rewrite (bind_OK _ _ _ _ _ H8).
  - by apply (encoded_split_label_first "clean_data" "clean_model_data"
                "clean_train_data" "clean_validation_data" s s' data pre post v).
Qed.

End Labels.

(** ** The status cells and the budget of the second job *)

Section Polling.
Context `{NumpyRandom} `{Service} `{Account} `{Analytics} `{NumpySort}.

Lemma poll_polled x s t job :
  x ≠ "sage_client" →
  ns s !! "boto3" = Some (OClass "boto3") →
  new_client = None →
  ns s !! x = Some (OTuner t) →
  _current_job_name t = Some job →
  polled job s (poll x s).
Proof.
  intros Hx Hb Hcl Ht Hjob. unfold polled.
  cbv [poll module tuner_var describe_job tick bind getvar setvar lift ret print].
  rewrite Hb. rewrite decide_True by done. rewrite Hcl.
  exec. cbn [job_name_obj from_option].
  destruct (describe_hyper_parameter_tuning_job _ _) as [d|e]; exec.
  - case_decide; exec; by lookups.
  - by lookups.
Qed.

(** X16.  Each status cell asks about the job of its own tuner.  Once both
    jobs have been started, on a kernel that has [boto3] imported and can
    have a client, the first status cell asks the service about the first
    job and the second about the second, under the names the requests
    carried: the cell ends as the service's answer about that job says, and
    keeps the description it got under [tuning_job_result].  It binds
    [job_name] to that name before it asks, so the name is there whatever the
    answer; it asks once, sends no request and writes no file. *)
Theorem status_cells_poll_their_own_job (s s1 : State) :
  ns s !! "boto3" = Some (OClass "boto3") →
  new_client = None →
  run [cell_19; cell_23; cell_34; cell_35; cell_37] s = (OK (), s1) →
  ∃ first second,
    requests s1 = requests s ++ [first; second]
    ∧ polled (HyperParameterTuningJobName first) s1 (cell_21 s1)
    ∧ polled (HyperParameterTuningJobName second) s1 (cell_38 s1).
Proof.
  intros Hb Hcl Hrun. repeat inv_step. unfold cell_19, cell_37 in *.
  apply fit_inv in Hc as (t1 & tr & va & Ht1 & Htr & Hva & Hcreate & ->). lookups.
  apply cell_23_inv in Hc0 as (t2 & df2 & v2 & Ht2 & _ & ->). lookups.
  apply cell_34_inv in Hc1 as (v & job & Hv & Hjob & ->). lookups.
  apply cell_35_inv in Hc2
    as (xgb & metric & ranges & w & t & Hx & Hm & Hr & Hw & -> & ->). lookups.
  apply fit_inv in Hc3 as (t3 & tr' & va' & Ht3 & Htr' & Hva' & Hcreate' & ->).
  lookups. simplify_eq.
  eexists _, _. split; [by rewrite <- app_assoc|].
  unfold cell_21, cell_38.
  split; (eapply poll_polled; [done | by lookups | done | by lookups | reflexivity]).
Qed.

End Polling.

Section Budget.
Context `{NumpyRandom} `{Service} `{Account} `{Analytics} `{NumpySort}.

(** X17.  The second job searches the ranges of the first with a larger
    budget.  Whatever the reader writes in the tuner cell, the second request
    carries the ranges bound to [hyperparameter_ranges], at most 20 training
    jobs, 2 of them in parallel, and a name made from ['warmstart'] at the
    time of the call.  When the first tuner is built as the cell's comments
    direct, the first request carries the same ranges, with 5 jobs and 3 in
    parallel, and the same training image. *)
Theorem second_job_budget_and_ranges (ranges tuner : expr) (s s' : State) :
  run [cell_17 (Some ranges) (Some tuner); cell_19; cell_23; cell_34; cell_35; cell_37] s
    = (OK (), s') →
  ∃ first second r,
    requests s' = requests s ++ [first; second]
    ∧ ns s' !! "hyperparameter_ranges" = Some (ORanges r)
    ∧ ParameterRanges second = r
    ∧ MaxNumberOfTrainingJobs second = 20%Z
    ∧ MaxParallelTrainingJobs second = 2%Z
    ∧ HyperParameterTuningJobName second = name_from_base "warmstart" (clock s + 3)
    ∧ (tuner = tuner_as_directed →
       ParameterRanges first = r
       ∧ MaxNumberOfTrainingJobs first = 5%Z
       ∧ MaxParallelTrainingJobs first = 3%Z
       ∧ TrainingImage first = TrainingImage second).
Proof.
  intros Hrun. repeat inv_step. unfold cell_19, cell_37 in *.
  apply cell_17_inv in Hc as (r & t0 & Hr & Ht0 & ->). lookups.
  apply fit_inv in Hc0 as (t1 & tr & va & Ht1 & Htr & Hva & Hcreate & ->). lookups.
  apply cell_23_inv in Hc1 as (t2 & df2 & v2 & Ht2 & _ & ->). lookups.
  apply cell_34_inv in Hc2 as (v & job & Hv & Hjob & ->). lookups.
  apply cell_35_inv in Hc3
    as (xgb & metric & rs & w & t & Hx & Hm & Hrs & Hw & -> & ->). lookups.
  apply fit_inv in Hc4 as (t3 & tr' & va' & Ht3 & Htr' & Hva' & Hcreate' & ->).
  lookups. simplify_eq.
  eexists _, _, rs. split; [by rewrite <- app_assoc|].
  split; [done|]. split; [done|]. split; [done|]. split; [done|].
  split; [cbn; unfold base_name; cbn; f_equal; lia|].
  intros ->. apply tuner_as_directed_inv in Ht0
    as (xgb' & metric' & rs' & Hx' & Hm' & Hrs' & [= ->]).
  lookups. by simplify_eq.
Qed.
End Budget.

(** ** The tables of results *)

Section Results.
Context `{NumpyRandom} `{Service} `{Account} `{Analytics} `{NumpySort}.

Lemma compress_partition {A} (mask : list bool) (l : list A) :
  compress (negb <$> mask) l ++ compress mask l ≡ₚ firstn (length mask) l.
Proof.
  revert l. induction mask as [|b mask IH]; intros [|x l]; try done.
  cbn. destruct b; cbn.
  - rewrite <- Permutation_middle. by rewrite IH.
  - by rewrite IH.
Qed.

Lemma length_compress_same {A B} (mask : list bool) (l : list A) (k : list B) :
  length l = length k → length (compress mask l) = length (compress mask k).
Proof.
  revert l k. induction mask as [|b mask IH]; intros [|x l] [|y k] Hlen; try done.
  cbn in *. destruct b; cbn; rewrite (IH l k); lia.
Qed.

Lemma take_list_seq {A} (l : list A) : take_list (seq 0 (length l)) l = l.
Proof.
  induction l as [|x l IH]; [done|].
  cbn [length seq]. rewrite <- fmap_S_seq.
  unfold take_list at 1. cbn. fold (take_list (S <$> seq 0 (length l)) (x :: l)).
  by rewrite take_list_S, IH.
Qed.

Lemma take_list_permutation {A} p (l : list A) :
  p ≡ₚ seq 0 (length l) → take_list p l ≡ₚ l.
Proof. intros Hp. unfold take_list. rewrite Hp. apply reflexive_eq, take_list_seq. Qed.

Lemma take_list_app {A} p q (l : list A) :
  take_list (p ++ q) l = take_list p l ++ take_list q l.
Proof. apply omap_app. Qed.

Lemma take_list_reverse {A} p (l : list A) :
  take_list (reverse p) l = reverse (take_list p l).
Proof.
  induction p as [|i p IH]; [done|].
  rewrite reverse_cons, take_list_app, IH. unfold take_list.
  change (omap (λ j, l !! j) (i :: p))
    with (match l !! i with Some x => x :: omap (λ j, l !! j) p
                          | None => omap (λ j, l !! j) p end).
  change (omap (λ j, l !! j) [i])
    with (match l !! i with Some x => [x] | None => [] end).
  destruct (l !! i); [by rewrite reverse_cons | by rewrite app_nil_r].
Qed.

Lemma take_list_take_list {A} p q (l : list A) :
  Forall (λ i, i < length l) q →
  take_list (take_list p q) l = take_list p (take_list q l).
Proof.
  intros Hq. unfold take_list.
  assert (Hlook : ∀ i, omap (λ j, l !! j) q !! i = q !! i ≫= (λ j, l !! j)).
  { clear p. induction Hq as [|j q Hj Hq IH]; intros i; [done|].
    cbn. destruct (lookup_lt_is_Some_2 _ _ Hj) as [x Hx]. rewrite Hx.
    destruct i; cbn; [done | apply IH]. }
  induction p as [|i p IH]; [done|].
  cbn. rewrite Hlook. destruct (q !! i) as [j|]; cbn; [|done].
  rewrite IH. done.
Qed.

Lemma nargsort_permutation items :
  argsort (handed_to_numpy items) ≡ₚ seq 0 (length (handed_to_numpy items)) →
  nargsort false items ≡ₚ seq 0 (length items).
Proof.
  unfold nargsort, handed_to_numpy. intros Hperm.
  set (mask := isna <$> items). set (idx := seq 0 (length items)).
  assert (Hlen : length (compress (negb <$> mask) items)
                 = length (compress (negb <$> mask) idx)).
  { apply length_compress_same. unfold idx. by rewrite length_seq. }
  assert (Hidx : firstn (length mask) idx = idx).
  { apply firstn_all2. unfold mask, idx. rewrite length_fmap, length_seq. done. }
  transitivity (compress (negb <$> mask) idx ++ compress mask idx);
    [|by rewrite compress_partition, Hidx].
  apply Permutation_app; [|done].
  rewrite reverse_Permutation.
  rewrite take_list_permutation; [apply reverse_Permutation|].
  fold mask in Hperm. rewrite Hperm, !length_reverse. by rewrite Hlen.
Qed.

Lemma compress_in_seq mask n :
  Forall (λ i, i < n) (compress mask (seq 0 n)).
Proof.
  apply Forall_forall. intros i Hi.
  pose proof (elem_of_sublist _ _ _ Hi (compress_sublist mask (seq 0 n))) as Hin.
  apply elem_of_seq in Hin. lia.
Qed.

Lemma compress_positions {A} mask (l : list A) :
  length l = length mask →
  take_list (compress mask (seq 0 (length l))) l = compress mask l.
Proof.
  intros Hlen. rewrite (compress_take_list mask l Hlen). unfold kept.
  by rewrite Hlen.
Qed.

Lemma nargsort_values items :
  let numbers := handed_to_numpy items in
  take_list (nargsort false items) items
  = reverse (take_list (argsort numbers) numbers) ++ compress (isna <$> items) items.
Proof.
  intros numbers. unfold nargsort. set (mask := isna <$> items).
  rewrite take_list_app, take_list_reverse.
  change (reverse (compress (negb <$> mask) items)) with numbers.
  rewrite take_list_take_list.
  2:{ apply Forall_reverse, compress_in_seq. }
  rewrite take_list_reverse.
  rewrite !compress_positions by (unfold mask; by rewrite !length_fmap).
  done.
Qed.

Lemma StronglySorted_reverse {A} (R : relation A) l :
  StronglySorted R l → StronglySorted (flip R) (reverse l).
Proof.
  induction 1 as [|x l Hl IH Hx]; [constructor|].
  rewrite reverse_cons.
  assert (Hsnoc : ∀ k, StronglySorted (flip R) k → Forall (λ y, R x y) k →
                       StronglySorted (flip R) (k ++ [x])).
  { clear. induction 1 as [|y k Hk IH Hy]; intros Hall.
    - repeat constructor.
    - apply Forall_cons in Hall as [Hxy Hall]. cbn. constructor; [by apply IH|].
      apply Forall_app. split; [done|]. by repeat constructor. }
  apply Hsnoc; [done|]. by apply Forall_reverse.
Qed.

Lemma missing_of mask_of (items : list cell) :
  mask_of = isna <$> items → Forall (λ c, isna c = true) (compress mask_of items).
Proof.
  intros ->. induction items as [|c items IH]; [constructor|].
  cbn. destruct (isna c) eqn:Hc; [by constructor | done].
Qed.

(** Sorting a table on its objective column, best first. *)
Lemma sort_values_best_first df name v :
  wf df →
  filter (λ c, c.1 = "FinalObjectiveValue") (columns df) = [(name, FloatS v)] →
  argsort_spec (handed_to_numpy (CFloat <$> v)) →
  ∃ sorted,
    sort_values "FinalObjectiveValue" false df = OK sorted
    ∧ rows sorted ≡ₚ rows df
    ∧ column_names sorted = column_names df
    ∧ best_first sorted.
Proof.
  intros Hwf Hcol [Hsperm Hsorted]. unfold sort_values. rewrite Hcol. cbn [snd cells].
  set (items := CFloat <$> v) in *.
  assert (Hin : (name, FloatS v) ∈ columns df).
  { eapply list_elem_of_filter. rewrite Hcol. left. }
  assert (Hlen : length items = nrows df).
  { apply (proj1 (Forall_forall _ _) Hwf) in Hin. done. }
  pose proof (nargsort_permutation items Hsperm) as Hperm.
  rewrite take_OK.
  2:{ intros i Hi. rewrite Hperm in Hi. apply elem_of_seq in Hi. lia. }
  eexists. split; [reflexivity|].
  match goal with |- rows ?t ≡ₚ _ ∧ _ => set (sorted := t) end.
  assert (Htake : take (nargsort false items) df = OK sorted).
  { apply take_OK. intros i Hi. rewrite Hperm in Hi. apply elem_of_seq in Hi. lia. }
  split; [|split].
  - rewrite (take_rows _ _ _ Hwf Htake), rows_seq, Hperm, Hlen. done.
  - by apply take_shape in Htake as [-> _].
  - exists (name, FloatS (take_list (nargsort false items) v)).
    eexists _, _. split; [|split; [|split]].
    + unfold sorted. cbn [columns].
      rewrite (filter_fmap (prod_map id (select (λ A, take_list (nargsort false items))))
                 (λ c : string * Series, c.1 = "FinalObjectiveValue")).
      erewrite (list_filter_iff _ (λ c : string * Series, c.1 = "FinalObjectiveValue"));
        [|by intros []].
      rewrite Hcol. done.
    + cbn [snd cells]. rewrite <- take_list_fmap. fold items.
      apply nargsort_values.
    + by apply StronglySorted_reverse.
    + by apply missing_of.
Qed.

Lemma results_nothing_to_show x jn mv tv s t df :
  jn ≠ "sagemaker" → jn ≠ tv → mv ≠ tv →
  ns s !! x = Some (OTuner t) →
  ns s !! "sagemaker" = Some (OClass "sagemaker") →
  new_session = None →
  fetch_dataframe (clock s) (_current_job_name t) = OK df →
  empty df = true →
  nothing_to_show (results x jn mv tv) tv s.
Proof.
  intros Hn1 Hn2 Hn3 Ht Hm Hsess Hfetch Hempty. unfold nothing_to_show.
  cbv [results dataframe module tuner_var tick bind getvar setvar lift ret].
  exec. rewrite decide_True by done. exec. rewrite as_job_name_obj.
  exec. cbn [_dataframe _tuning_job_name]. exec.
  destruct (ns s !! tv) eqn:Htv; exec; by lookups.
Qed.

Lemma results_shown x jn mv tv s t df name v :
  jn ≠ "sagemaker" →
  ns s !! x = Some (OTuner t) →
  ns s !! "sagemaker" = Some (OClass "sagemaker") →
  new_session = None →
  fetch_dataframe (clock s) (_current_job_name t) = OK df →
  empty df = false →
  wf df →
  filter (λ c, c.1 = "FinalObjectiveValue") (columns df) = [(name, FloatS v)] →
  argsort_spec (handed_to_numpy (CFloat <$> v)) →
  shown (results x jn mv tv) tv df s.
Proof.
  intros Hn1 Ht Hm Hsess Hfetch Hempty Hwf Hcol Hspec.
  destruct (sort_values_best_first df name v Hwf Hcol Hspec)
    as (sorted & Hsort & Hrows & Hnames & Hbest).
  unfold shown.
  cbv [results dataframe module tuner_var tick bind getvar setvar lift ret].
  exec. rewrite decide_True by done. exec. rewrite as_job_name_obj.
  repeat (progress (exec; cbn [_dataframe _tuning_job_name])).
  eexists _, sorted. split; [reflexivity|]. by lookups.
Qed.

(** X18.  The results cell needs a training job.  While the service lists no
    training job for the tuner's job (the table is empty), the cell skips the
    assignment of the table's name and ends on its last line, which displays
    it: with [NameError] when the name was never bound, and otherwise with
    the table of an earlier run, left as it was.  The cell has asked the
    service once and printed nothing.  This holds for the results cells of
    both jobs. *)
Theorem results_need_a_training_job
    (s : State) (t : HyperparameterTuner) (df : DataFrame) :
  ns s !! "sagemaker" = Some (OClass "sagemaker") →
  new_session = None →
  fetch_dataframe (clock s) (_current_job_name t) = OK df →
  empty df = true →
  (ns s !! "tuner" = Some (OTuner t) → nothing_to_show cell_23 "df_parent" s)
  ∧ (ns s !! "tuner_warm_start" = Some (OTuner t) →
     nothing_to_show cell_40 "df_warm_start" s).
Proof.
  intros Hm Hsess Hfetch Hempty.
  split; intros Ht; by eapply results_nothing_to_show.
Qed.

(** X19.  The results table lists the training jobs best first.  When the
    service lists training jobs (a table with rows, one value per row in
    every column, and one [FinalObjectiveValue] column, of floats), the cell
    goes through and binds the table's name to a frame with the columns of
    the listing and its rows, each once; the objective column holds the
    values that are numbers in descending order, then the missing ones.
    numpy's [argsort] is taken to return, for the array it is handed, the
    positions in ascending order of their values.  This holds for the
    results cells of both jobs. *)
Theorem results_table_lists_best_first
    (s : State) (t : HyperparameterTuner) (df : DataFrame) (name : string)
    (v : list float) :
  ns s !! "sagemaker" = Some (OClass "sagemaker") →
  new_session = None →
  fetch_dataframe (clock s) (_current_job_name t) = OK df →
  empty df = false →
  wf df →
  filter (λ c, c.1 = "FinalObjectiveValue") (columns df) = [(name, FloatS v)] →
  argsort_spec (handed_to_numpy (CFloat <$> v)) →
  (ns s !! "tuner" = Some (OTuner t) → shown cell_23 "df_parent" df s)
  ∧ (ns s !! "tuner_warm_start" = Some (OTuner t) →
     shown cell_40 "df_warm_start" df s).
Proof.
  intros Hm Hsess Hfetch Hempty Hwf Hcol Hspec.
  split; intros Ht; by eapply results_shown.
Qed.
End Results.

(** ** The further properties on the sample kernels *)

(** A run that goes through on a sample kernel: its final state. *)
Ltac ran r s' Hrun :=
  destruct r as [[[]|?] s'] eqn:Hrun;
  [|exfalso; apply (f_equal fst) in Hrun; vm_compute in Hrun; discriminate Hrun].

Lemma reformatting_loses_only_y_no_witness :
  reformatted (get_dummies bank_sample) "model_data"
    (run [cell_8; cell_10] kernel_sample).2.
Proof.
  ran (run [cell_8; cell_10] kernel_sample) s' Hrun.
  apply (proj1 (reformatting_loses_only_y_no kernel_sample s' bank_sample));
    [reflexivity | exact Hrun].
Defined.

Lemma cell_10_runs_once_witness :
  let s := (cell_8 kernel_sample).2 in
  (cell_10 s).1 = OK () ∧ (cell_10 (cell_10 s).2).1 = Raise (KeyError "y_no").
Proof.
  intros s. ran (cell_10 s) s' Hrun. split; [reflexivity|].
  cbn [snd]. by rewrite (cell_10_runs_once s s' Hrun).
Defined.

Lemma preparation_can_be_repeated_witness :
  let s' := (run [cell_8; cell_10] kernel_sample).2 in
  run [cell_8; cell_10] s' = (OK (), s').
Proof.
  ran (run [cell_8; cell_10] kernel_sample) s' Hrun. cbn [snd].
  exact (proj1 (preparation_can_be_repeated kernel_sample s') Hrun).
Defined.

Lemma held_out_rows_keep_their_order_witness :
  held_out_in_order "model_data" "validation_data"
    (run [cell_8; cell_10] kernel_sample).2.
Proof.
  ran (run [cell_8; cell_10] kernel_sample) s' Hrun.
  apply (proj1 (held_out_rows_keep_their_order kernel_sample s' bank_sample
                  wf_bank_sample)); [reflexivity | exact Hrun].
Defined.

(** The three customers who all declined: no [y_yes] column to split on.
    Three rows without any column: nothing to encode. *)
Lemma preparation_fails_only_for_missing_columns_witness :
  let s := (cell_8 (mkState (H := rotating) (<["data" := OFrame declined_sample]> ∅) ∅
                      (0%nat : @rng rotating) [] 0 [])).2 in
  let bare := {| index := seq 0 3; columns := [] |} in
  let s2 := mkState (H := rotating) (<["clean_data" := OFrame bare]> ∅) ∅
                    (0%nat : @rng rotating) [] 0 [] in
  ((cell_10 s).1 = Raise (KeyError "y_yes")
   ∧ ("y_yes" ∉ column_names (get_dummies declined_sample)))
  ∧ ((cell_30 s2).1 = Raise (ValueError "No objects to concatenate")
     ∧ columns bare = []).
Proof.
  intros s bare s2.
  assert (Hrun : (cell_10 s).1 = Raise (KeyError "y_yes")) by (vm_compute; reflexivity).
  assert (Hrun2 : (cell_30 s2).1 = Raise (ValueError "No objects to concatenate"))
    by (vm_compute; reflexivity).
  split; (split; [assumption|]).
  - destruct (proj1 (preparation_fails_only_for_missing_columns rotating_permutation s
                       (get_dummies declined_sample) (KeyError "y_yes")
                       ltac:(unfold max_rows; cbn; lia)) eq_refl Hrun)
      as [[_ Hn] | [Heq _]]; [exact Hn | discriminate Heq].
  - destruct (proj2 (preparation_fails_only_for_missing_columns rotating_permutation s2
                       bare (ValueError "No objects to concatenate")
                       ltac:(unfold max_rows; cbn; lia)) eq_refl Hrun2)
      as [[_ Hc] | [[Heq _] | [Heq _]]];
      [exact Hc | discriminate Heq | discriminate Heq].
Defined.

Lemma both_files_get_rows_witness :
  both_files_filled 10 (run [cell_8; cell_10] kernel_sample).2.
Proof.
  ran (run [cell_8; cell_10] kernel_sample) s' Hrun.
  apply (proj1 (both_files_get_rows rotating_permutation kernel_sample s' bank_sample
                  wf_bank_sample (NoDup_seq 0 10)
                  ltac:(unfold max_rows; cbn; lia)));
    [reflexivity | exact Hrun].
Defined.

Lemma both_rounds_hold_out_the_same_rows_witness :
  same_rows (run [cell_8; cell_10; cell_28; cell_30] kernel_sample).2.
Proof.
  ran (run [cell_8; cell_10; cell_28; cell_30] kernel_sample) s' Hrun.
  exact (both_rounds_hold_out_the_same_rows kernel_sample s' Hrun).
Defined.

Lemma second_round_is_first_without_forecast_columns_witness :
  ∃ train clean_train,
    ns (run [cell_8; cell_10; cell_28; cell_30] kernel_sample).2 !! "clean_train_data"
      = Some (OFrame clean_train)
    ∧ drop_columns forecast_columns train = OK clean_train.
Proof.
  ran (run [cell_8; cell_10; cell_28; cell_30] kernel_sample) s' Hrun.
  destruct (second_round_is_first_without_forecast_columns kernel_sample s' bank_sample)
    as (train & valid & ctrain & cvalid & _ & _ & Hct & _ & Hdrop & _).
  - reflexivity.
  - intros c Hc Hf. apply list_elem_of_In in Hc. vm_compute in Hc.
    repeat (destruct Hc as [<-|Hc];
            [first [reflexivity
                   | exfalso; apply list_elem_of_In in Hf; vm_compute in Hf;
                     repeat (destruct Hf as [Hf|Hf]; [discriminate Hf|]); exact Hf]|]).
    destruct Hc.
  - exact Hrun.
  - exists train, ctrain. split; [exact Hct | exact Hdrop].
Defined.

Lemma input_locations_do_not_overlap_witness :
  ∃ b, located b "DEMO-marketing-warmstart"
         (run [cell_1 (H1 := instance_sample); cell_12_locations; cell_13;
               cell_31_locations; cell_32] fresh_kernel).2
     ∧ String.prefix (s3_uri b "DEMO-marketing-warmstart" "train/")
                     (s3_uri b "DEMO-marketing-warmstart" "train_2/") = false.
Proof.
  ran (run [cell_1 (H1 := instance_sample); cell_12_locations; cell_13;
            cell_31_locations; cell_32] fresh_kernel) s' Hrun.
  destruct (input_locations_do_not_overlap (H1 := instance_sample) fresh_kernel s' Hrun)
    as (b & _ & Hloc & _ & Hfree).
  exists b. split; [exact Hloc|]. apply Hfree.
  - apply list_elem_of_here.
  - apply list_elem_of_further, list_elem_of_further, list_elem_of_here.
  - discriminate.
Defined.

Lemma second_job_reads_the_clean_data_witness :
  let s := (cell_1 (H1 := instance_sample) fresh_kernel).2 in
  ∃ s' first second t,
    run [cell_12_locations; cell_13; cell_15 (H1 := instance_sample);
         cell_17 (Some ranges_as_directed) (Some tuner_as_directed);
         cell_19; cell_23; cell_31_locations; cell_32; cell_34; cell_35; cell_37] s
      = (OK (), s')
    ∧ requests s' = [first; second]
    ∧ ns s' !! "tuner_warm_start" = Some (OTuner t)
    ∧ output_path (estimator t)
      = "s3://sagemaker-us-east-1-002268754244/DEMO-marketing-warmstart/output"
    ∧ (λ c, s3_data c.2) <$> InputDataConfig second
      = ["s3://sagemaker-us-east-1-002268754244/DEMO-marketing-warmstart/train_2/";
         "s3://sagemaker-us-east-1-002268754244/DEMO-marketing-warmstart/validation_2/"].
Proof.
  intros s.
  ran (run [cell_12_locations; cell_13; cell_15 (H1 := instance_sample);
            cell_17 (Some ranges_as_directed) (Some tuner_as_directed);
            cell_19; cell_23; cell_31_locations; cell_32; cell_34; cell_35; cell_37] s)
      s' Hrun.
  destruct (second_job_reads_the_clean_data (H1 := instance_sample)
              ranges_as_directed tuner_as_directed s s'
              "sagemaker-us-east-1-002268754244" "DEMO-marketing-warmstart")
    as (first & second & t & Hreq & _ & Hin & Ht & _ & _ & Hout & _);
    [reflexivity | reflexivity | exact Hrun |].
  exists s', first, second, t. split; [reflexivity|].
  split; [exact Hreq|]. split; [exact Ht|]. split; [exact Hout|].
  rewrite Hin. reflexivity.
Defined.

Lemma refused_job_keeps_its_name_witness :
  let s := (cell_17 (Some ranges_as_directed) (Some tuner_as_directed)
              kernel_sample).2 in
  ∃ s1,
    cell_19 (H0 := over_quota) s = (Raise (ClientError "ResourceLimitExceeded"), s1)
    ∧ length (requests s1) = 1
    ∧ ns (cell_23 s1).2 !! "tuning_job_name" = Some (OStr "xgboost-0").
Proof.
  intros s.
  destruct (refused_job_keeps_its_name (H0 := over_quota) s
              (directed_tuner xgb_sample) (input_sample "train")
              (input_sample "validation") (ClientError "ResourceLimitExceeded"))
    as (s1 & H19 & Hreq & _ & Hname & _);
    [reflexivity | reflexivity | reflexivity | reflexivity |].
  exists s1. split; [exact H19|]. split; [by rewrite Hreq | exact Hname].
Defined.

(** A tuner that was never fitted: the service refuses to list the training
    jobs of no job, and the parent is [None]. *)
Lemma warm_start_takes_any_parent_witness :
  let s := (cell_17 (Some ranges_as_directed) (Some tuner_as_directed)
              kernel_sample).2 in
  (cell_23 s).1 = Raise (ClientError "ValidationException")
  ∧ ns (cell_23 s).2 !! "tuning_job_name" = Some ONone
  ∧ ∃ s', cell_34 (cell_23 s).2 = (OK (), s')
        ∧ ns s' !! "warm_start_config"
          = Some (OWarmStartConfig {| type := TRANSFER_LEARNING;
                                      parents := {[ None ]} |}).
Proof.
  intros s. split; [vm_compute; reflexivity|].
  destruct (warm_start_takes_any_parent s (directed_tuner xgb_sample))
    as (Hname & s' & Hrun & Hw & _); [reflexivity|].
  split; [exact Hname|]. exists s'. split; [exact Hrun | exact Hw].
Defined.

Lemma exported_lines_start_with_the_label_witness :
  label_first bank_sample y_sample "train_data" "train.csv"
    (run [cell_8; cell_10] kernel_sample).2.
Proof.
  ran (run [cell_8; cell_10] kernel_sample) s' Hrun.
  refine (proj1 (proj1 (exported_lines_start_with_the_label kernel_sample s' bank_sample
                   (firstn 8 (columns bank_sample)) [] y_sample wf_bank_sample
                   eq_refl _) eq_refl Hrun)).
  repeat (constructor; [split; discriminate|]). constructor.
Defined.

Lemma status_cells_poll_their_own_job_witness :
  let s := (cell_17 (Some ranges_as_directed) (Some tuner_as_directed) kernel_sample).2 in
  let s1 := (run [cell_19; cell_23; cell_34; cell_35; cell_37] s).2 in
  polled "xgboost-0" s1 (cell_21 s1) ∧ polled "warmstart-3" s1 (cell_38 s1).
Proof.
  intros s.
  ran (run [cell_19; cell_23; cell_34; cell_35; cell_37] s) s1 Hrun.
  cbn [snd].
  destruct (status_cells_poll_their_own_job s s1)
    as (first & second & Hreq & H21 & H38);
    [reflexivity | reflexivity | exact Hrun |].
  assert (Hr : requests s1 = requests (run [cell_19; cell_23; cell_34; cell_35; cell_37] s).2)
    by (by rewrite Hrun).
  rewrite Hreq in Hr. vm_compute in Hr. injection Hr as -> ->.
  split; [exact H21 | exact H38].
Defined.

Lemma second_job_budget_and_ranges_witness :
  ∃ s' first second,
    run [cell_17 (Some ranges_as_directed) (Some tuner_as_directed);
         cell_19; cell_23; cell_34; cell_35; cell_37] kernel_sample = (OK (), s')
    ∧ requests s' = [first; second]
    ∧ ParameterRanges second = directed_ranges
    ∧ ParameterRanges first = directed_ranges
    ∧ HyperParameterTuningJobName second = "warmstart-3".
Proof.
  ran (run [cell_17 (Some ranges_as_directed) (Some tuner_as_directed);
            cell_19; cell_23; cell_34; cell_35; cell_37] kernel_sample) s' Hrun.
  destruct (second_job_budget_and_ranges _ _ kernel_sample s' Hrun)
    as (first & second & r & Hreq & Hr & Hr2 & _ & _ & Hname & Hfirst).
  destruct (Hfirst eq_refl) as (Hr1 & _).
  assert (Hd : r = directed_ranges).
  { assert (Hns : ns s' !! "hyperparameter_ranges"
                  = ns (run [cell_17 (Some ranges_as_directed) (Some tuner_as_directed);
                             cell_19; cell_23; cell_34; cell_35; cell_37]
                          kernel_sample).2 !! "hyperparameter_ranges")
      by (by rewrite Hrun).
    rewrite Hr in Hns. vm_compute in Hns. injection Hns as ->. reflexivity. }
  exists s', first, second. split; [reflexivity|]. split; [exact Hreq|].
  rewrite Hr2, Hr1, Hd, Hname. repeat split; reflexivity.
Defined.

(** No training job yet, and no table from an earlier run. *)
Lemma results_need_a_training_job_witness :
  (cell_23 started_kernel).1 = Raise (NameError "df_parent").
Proof.
  destruct (results_need_a_training_job started_kernel tuner_sample
              {| index := []; columns := [] |}) as [H23 _];
    [reflexivity | reflexivity | reflexivity | reflexivity |].
  destruct (H23 eq_refl) as (Hr & _).
  etransitivity; [exact Hr | vm_compute; reflexivity].
Defined.

(** The sample kernel once the first job has been started: two training jobs
    are listed. *)
Lemma results_table_lists_best_first_witness :
  let s := (run [cell_17 (Some ranges_as_directed) (Some tuner_as_directed); cell_19]
              kernel_sample).2 in
  shown cell_23 "df_parent" jobs_sample s.
Proof.
  intros s.
  destruct (results_table_lists_best_first s tuner_sample jobs_sample
              "FinalObjectiveValue" [0.75; 0.875]%float) as [H23 _].
  - reflexivity.
  - reflexivity.
  - reflexivity.
  - reflexivity.
  - repeat constructor.
  - reflexivity.
  - split.
    + vm_compute. apply perm_swap.
    + vm_compute. repeat constructor. by exists 0.75%float, 0.875%float.
  - apply H23. reflexivity.
Defined.
